(** * trader.py: a shallow embedding and its verified properties

    The development follows [src/trader.py]: the request signer
    ([BinanceTrader._generate_signature]), the two authenticated calls
    ([get_account_info], [place_limit_order]), the time-of-day resolver
    ([parse_time_input]), the balance display ([print_balance] and its copy in
    [main]) and the countdown loop of [main] / [interactive_trading].

    Python values are modelled as follows.
    - [str] is a Rocq [string] holding the UTF-8 encoding of the text, so
      [s.encode("utf-8")] is the list of its bytes and concatenation is
      concatenation; [len] counts code points (bytes that are not UTF-8
      continuation bytes).
    - [int] is [Z]; [float] is IEEE binary64, as [spec_float] with
      [prec = 53] and [emax = 1024].
    - a [dict] is an association list in insertion order.
    - an exception is a value of [exception]; code that may raise returns
      [result]; code that prints or talks to the network runs in the monad
      [M], which records the events in order. *)

From Stdlib Require Import ZArith String Ascii List Lia Bool Sorted.
From Stdlib Require Import DecimalString SpecFloat.
Import ListNotations.
Set Warnings "-register-all".
Local Open Scope string_scope.
Local Open Scope list_scope.
Local Open Scope Z_scope.

Notation "s1 +++ s2" := (String.append s1 s2)
  (at level 60, right associativity) : string_scope.

(* ================================================================= *)
(** * Python builtins used by the program *)

Module Py.

(** ** Text *)

Definition code (c : ascii) : Z := Z.of_N (N_of_ascii c).
Definition chr (n : Z) : ascii := ascii_of_N (Z.to_N n).

(** [s.encode("utf-8")]. *)
Definition encode_utf8 (s : string) : list Z := map code (list_ascii_of_string s).

(** A byte [10xxxxxx] continues a code point. *)
Definition is_continuation (c : ascii) : bool := (128 <=? code c) && (code c <? 192).

(** [len(s)]: the number of code points. *)
Fixpoint len (s : string) : nat :=
  match s with
  | EmptyString => O
  | String c r => if is_continuation c then len r else S (len r)
  end.

Fixpoint replicate (n : nat) (c : ascii) : string :=
  match n with
  | O => EmptyString
  | S n' => String c (replicate n' c)
  end.

(** [sep.join(parts)]. *)
Fixpoint join (sep : string) (parts : list string) : string :=
  match parts with
  | [] => EmptyString
  | [p] => p
  | p :: rest => (p +++ sep +++ join sep rest)%string
  end.

(** [s.split(sep)] for a one-character separator: never an empty list. *)
Fixpoint split (sep : ascii) (s : string) : list string :=
  match s with
  | EmptyString => [EmptyString]
  | String c r =>
      if Ascii.eqb c sep then EmptyString :: split sep r
      else match split sep r with
           | h :: t => String c h :: t
           | [] => [String c EmptyString]
           end
  end.

(** [s.upper()] on ASCII letters; the symbols and sides of the exchange are
    ASCII, other bytes are kept. *)
Definition upper_char (c : ascii) : ascii :=
  if (97 <=? code c) && (code c <=? 122) then chr (code c - 32) else c.

Fixpoint upper (s : string) : string :=
  match s with
  | EmptyString => EmptyString
  | String c r => String (upper_char c) (upper r)
  end.

Fixpoint lower (s : string) : string :=
  match s with
  | EmptyString => EmptyString
  | String c r =>
      String (if (65 <=? code c) && (code c <=? 90) then chr (code c + 32) else c) (lower r)
  end.

(** The ASCII white space that [int()] and [float()] skip at both ends. *)
Definition is_space (c : ascii) : bool :=
  ((9 <=? code c) && (code c <=? 13)) || (code c =? 32).

Definition is_digit (c : ascii) : bool := (48 <=? code c) && (code c <=? 57).

Fixpoint lstrip (s : string) : string :=
  match s with
  | String c r => if is_space c then lstrip r else s
  | EmptyString => EmptyString
  end.

Fixpoint rev_string (s acc : string) : string :=
  match s with
  | EmptyString => acc
  | String c r => rev_string r (String c acc)
  end.

Definition strip (s : string) : string :=
  rev_string (lstrip (rev_string (lstrip s) EmptyString)) EmptyString.

(** [format(s, ">6")]-style padding: [rjust] pads on the left, [ljust] on the
    right, both to a width counted in code points. *)
Definition rjust (width : nat) (s : string) : string :=
  (replicate (width - len s) " " +++ s)%string.

Definition ljust (width : nat) (s : string) : string :=
  (s +++ replicate (width - len s) " ")%string.

(** [s.center(width)] (CPython's [pad]: the left margin is
    [pad/2 + (pad & width & 1)]). *)
Definition center (width : nat) (s : string) : string :=
  let marg := (width - len s)%nat in
  let left := (Nat.div marg 2 + (if Nat.odd marg && Nat.odd width then 1 else 0))%nat in
  (replicate left " " +++ s +++ replicate (marg - left) " ")%string.

(** ** Integers *)

(** [str(n)] for an [int]. *)
Definition str_of_int (n : Z) : string := NilZero.string_of_int (Z.to_int n).

(** The digits of an integer literal: decimal digits, single underscores
    allowed between two digits. [prev] tells whether the previous character
    was a digit; the result is the value and the number of digits. *)
Fixpoint digits_value (s : string) (prev : bool) (acc : Z) (n : nat) : option (Z * nat) :=
  match s with
  | EmptyString => if prev then Some (acc, n) else None
  | String c r =>
      if is_digit c then digits_value r true (10 * acc + (code c - 48)) (S n)
      else if Ascii.eqb c "_" then
        if prev then digits_value r false acc n else None
      else None
  end.

(** CPython's default [sys.int_max_str_digits]. *)
Definition int_max_str_digits : nat := 4300.

(** [int(s)] for a [str] of ASCII characters: [None] stands for
    [ValueError]. White space is stripped, one sign may precede the digits.
    ([int] also reads the decimal digits and spaces of other scripts; text
    with such characters is outside this definition.) *)
Definition int_of_string (s : string) : option Z :=
  let t := strip s in
  let '(neg, body) :=
    match t with
    | String "-" r => (true, r)
    | String "+" r => (false, r)
    | _ => (false, t)
    end in
  match digits_value body false 0 O with
  | Some (v, n) =>
      if (int_max_str_digits <? n)%nat then None
      else Some (if neg then - v else v)
  | None => None
  end.

(** ** Floats (IEEE binary64) *)

Definition float : Set := spec_float.
Definition prec : Z := 53.
Definition emax : Z := 1024.

Definition fzero : float := S754_zero false.

(** [x > 0] for a float [x] and the [int] zero. *)
Definition gt_zero (x : float) : bool := SFltb fzero x.

(** The float nearest to [m * 10^e] (round half to even), for [0 <= m]. *)
Definition float_of_decimal (neg : bool) (m e : Z) : float :=
  if m =? 0 then S754_zero neg
  else if 0 <=? e then
    binary_normalize prec emax (if neg then - (m * 10 ^ e) else m * 10 ^ e) 0 false
  else
    let d := 10 ^ (- e) in
    let s := Z.log2 d + 64 in
    let q := (m * 2 ^ s) / d in
    let r := (m * 2 ^ s) mod d in
    binary_round_aux prec emax neg q (- s) (if r =? 0 then loc_Exact else loc_Inexact Lt).

(** [float(n)] for an [int]. CPython raises [OverflowError] where the result
    would be infinite: [None]. *)
Definition float_of_int (n : Z) : option float :=
  match binary_normalize prec emax n 0 false with
  | S754_infinity _ => None
  | x => Some x
  end.

(** Underscores of a numeric literal: each stands between two digits; they
    are dropped. [None] when one is misplaced. *)
Fixpoint drop_underscores (s : string) (prev : bool) : option string :=
  match s with
  | EmptyString => Some EmptyString
  | String c r =>
      if Ascii.eqb c "_" then
        match r with
        | String c' _ => if prev && is_digit c' then drop_underscores r false else None
        | EmptyString => None
        end
      else option_map (String c) (drop_underscores r (is_digit c))
  end.

(** A maximal run of digits: its digits and the rest. *)
Fixpoint span_digits (s : string) : string * string :=
  match s with
  | String c r =>
      if is_digit c then let '(d, rest) := span_digits r in (String c d, rest)
      else (EmptyString, s)
  | EmptyString => (EmptyString, EmptyString)
  end.

Fixpoint digits_to_Z (s : string) (acc : Z) : Z :=
  match s with
  | String c r => digits_to_Z r (10 * acc + (code c - 48))
  | EmptyString => acc
  end.

(** The exponent part [e[+-]digits], or nothing. *)
Definition parse_exponent (s : string) : option Z :=
  match s with
  | EmptyString => Some 0
  | String c r =>
      if Ascii.eqb c "e" || Ascii.eqb c "E" then
        let '(neg, body) :=
          match r with
          | String "-" r' => (true, r')
          | String "+" r' => (false, r')
          | _ => (false, r)
          end in
        match span_digits body with
        | (String a d, EmptyString) =>
            let v := digits_to_Z (String a d) 0 in Some (if neg then - v else v)
        | _ => None
        end
      else None
  end.

(** [float(s)] for a [str] of ASCII characters: [None] stands for
    [ValueError]. *)
Definition float_of_string (s : string) : option float :=
  match drop_underscores (strip s) false with
  | None => None
  | Some t =>
      let '(neg, body) :=
        match t with
        | String "-" r => (true, r)
        | String "+" r => (false, r)
        | _ => (false, t)
        end in
      let low := lower body in
      if String.eqb low "inf" || String.eqb low "infinity" then Some (S754_infinity neg)
      else if String.eqb low "nan" then Some S754_nan
      else
        let '(ip, rest) := span_digits body in
        let '(fp, rest') :=
          match rest with
          | String "." r => span_digits r
          | _ => (EmptyString, rest)
          end in
        match (ip +++ fp)%string with
        | EmptyString => None
        | mant =>
            match parse_exponent rest' with
            | Some ex =>
                Some (float_of_decimal neg (digits_to_Z mant 0)
                        (ex - Z.of_nat (String.length fp)))
            | None => None
            end
        end
  end.

(** *** Decimal output *)

(** A positive finite float [m * 2^e] and its rounding interval, in units of
    [2^(e-2)]: the value is [4m], the interval reaches down to the midpoint
    with the predecessor and up to the midpoint with the successor. *)
Definition lower_gap (m : positive) (e : Z) : Z :=
  if (Z.pos m =? 2 ^ (prec - 1)) && (3 - emax - prec <? e) then 1 else 2.

(** The exact rational [n * 2^e] as a fraction [num / den]. *)
Definition scaled (n e : Z) : Z * Z :=
  if 0 <=? e then (n * 2 ^ e, 1) else (n, 2 ^ (- e)).

(** The decimal point of [num/den > 0]: the [k] with
    [10^(k-1) <= num/den < 10^k]. *)
Fixpoint point_below (fuel : nat) (num den : Z) (k : Z) : Z :=
  match fuel with
  | O => k
  | S f => if den <=? 10 * num then k else point_below f (10 * num) den (k - 1)
  end.

Definition decimal_point (num den : Z) : Z :=
  if den <=? num then Z.of_nat (String.length (str_of_int (num / den)))
  else point_below 400 num den 0.

Fixpoint strip_zeros_right (fuel : nat) (c : Z) : Z :=
  match fuel with
  | O => c
  | S f => if (c mod 10 =? 0) && negb (c =? 0) then strip_zeros_right f (c / 10) else c
  end.

(** The shortest digit string that reads back as the float [m * 2^e], and
    its decimal point: the value is [0.digits * 10^point]. With [n] digits the
    candidates are the two [n]-digit decimals around the exact value; one
    that lies in the rounding interval is taken, the nearer when both do
    (the even one on a tie). *)
Fixpoint shortest_from (fuel n : nat) (m : positive) (e : Z) (k : Z) : Z * Z :=
  let '(xn, xd) := scaled (4 * Z.pos m) (e - 2) in
  let '(ln, ld) := scaled (4 * Z.pos m - lower_gap m e) (e - 2) in
  let '(hn, hd) := scaled (4 * Z.pos m + 2) (e - 2) in
  (* candidates are counted in units of 10^(k-n) = pn/pd *)
  let p := k - Z.of_nat n in
  let '(pn, pd) := if 0 <=? p then (10 ^ p, 1) else (1, 10 ^ (- p)) in
  let closed := Z.even (Z.pos m) in
  let inside (c : Z) : bool :=
    (* ln/ld <= c*pn/pd <= hn/hd, strict unless [closed] *)
    if closed then (ln * pd <=? c * pn * ld) && (c * pn * hd <=? hn * pd)
    else (ln * pd <? c * pn * ld) && (c * pn * hd <? hn * pd) in
  let ynum := xn * pd in
  let yden := xd * pn in
  let lo := ynum / yden in
  let rem2 := 2 * (ynum mod yden) in
  let hi := lo + 1 in
  let pick :=
    match inside lo, inside hi with
    | true, true =>
        if rem2 <? yden then Some lo
        else if yden <? rem2 then Some hi
        else Some (if Z.even lo then lo else hi)
    | true, false => Some lo
    | false, true => Some hi
    | false, false => None
    end in
  match pick with
  | Some c =>
      let c' := strip_zeros_right 20 c in
      (c', Z.of_nat (String.length (str_of_int c)) + p)
  | None =>
      match fuel with
      | O => (lo, k)
      | S f => shortest_from f (S n) m e k
      end
  end.

Definition shortest_digits (m : positive) (e : Z) : Z * Z :=
  let '(xn, xd) := scaled (Z.pos m) e in
  shortest_from 17 1 m e (decimal_point xn xd).

Definition exponent_text (x : Z) : string :=
  let a := str_of_int (Z.abs x) in
  ((if (x <? 0)%Z then "-" else "+") +++
   (if (String.length a <? 2)%nat then "0" +++ a else a))%string.

(** [repr(x)] = [str(x)] of a float: scientific notation when the decimal
    point is at or below -4 or above 16, else positional with a digit after
    the point. *)
Definition repr_finite (m : positive) (e : Z) : string :=
  let '(c, pt) := shortest_digits m e in
  let ds := str_of_int c in
  let n := Z.of_nat (String.length ds) in
  if (pt <=? -4) || (16 <? pt) then
    match ds with
    | String d EmptyString => (String d EmptyString +++ "e" +++ exponent_text (pt - 1))%string
    | String d r => (String d ("." +++ r) +++ "e" +++ exponent_text (pt - 1))%string
    | EmptyString => EmptyString
    end
  else if pt <=? 0 then
    ("0." +++ replicate (Z.to_nat (- pt)) "0" +++ ds)%string
  else if n <=? pt then
    (ds +++ replicate (Z.to_nat (pt - n)) "0" +++ ".0")%string
  else
    (String.substring 0 (Z.to_nat pt) ds +++ "." +++
     String.substring (Z.to_nat pt) (Z.to_nat (n - pt)) ds)%string.

Definition str_of_float (x : float) : string :=
  match x with
  | S754_zero s => if s then "-0.0" else "0.0"
  | S754_infinity s => if s then "-inf" else "inf"
  | S754_nan => "nan"
  | S754_finite s m e => ((if s then "-" else "") +++ repr_finite m e)%string
  end.

(** [format(x, ".8f")]: the exact value rounded half to even at the eighth
    decimal. *)
Definition fixed8 (x : float) : string :=
  match x with
  | S754_zero s => if s then "-0.00000000" else "0.00000000"
  | S754_infinity s => if s then "-inf" else "inf"
  | S754_nan => "nan"
  | S754_finite s m e =>
      let '(num, den) := scaled (Z.pos m * 10 ^ 8) e in
      let q := num / den in
      let r2 := 2 * (num mod den) in
      let n := if r2 <? den then q else if den <? r2 then q + 1
               else if Z.even q then q else q + 1 in
      let frac := str_of_int (n mod 10 ^ 8) in
      ((if s then "-" else "") +++ str_of_int (n / 10 ^ 8) +++ "." +++
       replicate (8 - String.length frac) "0" +++ frac)%string
  end.

End Py.

(* ================================================================= *)
(** * [hashlib.sha256] and [hmac.new(...).hexdigest()] *)

(** SHA-256 (FIPS 180-4) over a list of bytes; 32-bit words are [Z] reduced
    modulo [2^32]. *)
Module Sha256.

Definition w32 (x : Z) : Z := x mod 2 ^ 32.
Definition add32 (x y : Z) : Z := w32 (x + y).
Definition rotr (n x : Z) : Z := Z.lor (Z.shiftr x n) (w32 (Z.shiftl x (32 - n))).
Definition not32 (x : Z) : Z := Z.lxor x 0xffffffff.

Definition Ch (x y z : Z) : Z := Z.lxor (Z.land x y) (Z.land (not32 x) z).
Definition Maj (x y z : Z) : Z :=
  Z.lxor (Z.lxor (Z.land x y) (Z.land x z)) (Z.land y z).
Definition Sigma0 (x : Z) : Z := Z.lxor (Z.lxor (rotr 2 x) (rotr 13 x)) (rotr 22 x).
Definition Sigma1 (x : Z) : Z := Z.lxor (Z.lxor (rotr 6 x) (rotr 11 x)) (rotr 25 x).
Definition sigma0 (x : Z) : Z := Z.lxor (Z.lxor (rotr 7 x) (rotr 18 x)) (Z.shiftr x 3).
Definition sigma1 (x : Z) : Z := Z.lxor (Z.lxor (rotr 17 x) (rotr 19 x)) (Z.shiftr x 10).

(** The primes below [n], by trial division. *)
Definition is_prime (n : Z) : bool :=
  (2 <=? n)
  && forallb (fun d => negb (n mod d =? 0))
       (map Z.of_nat (seq 2 (Z.to_nat (Z.sqrt n) - 1))).

Definition primes_below (n : nat) : list Z := filter is_prime (map Z.of_nat (seq 0 n)).

(** The integer cube root, one bit at a time from bit [bits - 1] down. *)
Fixpoint cube_root (bits : nat) (n r : Z) : Z :=
  match bits with
  | O => r
  | S b =>
      let r' := r + 2 ^ Z.of_nat b in
      cube_root b n (if r' ^ 3 <=? n then r' else r)
  end.

(** The round constants: the first 32 bits of the fractional parts of the
    cube roots of the first 64 primes. *)
Definition K : list Z :=
  Eval vm_compute in
    map (fun p => cube_root 36 (p * 2 ^ 96) 0 mod 2 ^ 32) (firstn 64 (primes_below 312)).

(** The initial hash value: the first 32 bits of the fractional parts of the
    square roots of the first 8 primes. *)
Definition H0 : list Z :=
  Eval vm_compute in
    map (fun p => Z.sqrt (p * 2 ^ 64) mod 2 ^ 32) (firstn 8 (primes_below 20)).

(** The [n] big-endian bytes of [x]. *)
Fixpoint be_bytes (n : nat) (x : Z) : list Z :=
  match n with
  | O => []
  | S n' => (x / 256 ^ Z.of_nat n') mod 256 :: be_bytes n' x
  end.

Definition be_word (bs : list Z) : Z := fold_left (fun acc b => acc * 256 + b) bs 0.

(** Padding: the bit 1, zeros up to 56 modulo 64, the bit length on 8 bytes. *)
Definition pad (msg : list Z) : list Z :=
  let l := Z.of_nat (length msg) in
  msg ++ [0x80] ++ repeat 0 (Z.to_nat ((55 - l) mod 64)) ++ be_bytes 8 (8 * l).

Fixpoint words (n : nat) (bs : list Z) : list Z :=
  match n with
  | O => []
  | S n' => be_word (firstn 4 bs) :: words n' (skipn 4 bs)
  end.

(** The message schedule, newest word first: [rw] is W[t-1], W[t-2], ... *)
Fixpoint schedule (n : nat) (rw : list Z) : list Z :=
  match n with
  | O => rw
  | S n' =>
      let w := add32 (add32 (sigma1 (nth 1 rw 0)) (nth 6 rw 0))
                     (add32 (sigma0 (nth 14 rw 0)) (nth 15 rw 0)) in
      schedule n' (w :: rw)
  end.

Record regs := mkRegs { ra : Z; rb : Z; rc : Z; rd : Z; re : Z; rf : Z; rg : Z; rh : Z }.

Definition round (s : regs) (kw : Z * Z) : regs :=
  let '(k, w) := kw in
  let t1 := add32 (add32 (add32 (rh s) (Sigma1 (re s))) (add32 (Ch (re s) (rf s) (rg s)) k)) w in
  let t2 := add32 (Sigma0 (ra s)) (Maj (ra s) (rb s) (rc s)) in
  mkRegs (add32 t1 t2) (ra s) (rb s) (rc s) (add32 (rd s) t1) (re s) (rf s) (rg s).

Definition regs_of (h : list Z) : regs :=
  mkRegs (nth 0 h 0) (nth 1 h 0) (nth 2 h 0) (nth 3 h 0)
         (nth 4 h 0) (nth 5 h 0) (nth 6 h 0) (nth 7 h 0).

Definition compress (h : list Z) (block : list Z) : list Z :=
  let w := rev (schedule 48 (rev (words 16 block))) in
  let s0 := regs_of h in
  let s := fold_left round (combine K w) s0 in
  [add32 (ra s0) (ra s); add32 (rb s0) (rb s); add32 (rc s0) (rc s); add32 (rd s0) (rd s);
   add32 (re s0) (re s); add32 (rf s0) (rf s); add32 (rg s0) (rg s); add32 (rh s0) (rh s)].

Fixpoint blocks (n : nat) (h : list Z) (bs : list Z) : list Z :=
  match n with
  | O => h
  | S n' => blocks n' (compress h (firstn 64 bs)) (skipn 64 bs)
  end.

(** The 32 bytes of the digest. *)
Definition digest (msg : list Z) : list Z :=
  let p := pad msg in
  flat_map (be_bytes 4) (blocks (Nat.div (length p) 64) H0 p).

End Sha256.

(** HMAC (RFC 2104) with SHA-256, and the lowercase hexadecimal digest. *)
Module Hmac.

Definition block_size : nat := 64.

Definition xor_with (c : Z) (bs : list Z) : list Z := map (fun b => Z.lxor b c) bs.

Definition hmac_sha256 (key msg : list Z) : list Z :=
  let k := if (block_size <? length key)%nat then Sha256.digest key else key in
  let k := k ++ repeat 0 (block_size - length k) in
  Sha256.digest (xor_with 0x5c k ++ Sha256.digest (xor_with 0x36 k ++ msg)).

Definition hex_digit (d : Z) : ascii :=
  if d <? 10 then Py.chr (48 + d) else Py.chr (87 + d).

Fixpoint hex (bs : list Z) : string :=
  match bs with
  | [] => EmptyString
  | b :: r => String (hex_digit (b / 16)) (String (hex_digit (b mod 16)) (hex r))
  end.

(** [hmac.new(key, msg, hashlib.sha256).hexdigest()]. *)
Definition hexdigest (key msg : list Z) : string := hex (hmac_sha256 key msg).

End Hmac.

(* ================================================================= *)
(** * Objects, exceptions and effects *)

(** What [json.loads] / [response.json()] returns: [None], [bool], [int],
    [float], [str], [list] and [dict] (keys in document order). [JNull] is
    also the [None] that the client's methods return on failure. *)
Inductive json : Type :=
  | JNull
  | JBool (b : bool)
  | JInt (n : Z)
  | JFloat (x : Py.float)
  | JStr (s : string)
  | JList (l : list json)
  | JDict (kv : list (string * json)).

(** The values stored in a request's parameter [dict]. *)
Inductive value : Type :=
  | VStr (s : string)
  | VInt (n : Z)
  | VFloat (x : Py.float).

(** A [dict] with [str] keys, in insertion order. *)
Definition dict (A : Type) : Type := list (string * A).

Fixpoint dict_get {A : Type} (d : dict A) (k : string) : option A :=
  match d with
  | [] => None
  | (k', v) :: r => if String.eqb k' k then Some v else dict_get r k
  end.

(** [d[k] = v]: an existing key keeps its place, a new key goes last. *)
Fixpoint dict_set {A : Type} (d : dict A) (k : string) (v : A) : dict A :=
  match d with
  | [] => [(k, v)]
  | (k', v') :: r => if String.eqb k' k then (k', v) :: r else (k', v') :: dict_set r k v
  end.

Definition keys {A : Type} (d : dict A) : list string := map fst d.

Module Repr.

Definition nl : string := String (Py.chr 10) EmptyString.

Fixpoint contains (c : ascii) (s : string) : bool :=
  match s with
  | EmptyString => false
  | String a r => Ascii.eqb a c || contains c r
  end.

Definition hex2 (n : Z) : string :=
  String (Hmac.hex_digit (n / 16)) (String (Hmac.hex_digit (n mod 16)) EmptyString).

(** One character of [repr(s)]. Bytes of non-ASCII code points are kept
    (CPython keeps every printable character). *)
Definition escape (quote c : ascii) : string :=
  let n := Py.code c in
  if Ascii.eqb c quote || Ascii.eqb c "\" then String "\" (String c EmptyString)
  else if n =? 9 then "\t"
  else if n =? 10 then "\n"
  else if n =? 13 then "\r"
  else if (n <? 32) || (n =? 127) then ("\x" +++ hex2 n)%string
  else String c EmptyString.

Fixpoint escape_all (quote : ascii) (s : string) : string :=
  match s with
  | EmptyString => EmptyString
  | String c r => (escape quote c +++ escape_all quote r)%string
  end.

(** [repr(s)] of a [str]: single quotes, unless the text holds a single
    quote and no double quote. *)
Definition repr_str (s : string) : string :=
  let quote : ascii :=
    if contains "'" s && negb (contains (Py.chr 34) s) then Py.chr 34 else "'"%char in
  String quote (escape_all quote s +++ String quote EmptyString).

(** [repr(obj)]. *)
Fixpoint repr (j : json) : string :=
  match j with
  | JNull => "None"
  | JBool b => if b then "True" else "False"
  | JInt n => Py.str_of_int n
  | JFloat x => Py.str_of_float x
  | JStr s => repr_str s
  | JList l => ("[" +++ Py.join ", " (map repr l) +++ "]")%string
  | JDict kv =>
      ("{" +++
       Py.join ", "
         ((fix items (kv : list (string * json)) : list string :=
             match kv with
             | [] => []
             | (k, v) :: r => (repr_str k +++ ": " +++ repr v)%string :: items r
             end) kv) +++
       "}")%string
  end.

(** [str(obj)], which an f-string applies to a field without format. *)
Definition str (j : json) : string :=
  match j with
  | JStr s => s
  | _ => repr j
  end.

End Repr.

(** [str(v)] for a parameter value. *)
Definition str_of_value (v : value) : string :=
  match v with
  | VStr s => s
  | VInt n => Py.str_of_int n
  | VFloat x => Py.str_of_float x
  end.

(** [bool(obj)]. *)
Definition truthy (j : json) : bool :=
  match j with
  | JNull => false
  | JBool b => b
  | JInt n => negb (n =? 0)
  | JFloat (S754_zero _) => false
  | JFloat _ => true
  | JStr s => negb (String.eqb s "")
  | JList l => match l with [] => false | _ => true end
  | JDict kv => match kv with [] => false | _ => true end
  end.

(** The body of an HTTP response, as [json.loads] reads it. *)
Inductive parsed : Type :=
  | Json (j : json)
  | NotJson (err : string).   (* the decoder's message *)

(** [requests.Response], as far as the program looks at it. *)
Record Response : Type := mkResponse {
  status_code : Z;
  reason : string;
  url : string;
  text : parsed
}.

(** Exception classes, with what the two [except] clauses of the program ask
    of them. [HTTPError], [TransportError] (connection errors, timeouts, ...)
    and [JSONDecodeError] (of [requests]) derive from
    [requests.exceptions.RequestException]; [KeyboardInterrupt] does not
    derive from [Exception]. *)
Inductive exc_class : Type :=
  | HTTPError
  | TransportError
  | JSONDecodeError
  | ValueError
  | KeyError
  | TypeError
  | AttributeError
  | OverflowError
  | ArgumentTypeError
  | KeyboardInterrupt
  | OtherException.

(** An exception: its class, [str(e)] and, for those of [requests], the
    attribute [e.response]. *)
Record exception : Type := mkExc {
  exc_class_of : exc_class;
  exc_str : string;
  exc_response : option Response
}.

Definition is_RequestException (e : exception) : bool :=
  match exc_class_of e with
  | HTTPError | TransportError | JSONDecodeError => true
  | _ => false
  end.

Definition is_Exception (e : exception) : bool :=
  match exc_class_of e with
  | KeyboardInterrupt => false
  | _ => true
  end.

(** [ValueError] and its subclasses ([JSONDecodeError] is one). *)
Definition is_ValueError (e : exception) : bool :=
  match exc_class_of e with
  | ValueError | JSONDecodeError => true
  | _ => false
  end.

Inductive result (A : Type) : Type :=
  | Ok (a : A)
  | Raise (e : exception).
Arguments Ok {A} a.
Arguments Raise {A} e.

Definition simple_exc (c : exc_class) (msg : string) : exception := mkExc c msg None.

Inductive http_method : Type := GET | POST.

(** A call [requests.get(url, headers=..., params=...)] or [requests.post]. *)
Record request : Type := mkRequest {
  req_method : http_method;
  req_url : string;
  req_headers : dict (option string);
  req_params : dict value
}.

(** The network: what a call returns or raises. *)
Definition transport : Type := request -> result Response.

(** What the program does to the outside, in order. *)
Inductive event : Type :=
  | Write (s : string)              (* text that [print] writes, its end included *)
  | Http (r : request)              (* one HTTP request sent *)
  | Sleep (seconds : Z)             (* [time.sleep] *)
  | AddJob (run_date : Z) (symbol side : string) (quantity price : Py.float).
      (* one job handed to the scheduler: its instant and what its closure holds *)

(** Computations that emit events and may raise. *)
Definition M (A : Type) : Type := (list event * result A)%type.

Definition ret {A : Type} (a : A) : M A := ([], Ok a).
Definition raise {A : Type} (e : exception) : M A := ([], Raise e).
Definition emit (ev : event) : M unit := ([ev], Ok tt).
Definition lift {A : Type} (r : result A) : M A := ([], r).

Definition bind {A B : Type} (m : M A) (f : A -> M B) : M B :=
  match m with
  | (evs, Ok a) => let '(evs', r) := f a in (evs ++ evs', r)
  | (evs, Raise e) => (evs, Raise e)
  end.

Notation "x <- m ;; k" := (bind m (fun x => k))
  (at level 61, m at next level, right associativity).
Notation "m ;;; k" := (bind m (fun _ => k))
  (at level 61, right associativity).

(** [try: m  except <class> as e: h e]. *)
Definition try_except {A : Type} (m : M A) (catches : exception -> bool)
    (h : exception -> M A) : M A :=
  match m with
  | (evs, Raise e) => if catches e then let '(evs', r) := h e in (evs ++ evs', r) else m
  | _ => m
  end.

(** [print(s)] and [print(s, end="")]. *)
Definition print (s : string) : M unit := emit (Write (s +++ Repr.nl)%string).
Definition print_noend (s : string) : M unit := emit (Write s).

Definition events {A : Type} (m : M A) : list event := fst m.
Definition outcome {A : Type} (m : M A) : result A := snd m.

(** The requests sent, in order. *)
Fixpoint requests_of (evs : list event) : list request :=
  match evs with
  | [] => []
  | Http r :: rest => r :: requests_of rest
  | _ :: rest => requests_of rest
  end.

(** The text printed, in order. *)
Fixpoint written (evs : list event) : list string :=
  match evs with
  | [] => []
  | Write s :: rest => s :: written rest
  | _ :: rest => written rest
  end.

(** ** The parts of [requests] the program relies on *)
Module Requests.

(** [Response.raise_for_status()]: [HTTPError] for a status in 400..599. *)
Definition raise_for_status (r : Response) : result unit :=
  let msg (kind : string) : string :=
    (Py.str_of_int (status_code r) +++ " " +++ kind +++ " Error: " +++ reason r
       +++ " for url: " +++ url r)%string in
  if (400 <=? status_code r) && (status_code r <? 500) then
    Raise (mkExc HTTPError (msg "Client") (Some r))
  else if (500 <=? status_code r) && (status_code r <? 600) then
    Raise (mkExc HTTPError (msg "Server") (Some r))
  else Ok tt.

(** [Response.ok], which is also [bool(response)]: [raise_for_status] does
    not raise. *)
Definition ok (r : Response) : bool :=
  match raise_for_status r with
  | Ok _ => true
  | Raise _ => false
  end.

(** [response.json()]: the decoded body, or the [JSONDecodeError] of
    [requests] (2.27 and later: a [RequestException], built without a
    [response]). *)
Definition json_of (r : Response) : result json :=
  match text r with
  | Json j => Ok j
  | NotJson err => Raise (mkExc JSONDecodeError err None)
  end.

(** [json.loads(response.text)]: the decoded body, or the [json] module's
    error, a [ValueError]. *)
Definition loads_text (r : Response) : result json :=
  match text r with
  | Json j => Ok j
  | NotJson err => Raise (simple_exc ValueError err)
  end.

(** [bool(e.response)] for the attribute of an exception. *)
Definition response_truthy (o : option Response) : bool :=
  match o with
  | Some r => ok r
  | None => false
  end.

End Requests.

(** [obj[key]] for a [str] key. *)
Definition subscript (obj : json) (key : string) : result json :=
  match obj with
  | JDict kv =>
      match dict_get kv key with
      | Some v => Ok v
      | None => Raise (simple_exc KeyError (Repr.repr_str key))
      end
  | JList _ => Raise (simple_exc TypeError "list indices must be integers or slices, not str")
  | JStr _ => Raise (simple_exc TypeError "string indices must be integers, not 'str'")
  | JNull => Raise (simple_exc TypeError "'NoneType' object is not subscriptable")
  | JBool _ => Raise (simple_exc TypeError "'bool' object is not subscriptable")
  | JInt _ => Raise (simple_exc TypeError "'int' object is not subscriptable")
  | JFloat _ => Raise (simple_exc TypeError "'float' object is not subscriptable")
  end.

(* ================================================================= *)
(** * [datetime] in the reference time zone *)

(** An aware [datetime] of the zone Asia/Shanghai, by its wall-clock fields.
    The zone has had the fixed offset UTC+8 since 1991, so comparing,
    subtracting and adding days work on the fields. *)
Module Datetime.

Record datetime : Type := mkDatetime {
  year : Z; month : Z; day : Z;
  hour : Z; minute : Z; second : Z; microsecond : Z
}.

Definition MINYEAR : Z := 1.
Definition MAXYEAR : Z := 9999.
Definition MAXORDINAL : Z := 3652059.

Definition is_leap (y : Z) : bool :=
  (y mod 4 =? 0) && (negb (y mod 100 =? 0) || (y mod 400 =? 0)).

Definition DAYS_IN_MONTH : list Z := [0; 31; 28; 31; 30; 31; 30; 31; 31; 30; 31; 30; 31].
Definition DAYS_BEFORE_MONTH : list Z :=
  [0; 0; 31; 59; 90; 120; 151; 181; 212; 243; 273; 304; 334].

Definition days_in_month (y m : Z) : Z :=
  if (m =? 2) && is_leap y then 29 else nth (Z.to_nat m) DAYS_IN_MONTH 0.

Definition days_before_year (y : Z) : Z :=
  let y' := y - 1 in y' * 365 + y' / 4 - y' / 100 + y' / 400.

Definition days_before_month (y m : Z) : Z :=
  nth (Z.to_nat m) DAYS_BEFORE_MONTH 0 + (if (2 <? m) && is_leap y then 1 else 0).

(** [date.toordinal()]: 1 is 0001-01-01. *)
Definition ymd2ord (y m d : Z) : Z := days_before_year y + days_before_month y m + d.

Definition DI400Y : Z := 146097.
Definition DI100Y : Z := 36524.
Definition DI4Y : Z := 1461.

(** [date.fromordinal(n)]. *)
Definition ord2ymd (n : Z) : Z * Z * Z :=
  let n := n - 1 in
  let n400 := n / DI400Y in let n := n mod DI400Y in
  let y := n400 * 400 + 1 in
  let n100 := n / DI100Y in let n := n mod DI100Y in
  let n4 := n / DI4Y in let n := n mod DI4Y in
  let n1 := n / 365 in let n := n mod 365 in
  let y := y + n100 * 100 + n4 * 4 + n1 in
  if (n1 =? 4) || (n100 =? 4) then (y - 1, 12, 31)
  else
    let leapyear := (n1 =? 3) && (negb (n4 =? 24) || (n100 =? 3)) in
    let m := Z.shiftr (n + 50) 5 in
    let preceding :=
      nth (Z.to_nat m) DAYS_BEFORE_MONTH 0 + (if (2 <? m) && leapyear then 1 else 0) in
    if n <? preceding then
      let m' := m - 1 in
      let preceding' :=
        preceding - (nth (Z.to_nat m') DAYS_IN_MONTH 0
                     + (if (m' =? 2) && leapyear then 1 else 0)) in
      (y, m', n - preceding' + 1)
    else (y, m, n - preceding + 1).

Definition toordinal (t : datetime) : Z := ymd2ord (year t) (month t) (day t).

(** A value a C [int] holds: the constructor converts its arguments. *)
Definition fits_int (n : Z) : bool := (- 2 ^ 31 <=? n) && (n <? 2 ^ 31).

Definition valid_date (y m d : Z) : bool :=
  (MINYEAR <=? y) && (y <=? MAXYEAR) && (1 <=? m) && (m <=? 12)
  && (1 <=? d) && (d <=? days_in_month y m).

Definition valid_time (h mi s us : Z) : bool :=
  (0 <=? h) && (h <=? 23) && (0 <=? mi) && (mi <=? 59)
  && (0 <=? s) && (s <=? 59) && (0 <=? us) && (us <=? 999999).

Definition valid (t : datetime) : bool :=
  valid_date (year t) (month t) (day t)
  && valid_time (hour t) (minute t) (second t) (microsecond t).

(** [datetime(y, m, d, hour, minute)]: [OverflowError] for an argument that
    no C [int] holds, [ValueError] for a field out of range. *)
Definition make (y m d h mi : Z) : result datetime :=
  if negb (fits_int y && fits_int m && fits_int d && fits_int h && fits_int mi) then
    Raise (simple_exc OverflowError "signed integer is greater than maximum")
  else if negb (valid_date y m d) then
    Raise (simple_exc ValueError "date field out of range")
  else if negb (valid_time h mi 0 0) then
    Raise (simple_exc ValueError "time field out of range")
  else Ok (mkDatetime y m d h mi 0 0).

(** Microseconds since the start of day 0 of the calendar. *)
Definition to_micros (t : datetime) : Z :=
  ((((toordinal t * 24 + hour t) * 60 + minute t) * 60) + second t) * 1000000
  + microsecond t.

(** [a < b]. *)
Definition lt (a b : datetime) : bool := to_micros a <? to_micros b.

(** [a - b], a [timedelta], in microseconds. *)
Definition sub (a b : datetime) : Z := to_micros a - to_micros b.

(** [t + timedelta(days=n)]: [OverflowError] outside the calendar. *)
Definition add_days (t : datetime) (n : Z) : result datetime :=
  let o := toordinal t + n in
  if (0 <? o) && (o <=? MAXORDINAL) then
    let '(y, m, d) := ord2ymd o in
    Ok (mkDatetime y m d (hour t) (minute t) (second t) (microsecond t))
  else Raise (simple_exc OverflowError "date value out of range").

Definition two_digits (n : Z) : string :=
  let s := Py.str_of_int n in
  if (String.length s <? 2)%nat then "0" +++ s else s.

(** [str(td).split('.')[0]] for a [timedelta] of [us] microseconds: days,
    then [H:MM:SS], without the microseconds. *)
Definition timedelta_text (us : Z) : string :=
  let total := us / 1000000 in
  let days := total / 86400 in
  let secs := total mod 86400 in
  let hms :=
    Py.str_of_int (secs / 3600) +++ ":" +++ two_digits (secs / 60 mod 60)
      +++ ":" +++ two_digits (secs mod 60) in
  if days =? 0 then hms
  else Py.str_of_int days +++ (if Z.abs days =? 1 then " day, " else " days, ") +++ hms.

End Datetime.

(* ================================================================= *)
(** * The program *)

Module Trader.

Import Datetime.

(** [colorama]'s escape sequences. *)
Definition ESC : string := String (Py.chr 27) "[".
Definition Fore_RED : string := ESC +++ "31m".
Definition Fore_GREEN : string := ESC +++ "32m".
Definition Fore_YELLOW : string := ESC +++ "33m".
Definition Fore_MAGENTA : string := ESC +++ "35m".
Definition Fore_CYAN : string := ESC +++ "36m".
Definition Style_RESET_ALL : string := ESC +++ "0m".

(** ** [class BinanceTrader] *)

(** The attributes of a client, but for the scheduler. A key that the
    environment does not define is [None]. *)
Record BinanceTrader : Type := mkTrader {
  testnet : bool;
  base_url : string;
  api_key : option string;
  secret_key : option string
}.

(** [__init__(self, testnet)], over the process environment. *)
Definition init (environ : string -> option string) (testnet : bool) : BinanceTrader :=
  mkTrader testnet
    (if testnet then "https://testnet.binance.vision" else "https://api.binance.com")
    (environ (if testnet then "TESTNET_API_KEY" else "BINANCE_API_KEY"))
    (environ (if testnet then "TESTNET_SECRET_KEY" else "BINANCE_SECRET_KEY")).

(** ["&".join([f"{k}={v}" for k, v in params.items()])]. *)
Definition query_string (params : dict value) : string :=
  Py.join "&" (map (fun '(k, v) => k +++ "=" +++ str_of_value v) params).

(** [_generate_signature(self, params)]. *)
Definition _generate_signature (self : BinanceTrader) (params : dict value) : result string :=
  let query_string := query_string params in
  match secret_key self with
  | None =>
      Raise (simple_exc AttributeError "'NoneType' object has no attribute 'encode'")
  | Some secret =>
      Ok (Hmac.hexdigest (Py.encode_utf8 secret) (Py.encode_utf8 query_string))
  end.

(** [_print_header(self, text)]. *)
Definition _print_header (text : string) : M unit :=
  print (Repr.nl +++ Fore_CYAN +++ Py.replicate 40 "=") ;;;
  print (Py.center 40 text) ;;;
  print (Py.replicate 40 "=" +++ Style_RESET_ALL).

(** [requests.get] / [requests.post] over the network [net]. *)
Definition send (net : transport) (r : request) : M Response :=
  emit (Http r) ;;; lift (net r).

(** [get_account_info(self)]; [now_ms] is [int(time.time() * 1000)]. *)
Definition get_account_info (self : BinanceTrader) (now_ms : Z) (net : transport) : M json :=
  let endpoint := "/api/v3/account" in
  let params : dict value := [("timestamp", VInt now_ms)] in
  signature <- lift (_generate_signature self params) ;;
  let params := dict_set params "signature" (VStr signature) in
  try_except
    (response <- send net (mkRequest GET (base_url self +++ endpoint)
                             [("X-MBX-APIKEY", api_key self)] params) ;;
     lift (Requests.json_of response))
    is_Exception
    (fun e =>
       print (Fore_RED +++ "获取账户信息失败: " +++ exc_str e +++ Style_RESET_ALL) ;;;
       ret JNull).

(** The parameters of an order, before the signature. *)
Definition order_params (symbol side : string) (quantity price : Py.float) (now_ms : Z)
  : dict value :=
  [("symbol", VStr (Py.upper symbol));
   ("side", VStr (Py.upper side));
   ("type", VStr "LIMIT");
   ("timeInForce", VStr "GTC");
   ("quantity", VFloat quantity);
   ("price", VFloat price);
   ("timestamp", VInt now_ms)].

(** The [except] clause of [place_limit_order]:
    [json.loads(e.response.text)['msg'] if e.response else str(e)]. *)
Definition order_error_msg (e : exception) : result json :=
  if Requests.response_truthy (exc_response e) then
    match exc_response e with
    | Some r =>
        match Requests.loads_text r with
        | Ok j => subscript j "msg"
        | Raise e' => Raise e'
        end
    | None => Ok (JStr (exc_str e))
    end
  else Ok (JStr (exc_str e)).

(** [place_limit_order(self, symbol, side, quantity, price)]. *)
Definition place_limit_order (self : BinanceTrader) (symbol side : string)
    (quantity price : Py.float) (now_ms : Z) (net : transport) : M json :=
  _print_header "正在提交限价单" ;;;
  let endpoint := "/api/v3/order" in
  let params := order_params symbol side quantity price now_ms in
  signature <- lift (_generate_signature self params) ;;
  let params := dict_set params "signature" (VStr signature) in
  try_except
    (response <- send net (mkRequest POST (base_url self +++ endpoint)
                             [("X-MBX-APIKEY", api_key self)] params) ;;
     lift (Requests.raise_for_status response) ;;;
     lift (Requests.json_of response))
    is_RequestException
    (fun e =>
       error_msg <- lift (order_error_msg e) ;;
       print (Fore_RED +++ "订单提交失败: " +++ Repr.str error_msg +++ Style_RESET_ALL) ;;;
       ret JNull).

(** [schedule_order(self, symbol, side, quantity, price, target_time)]: one
    job of kind ['date'] at the instant of [target_time]; the job's body runs
    in the scheduler's thread and is not part of this call. *)
Definition schedule_order (symbol side : string) (quantity price : Py.float)
    (target_time : datetime) : M datetime :=
  emit (AddJob (to_micros target_time) symbol side quantity price) ;;;
  ret target_time.

(** ** [parse_time_input] *)

Definition format_error : exception :=
  simple_exc ArgumentTypeError "时间格式错误，请使用 HH:MM 格式".

(** [hour, minute = map(int, time_str.split(':'))]: every failure here is a
    [ValueError] (a field that [int] refuses, fewer or more than two
    fields). *)
Definition unpack_hour_minute (time_str : string) : result (Z * Z) :=
  match map Py.int_of_string (Py.split ":" time_str) with
  | [Some hour; Some minute] => Ok (hour, minute)
  | _ => Raise (simple_exc ValueError "invalid literal or wrong number of values")
  end.

(** [parse_time_input(time_str)]; [now] is [datetime.now(shanghai_tz)]. *)
Definition parse_time_input (now : datetime) (time_str : string) : result datetime :=
  let body : result datetime :=
    match unpack_hour_minute time_str with
    | Raise e => Raise e
    | Ok (hour, minute) =>
        match make (year now) (month now) (day now) hour minute with
        | Raise e => Raise e
        | Ok target_time =>
            if lt target_time now then add_days target_time 1 else Ok target_time
        end
    end in
  match body with
  | Raise e => if is_ValueError e then Raise format_error else Raise e
  | Ok t => Ok t
  end.

(** ** The balance display *)

(** The code points of a [str], each a [str]. *)
Fixpoint chars_from (cur : string) (s : string) : list string :=
  match s with
  | EmptyString => match cur with EmptyString => [] | _ => [cur] end
  | String c r =>
      if Py.is_continuation c then chars_from (cur +++ String c EmptyString) r
      else match cur with
           | EmptyString => chars_from (String c EmptyString) r
           | _ => cur :: chars_from (String c EmptyString) r
           end
  end.

(** The elements a [for] loop takes from an object. *)
Definition iterate (obj : json) : result (list json) :=
  match obj with
  | JList l => Ok l
  | JDict kv => Ok (map JStr (keys kv))
  | JStr s => Ok (map JStr (chars_from EmptyString s))
  | JNull => Raise (simple_exc TypeError "'NoneType' object is not iterable")
  | JBool _ => Raise (simple_exc TypeError "'bool' object is not iterable")
  | JInt _ => Raise (simple_exc TypeError "'int' object is not iterable")
  | JFloat _ => Raise (simple_exc TypeError "'float' object is not iterable")
  end.

(** [float(obj)]. *)
Definition to_float (obj : json) : result Py.float :=
  match obj with
  | JStr s =>
      match Py.float_of_string s with
      | Some x => Ok x
      | None => Raise (simple_exc ValueError "could not convert string to float")
      end
  | JInt n =>
      match Py.float_of_int n with
      | Some x => Ok x
      | None => Raise (simple_exc OverflowError "int too large to convert to float")
      end
  | JBool b => Ok (if b then S754_finite false 4503599627370496 (-52) else Py.fzero)
  | JFloat x => Ok x
  | _ => Raise (simple_exc TypeError "float() argument must be a string or a real number")
  end.

(** [format(obj, ">6")]. *)
Definition format_right6 (obj : json) : result string :=
  match obj with
  | JStr s => Ok (Py.rjust 6 s)
  | JInt n => Ok (Py.rjust 6 (Py.str_of_int n))
  | JBool b => Ok (Py.rjust 6 (if b then "1" else "0"))
  | JFloat x => Ok (Py.rjust 6 (Py.str_of_float x))
  | _ => Raise (simple_exc TypeError "unsupported format string")
  end.

(** The printed line of one asset:
    [f"{balance['asset']:>6}: {Fore.YELLOW}{free:<15.8f}{Style.RESET_ALL}"]. *)
Definition balance_text (asset : string) (free : Py.float) : string :=
  asset +++ ": " +++ Fore_YELLOW +++ Py.ljust 15 (Py.fixed8 free) +++ Style_RESET_ALL.

(** The body of the loop over [account['balances']]. *)
Definition show_balance (balance : json) : M unit :=
  free_field <- lift (subscript balance "free") ;;
  free <- lift (to_float free_field) ;;
  if Py.gt_zero free then
    asset_field <- lift (subscript balance "asset") ;;
    asset <- lift (format_right6 asset_field) ;;
    print (balance_text asset free)
  else ret tt.

Fixpoint for_each {A : Type} (l : list A) (body : A -> M unit) : M unit :=
  match l with
  | [] => ret tt
  | a :: r => body a ;;; for_each r body
  end.

(** [print_balance(account)]. *)
Definition print_balance (account : json) : M unit :=
  print (Repr.nl +++ Fore_GREEN +++ "【账户资产概览】") ;;;
  print (Py.replicate 30 "-") ;;;
  balances_field <- lift (subscript account "balances") ;;
  balances <- lift (iterate balances_field) ;;
  for_each balances show_balance ;;;
  print (Py.replicate 30 "-").

(** The balance display of [main]: [args.show_balance] is set. *)
Definition main_show_balance (self : BinanceTrader) (now_ms : Z) (net : transport) : M unit :=
  account <- get_account_info self now_ms net ;;
  if truthy account then
    print (Repr.nl +++ Fore_GREEN +++ "【账户资产概览】") ;;;
    print (Py.replicate 30 "-") ;;;
    balances_field <- lift (subscript account "balances") ;;
    balances <- lift (iterate balances_field) ;;
    for_each balances show_balance ;;;
    print (Py.replicate 30 "-")
  else ret tt.

(** ** The countdown *)

(** The line that one pass of the loop prints for a remaining time. *)
Definition countdown_text (remaining : Z) : string :=
  String (Py.chr 13) EmptyString +++ Fore_MAGENTA +++ "剩余等待时间: "
    +++ timedelta_text remaining.

(** The loop of [main] and of [interactive_trading], without interruption:
    [clock i] is what the [i]-th call of [datetime.now] returns. [None]
    when the fuel runs out before the loop leaves. *)
Fixpoint countdown (fuel : nat) (clock : nat -> datetime) (i : nat)
    (scheduled_time : datetime) : option (M unit) :=
  match fuel with
  | O => None
  | S fuel' =>
      let now := clock i in
      let remaining := sub scheduled_time now in
      if remaining <=? 0 then Some (print "")
      else
        match countdown fuel' clock (S i) scheduled_time with
        | Some rest =>
            Some (print_noend (countdown_text remaining) ;;; emit (Sleep 1) ;;; rest)
        | None => None
        end
  end.

End Trader.

(* ================================================================= *)
(** * Vocabulary of the statements *)

Module Spec.

Import Datetime Trader.

(** ** Signing *)

(** The canonical string in the spec's words: [key=value] items in the order
    of the mapping, [&] between two items. *)
Fixpoint canonical (params : dict value) : string :=
  match params with
  | [] => ""
  | [(k, v)] => k +++ "=" +++ str_of_value v
  | (k, v) :: rest => k +++ "=" +++ str_of_value v +++ "&" +++ canonical rest
  end.

Definition lower_hex (c : ascii) : bool :=
  Py.is_digit c || ((97 <=? Py.code c) && (Py.code c <=? 102)).

Definition is_byte (b : Z) : Prop := 0 <= b < 256.

(** The parameters of the spec's example, in their order. *)
Definition example_params : dict value :=
  [("symbol", VStr "BTCUSDT"); ("side", VStr "BUY"); ("type", VStr "LIMIT");
   ("timeInForce", VStr "GTC"); ("quantity", VStr "1"); ("price", VStr "100");
   ("timestamp", VStr "1700000000000")].

(** ** Requests and reports of the two calls *)

(** The request of [get_account_info], given the signature. *)
Definition account_request (self : BinanceTrader) (sig : string) (now_ms : Z) : request :=
  mkRequest GET (base_url self +++ "/api/v3/account") [("X-MBX-APIKEY", api_key self)]
    [("timestamp", VInt now_ms); ("signature", VStr sig)].

(** What [get_account_info] prints for an exception it caught. *)
Definition account_failure (e : exception) : event :=
  Write ((Fore_RED +++ "获取账户信息失败: " +++ exc_str e +++ Style_RESET_ALL) +++ Repr.nl).

(** The request of [place_limit_order], given the signature. *)
Definition order_request (self : BinanceTrader) (symbol side : string)
    (quantity price : Py.float) (sig : string) (now_ms : Z) : request :=
  mkRequest POST (base_url self +++ "/api/v3/order") [("X-MBX-APIKEY", api_key self)]
    (order_params symbol side quantity price now_ms ++ [("signature", VStr sig)]).

(** What [place_limit_order] prints for the error message [msg]. *)
Definition order_failure (msg : json) : event :=
  Write ((Fore_RED +++ "订单提交失败: " +++ Repr.str msg +++ Style_RESET_ALL) +++ Repr.nl).

(** What [place_limit_order] has printed before it signs. *)
Definition order_header : list event := events (_print_header "正在提交限价单").

(** The [except] clause of [place_limit_order] for the exception [e], after
    the header and the request. *)
Definition order_report (req : request) (e : exception) : M json :=
  match order_error_msg e with
  | Ok msg => (order_header ++ [Http req; order_failure msg], Ok JNull)
  | Raise e' => (order_header ++ [Http req], Raise e')
  end.


(** ** Time of day *)

(** The text [HH:MM] of an hour and a minute. *)
Definition time_text (h m : Z) : string := two_digits h +++ ":" +++ two_digits m.

(** The date of [now] at [h:m:00]. *)
Definition at_time (now : datetime) (h m : Z) : datetime :=
  mkDatetime (year now) (month now) (day now) h m 0 0.

(** Month and day of the [n]-th day (from 0) of a year: the last steps of
    [ord2ymd]. *)
Definition month_day (leapyear : bool) (n : Z) : Z * Z :=
  let m := Z.shiftr (n + 50) 5 in
  let preceding :=
    nth (Z.to_nat m) DAYS_BEFORE_MONTH 0 + (if (2 <? m) && leapyear then 1 else 0) in
  if n <? preceding then
    let m' := m - 1 in
    let preceding' :=
      preceding - (nth (Z.to_nat m') DAYS_IN_MONTH 0
                   + (if (m' =? 2) && leapyear then 1 else 0)) in
    (m', n - preceding' + 1)
  else (m, n - preceding + 1).

(** What [month_day] must satisfy on the [n]-th day of a year. *)
Definition month_day_ok (leapyear : bool) (n : Z) : bool :=
  let '(m, d) := month_day leapyear n in
  (1 <=? m) && (m <=? 12) && (1 <=? d)
  && (d <=? (if (m =? 2) && leapyear then 29 else nth (Z.to_nat m) DAYS_IN_MONTH 0))
  && (nth (Z.to_nat m) DAYS_BEFORE_MONTH 0 + (if (2 <? m) && leapyear then 1 else 0) + d
      =? n + 1).

(** The integers [0 .. n-1]. *)
Definition below (n : nat) : list Z := map Z.of_nat (seq 0 n).

(** Every time of day, written [HH:MM], is read back as itself. *)
Definition times_read_back : bool :=
  forallb (fun h =>
    forallb (fun m =>
      match unpack_hour_minute (time_text h m) with
      | Ok (h', m') => (h' =? h) && (m' =? m)
      | Raise _ => false
      end) (below 60)) (below 24).

(** What resolving the time [h:m] at the instant [now] yields: the instant
    [t] at [h:m:00] on the day of [now] unless that is strictly before [now],
    else on the next day of the calendar; the last two lines are the spec's
    examples. *)
Definition resolves (now : datetime) (h m : Z) : Prop :=
  exists t : datetime,
    parse_time_input now (time_text h m) = Ok t
    /\ valid t = true
    /\ (hour t, minute t, second t, microsecond t) = (h, m, 0, 0)
    /\ (if lt (at_time now h m) now then toordinal t = toordinal now + 1
        else t = at_time now h m)
    /\ toordinal now <= toordinal t <= toordinal now + 1
    /\ (h = 18 -> m = 0 -> hour now = 17 -> minute now = 59 -> t = at_time now 18 0)
    /\ (h = 18 -> m = 0 -> hour now = 18 -> minute now = 1 ->
        toordinal t = toordinal now + 1).

(** Text of ASCII characters only; on it [Py.int_of_string] is [int]. *)
Definition is_ascii (s : string) : bool :=
  forallb (fun c => Py.code c <? 128) (list_ascii_of_string s).

(** The strict shape [HH:MM]: two digits, a colon, two digits. *)
Definition hh_mm_shape (s : string) : bool :=
  match list_ascii_of_string s with
  | [a; b; c; d; e] =>
      Py.is_digit a && Py.is_digit b && Ascii.eqb c ":" && Py.is_digit d && Py.is_digit e
  | _ => false
  end.

(** The inputs that the resolver refuses: not two fields between colons, a
    field that [int] refuses, or an hour or a minute out of range. *)
Definition refused (s : string) : Prop :=
  match map Py.int_of_string (Py.split ":" s) with
  | [Some h; Some m] =>
      fits_int h = true /\ fits_int m = true /\ valid_time h m 0 0 = false
  | _ => True
  end.

(** Noon of 17 May 2024, a reading of the clock. *)
Definition demo_now : datetime := mkDatetime 2024 5 17 12 0 0 0.

(** ** The countdown *)

(** The remaining times that the loop computes on its passes [i .. i+n-1]. *)
Definition samples_from (clock : nat -> datetime) (scheduled_time : datetime)
    (i n : nat) : list Z :=
  map (fun j => sub scheduled_time (clock j)) (seq i n).

(** What the loop does for a list of remaining times: one line and one
    second of sleep for each, then the closing line break. *)
Definition countdown_events (samples : list Z) : list event :=
  flat_map (fun r => [Write (countdown_text r); Sleep 1]) samples
  ++ [Write Repr.nl].

(** A clock whose readings advance. *)
Definition advancing (clock : nat -> datetime) : Prop :=
  forall i : nat, to_micros (clock i) < to_micros (clock (S i)).

(** What the countdown to [scheduled_time] does under [clock]: it leaves at
    its reading [n], the first with no time remaining, after one sample for
    each reading before. *)
Definition counts_down (clock : nat -> datetime) (scheduled_time : datetime) : Prop :=
  exists n : nat,
    let samples := samples_from clock scheduled_time 0 n in
    (forall fuel : nat, (n < fuel)%nat ->
       countdown fuel clock 0 scheduled_time = Some (countdown_events samples, Ok tt))
    /\ (forall fuel : nat, (fuel <= n)%nat -> countdown fuel clock 0 scheduled_time = None)
    /\ length samples = n
    /\ Forall (fun r => 0 < r) samples
    /\ StronglySorted (fun earlier later => later < earlier) samples
    /\ sub scheduled_time (clock n) <= 0.

(** A clock read once a second from noon of 17 May 2024. *)
Definition demo_clock (i : nat) : datetime :=
  mkDatetime 2024 5 17 12 (Z.of_nat i / 60) (Z.of_nat i mod 60) 0.

(** ** The balance display *)

(** An entry of [balances] that reads as the asset [asset] with the free
    balance [free]: [float(balance['free'])] is [free] and
    [balance['asset']] is the text [asset]. *)
Definition reads_as (balance : json) (asset : string) (free : Py.float) : Prop :=
  exists free_field : json,
    subscript balance "free" = Ok free_field
    /\ to_float free_field = Ok free
    /\ subscript balance "asset" = Ok (JStr asset).

(** The assets that the display shows: those with a free balance above
    zero, in their order. *)
Definition shown (info : list (string * Py.float)) : list (string * Py.float) :=
  filter (fun i => Py.gt_zero (snd i)) info.

(** The line of one asset, as printed. *)
Definition balance_line (i : string * Py.float) : event :=
  Write (balance_text (Py.rjust 6 (fst i)) (snd i) +++ Repr.nl).


(** An account payload with three assets, one of them with nothing free. *)
Definition demo_account : json :=
  JDict [("makerCommission", JInt 15);
         ("balances",
          JList [JDict [("asset", JStr "BTC"); ("free", JStr "0.50000000");
                        ("locked", JStr "0.00000000")];
                 JDict [("asset", JStr "ETH"); ("free", JStr "0.00000000");
                        ("locked", JStr "1.00000000")];
                 JDict [("asset", JStr "USDT"); ("free", JStr "100.00000000");
                        ("locked", JStr "0.00000000")]])].

(** ** Concrete clients, networks and orders *)

(** A client of the test network with both keys set. *)
Definition demo_trader : BinanceTrader :=
  mkTrader true "https://testnet.binance.vision" (Some "key") (Some "s").

(** A network that answers every request with [r]. *)
Definition answers (r : Response) : transport := fun _ => Ok r.

Definition ok_response (j : json) : Response := mkResponse 200 "OK" "" (Json j).

(** The exchange's answer to a request it does not authorize. *)
Definition unauthorized : Response :=
  mkResponse 401 "Unauthorized" "https://testnet.binance.vision/api/v3/account"
    (Json (JDict [("code", JInt (-2014)); ("msg", JStr "API-key format invalid.")])).

(** The exchange's answer to an order it rejects. *)
Definition rejected : Response :=
  mkResponse 400 "Bad Request" "https://testnet.binance.vision/api/v3/order"
    (Json (JDict [("msg", JStr "Insufficient balance")])).

(** The floats [1.0], [-1.0] and [100.0]. *)
Definition one : Py.float := S754_finite false 4503599627370496 (-52).
Definition minus_one : Py.float := S754_finite true 4503599627370496 (-52).
Definition hundred : Py.float := S754_finite false 7036874417766400 (-46).
Definition half : Py.float := S754_finite false 4503599627370496 (-53).


End Spec.

(* ================================================================= *)
(** * The rest of the program: console, scheduled job, [main] *)

(** [json.dumps(obj, indent=2)]. *)
Module JsonDump.

(** The code points of a text, from its UTF-8 bytes: [acc] holds the bits
    read of the current code point, [need] the continuation bytes still to
    come. *)
Fixpoint code_points_from (s : string) (acc : Z) (need : nat) : list Z :=
  match s with
  | EmptyString => []
  | String c r =>
      let b := Py.code c in
      if Py.is_continuation c then
        match need with
        | 1%nat => (acc * 64 + (b - 128)) :: code_points_from r 0 0
        | S n => code_points_from r (acc * 64 + (b - 128)) n
        | O => code_points_from r 0 0
        end
      else if b <? 128 then b :: code_points_from r 0 0
      else if b <? 224 then code_points_from r (b - 192) 1
      else if b <? 240 then code_points_from r (b - 224) 2
      else code_points_from r (b - 240) 3
  end.

Definition hex4 (n : Z) : string :=
  Repr.hex2 (n / 256) +++ Repr.hex2 (n mod 256).

(** One code point inside a JSON string ([ensure_ascii] is on): the short
    escapes, printable ASCII as it is, [\uXXXX] for the rest, as a surrogate
    pair above the basic plane. *)
Definition escape_code_point (cp : Z) : string :=
  if cp =? 34 then "\" +++ String (Py.chr 34) EmptyString
  else if cp =? 92 then "\\"
  else if cp =? 10 then "\n"
  else if cp =? 13 then "\r"
  else if cp =? 9 then "\t"
  else if cp =? 8 then "\b"
  else if cp =? 12 then "\f"
  else if (32 <=? cp) && (cp <=? 126) then String (Py.chr cp) EmptyString
  else if cp <? 65536 then "\u" +++ hex4 cp
  else
    let v := cp - 65536 in
    "\u" +++ hex4 (55296 + v / 1024) +++ "\u" +++ hex4 (56320 + v mod 1024).

Fixpoint concat_all (l : list string) : string :=
  match l with
  | [] => EmptyString
  | x :: r => x +++ concat_all r
  end.

Definition quote (s : string) : string :=
  String (Py.chr 34)
    (concat_all (map escape_code_point (code_points_from s 0 0))
     +++ String (Py.chr 34) EmptyString).

Definition float_text (x : Py.float) : string :=
  match x with
  | S754_nan => "NaN"
  | S754_infinity s => if s then "-Infinity" else "Infinity"
  | _ => Py.str_of_float x
  end.

(** The text of [obj] at nesting depth [level], two spaces per level. *)
Fixpoint dumps_at (level : nat) (obj : json) : string :=
  let pad (n : nat) := Py.replicate (2 * n) " " in
  match obj with
  | JNull => "null"
  | JBool b => if b then "true" else "false"
  | JInt n => Py.str_of_int n
  | JFloat x => float_text x
  | JStr s => quote s
  | JList [] => "[]"
  | JList l =>
      "[" +++ Repr.nl
      +++ Py.join ("," +++ Repr.nl)
            (map (fun v => pad (S level) +++ dumps_at (S level) v) l)
      +++ Repr.nl +++ pad level +++ "]"
  | JDict [] => "{}"
  | JDict kv =>
      "{" +++ Repr.nl
      +++ Py.join ("," +++ Repr.nl)
            ((fix items (kv : list (string * json)) : list string :=
                match kv with
                | [] => []
                | (k, v) :: r =>
                    (pad (S level) +++ quote k +++ ": " +++ dumps_at (S level) v)
                    :: items r
                end) kv)
      +++ Repr.nl +++ pad level +++ "}"
  end.

Definition dumps_indent2 (obj : json) : string := dumps_at 0 obj.

End JsonDump.

(** The process and its surroundings: the environment, the network, the two
    clocks, and the lines typed at the console. *)
Module Console.

Import Datetime.

(** The [i]-th call of [time.time] yields [time_ms i] (as [int(t * 1000)]),
    the [i]-th call of [datetime.now] yields [wall_clock i]. *)
Record world : Type := mkWorld {
  environ : string -> option string;
  network : transport;
  time_ms : nat -> Z;
  wall_clock : nat -> datetime
}.

(** The lines not yet read and the number of readings of each clock. *)
Record state : Type := mkState {
  stdin : list string;
  time_reads : nat;
  clock_reads : nat
}.

(** A run from a state: the events, the outcome and the state after; [None]
    when the fuel of a loop runs out. *)
Definition IO (A : Type) : Type := state -> option (M A * state).

Definition io_ret {A : Type} (a : A) : IO A := fun st => Some (ret a, st).

Definition io_lift {A : Type} (m : M A) : IO A := fun st => Some (m, st).

Definition io_bind {A B : Type} (m : IO A) (f : A -> IO B) : IO B :=
  fun st =>
    match m st with
    | None => None
    | Some ((evs, Raise e), st') => Some ((evs, Raise e), st')
    | Some ((evs, Ok a), st') =>
        match f a st' with
        | None => None
        | Some ((evs', r), st'') => Some ((evs ++ evs', r), st'')
        end
    end.

Declare Scope io_scope.
Delimit Scope io_scope with io.
Bind Scope io_scope with IO.

Notation "x <- m ;; k" := (io_bind m (fun x => k))
  (at level 61, m at next level, right associativity) : io_scope.
Notation "m ;;; k" := (io_bind m (fun _ => k))
  (at level 61, right associativity) : io_scope.

(** [int(time.time() * 1000)]. *)
Definition read_time_ms (w : world) : IO Z :=
  fun st =>
    Some (ret (time_ms w (time_reads st)),
          mkState (stdin st) (S (time_reads st)) (clock_reads st)).

(** [datetime.now(pytz.timezone('Asia/Shanghai'))]. *)
Definition datetime_now (w : world) : IO datetime :=
  fun st =>
    Some (ret (wall_clock w (clock_reads st)),
          mkState (stdin st) (time_reads st) (S (clock_reads st))).

(** The [EOFError] of [input] at the end of the input. *)
Definition end_of_input : exception := simple_exc OtherException "EOF when reading a line".

(** [input(prompt)]: the prompt is written, a line is read. *)
Definition input (prompt : string) : IO string :=
  fun st =>
    match stdin st with
    | [] => Some (([Write prompt], Raise end_of_input), st)
    | line :: rest =>
        Some (([Write prompt], Ok line), mkState rest (time_reads st) (clock_reads st))
    end.

(** The white space that [str.strip()] removes, among ASCII characters. *)
Definition is_blank (c : ascii) : bool :=
  ((9 <=? Py.code c) && (Py.code c <=? 13))
  || ((28 <=? Py.code c) && (Py.code c <=? 32)).

Fixpoint lstrip (s : string) : string :=
  match s with
  | String c r => if is_blank c then lstrip r else s
  | EmptyString => EmptyString
  end.

(** [s.strip()]. *)
Definition str_strip (s : string) : string :=
  Py.rev_string (lstrip (Py.rev_string (lstrip s) EmptyString)) EmptyString.

End Console.

Module Program.

Import Datetime Trader Console.
Local Open Scope io_scope.

(** [t.strftime('%Y-%m-%d %H:%M:%S')] (four digits from the year 1000
    on). *)
Definition strftime (t : datetime) : string :=
  Py.str_of_int (year t) +++ "-" +++ two_digits (month t) +++ "-" +++ two_digits (day t)
    +++ " " +++ two_digits (hour t) +++ ":" +++ two_digits (minute t)
    +++ ":" +++ two_digits (second t).

(** The two calls of the client, with the time read from the clock. *)
Definition get_account_info (w : world) (self : BinanceTrader) : IO json :=
  now_ms <- read_time_ms w ;;
  io_lift (Trader.get_account_info self now_ms (network w)).

Definition place_limit_order (w : world) (self : BinanceTrader) (symbol side : string)
    (quantity price : Py.float) : IO json :=
  now_ms <- read_time_ms w ;;
  io_lift (Trader.place_limit_order self symbol side quantity price now_ms (network w)).

(** The function [job] that [schedule_order] hands to the scheduler, as the
    scheduler runs it. *)
Definition job (w : world) (self : BinanceTrader) (symbol side : string)
    (quantity price : Py.float) : IO unit :=
  now <- datetime_now w ;;
  let current_time := strftime now in
  io_lift (_print_header ("定时订单触发 " +++ current_time)) ;;;
  result <- place_limit_order w self symbol side quantity price ;;
  if truthy result then
    order_id <- io_lift (lift (subscript result "orderId")) ;;
    io_lift (print (Fore_GREEN +++ "订单创建成功！订单ID: " +++ Repr.str order_id
                      +++ Style_RESET_ALL))
  else io_lift (print (Fore_RED +++ "定时下单失败" +++ Style_RESET_ALL)).

(** ** [get_valid_time_input] *)

Definition time_prompt : string :=
  Fore_CYAN +++ "请输入挂单时间（上海时间，格式HH:MM，例如18:00）: " +++ Style_RESET_ALL.

Definition time_error : string :=
  Fore_RED +++ "时间格式错误，请使用HH:MM格式" +++ Style_RESET_ALL.

(** The body of the [try]: the result, and whether the clock was read. *)
Definition time_attempt (w : world) (clock_reads : nat) (time_input : string)
  : result datetime * nat :=
  match unpack_hour_minute time_input with
  | Raise e => (Raise e, clock_reads)
  | Ok (hour, minute) =>
      let now := wall_clock w clock_reads in
      (match make (year now) (month now) (day now) hour minute with
       | Raise e => Raise e
       | Ok target_time =>
           if lt target_time now then add_days target_time 1 else Ok target_time
       end,
       S clock_reads)
  end.

(** The loop [while True], one pass per line read. *)
Fixpoint time_input_loop (w : world) (lines : list string) (time_reads clock_reads : nat)
  : M datetime * state :=
  match lines with
  | [] => (([Write time_prompt], Raise end_of_input), mkState [] time_reads clock_reads)
  | line :: rest =>
      let time_input := str_strip line in
      match time_attempt w clock_reads time_input with
      | (Ok target_time, reads) =>
          (([Write time_prompt], Ok target_time), mkState rest time_reads reads)
      | (Raise e, reads) =>
          if is_ValueError e then
            let '((evs, r), st) := time_input_loop w rest time_reads reads in
            ((Write time_prompt :: Write (time_error +++ Repr.nl) :: evs, r), st)
          else (([Write time_prompt], Raise e), mkState rest time_reads reads)
      end
  end.

Definition get_valid_time_input (w : world) : IO datetime :=
  fun st => Some (time_input_loop w (stdin st) (time_reads st) (clock_reads st)).

(** ** The countdown, on the clock of the world *)

Fixpoint sleeps (evs : list event) : nat :=
  match evs with
  | [] => O
  | Sleep _ :: rest => S (sleeps rest)
  | _ :: rest => sleeps rest
  end.

(** The loop of [Trader.countdown] from the current reading of the clock,
    without a keyboard interrupt; the clock is read once more than the loop
    sleeps. *)
Definition run_countdown (w : world) (fuel : nat) (scheduled_time : datetime) : IO unit :=
  fun st =>
    match countdown fuel (fun j => wall_clock w (clock_reads st + j)) 0 scheduled_time with
    | None => None
    | Some m =>
        Some (m, mkState (stdin st) (time_reads st)
                   (clock_reads st + S (sleeps (events m))))
    end.

(** ** What follows a placed order *)

(** The report of [main] and of [interactive_trading] on the result of an
    order placed at once. *)
Definition report_order (result : json) : IO unit :=
  if truthy result then
    io_lift (print (Repr.nl +++ Fore_GREEN +++ "订单创建成功！")) ;;;
    io_lift (print (JsonDump.dumps_indent2 result)) ;;;
    order_id <- io_lift (lift (subscript result "orderId")) ;;
    io_lift (print ("订单ID: " +++ Repr.str order_id +++ Style_RESET_ALL))
  else io_lift (print (Fore_RED +++ "订单创建失败" +++ Style_RESET_ALL)).

(** [float(input(prompt))]. *)
Definition input_float (prompt : string) : IO Py.float :=
  line <- input prompt ;;
  match Py.float_of_string line with
  | Some x => io_ret x
  | None =>
      io_lift (raise (simple_exc ValueError
                        ("could not convert string to float: " +++ Repr.repr_str line)))
  end.

Definition ask (question : string) : string :=
  Fore_CYAN +++ question +++ Style_RESET_ALL.

(** ** [interactive_trading] *)

Definition interactive_trading (w : world) (fuel : nat) : IO unit :=
  io_lift (print (Repr.nl +++ Fore_YELLOW +++ "=== 币安智能交易终端 ===" +++ Style_RESET_ALL)) ;;;
  network_line <- input (ask "选择交易网络 (1-主网 2-测试网): ") ;;
  let network := str_strip network_line in
  let trader := init (environ w) (String.eqb network "2") in
  account <- get_account_info w trader ;;
  (if truthy account then io_lift (print_balance account) else io_ret tt) ;;;
  io_lift (_print_header "订单参数输入") ;;;
  symbol_line <- input (ask "输入交易对 (例如BTCUSDT): ") ;;
  let symbol := Py.upper symbol_line in
  side_line <- input (ask "交易方向 (BUY/SELL): ") ;;
  let side := Py.upper side_line in
  quantity <- input_float (ask "交易数量: ") ;;
  price <- input_float (ask "限价单价格: ") ;;
  schedule_line <- input (ask "是否定时挂单？(Y/N): ") ;;
  let use_schedule := Py.upper schedule_line in
  if String.eqb use_schedule "Y" then
    target_time <- get_valid_time_input w ;;
    confirm_line <- input (Repr.nl +++ Fore_YELLOW +++ "确认在 " +++ strftime target_time
                             +++ " 上海时间提交订单？(Y/N): " +++ Style_RESET_ALL) ;;
    let confirm := Py.upper confirm_line in
    if String.eqb confirm "Y" then
      scheduled_time <- io_lift (schedule_order symbol side quantity price target_time) ;;
      io_lift (print (Repr.nl +++ Fore_GREEN +++ "定时任务已设置！计划执行时间: "
                        +++ strftime scheduled_time +++ "（上海时间）" +++ Style_RESET_ALL)) ;;;
      run_countdown w fuel scheduled_time
    else
      io_lift (print (Fore_YELLOW +++ "已取消定时订单设置" +++ Style_RESET_ALL))
  else
    confirm_line <- input (Repr.nl +++ Fore_YELLOW +++ "确认立即提交订单？(Y/N): "
                             +++ Style_RESET_ALL) ;;
    let confirm := Py.upper confirm_line in
    if String.eqb confirm "Y" then
      result <- place_limit_order w trader symbol side quantity price ;;
      report_order result
    else
      io_lift (print (Fore_YELLOW +++ "已取消订单提交" +++ Style_RESET_ALL)).

(** ** [main] *)

(** The arguments as [argparse] leaves them: an option that is not given is
    [None] (or [False] for the two switches). *)
Record Args : Type := mkArgs {
  arg_testnet : bool;
  arg_symbol : option string;
  arg_side : option string;
  arg_quantity : option Py.float;
  arg_price : option Py.float;
  arg_schedule_time : option string;
  arg_show_balance : bool
}.

Definition text_truthy (s : string) : bool := negb (String.eqb s "").

Definition float_truthy (x : Py.float) : bool :=
  match x with
  | S754_zero _ => false
  | _ => true
  end.

(** [args.symbol and args.side and args.quantity and args.price], as a
    condition: the four values when all of them count as true. *)
Definition order_args (args : Args) : option (string * string * Py.float * Py.float) :=
  match arg_symbol args, arg_side args, arg_quantity args, arg_price args with
  | Some symbol, Some side, Some quantity, Some price =>
      if text_truthy symbol && text_truthy side
         && float_truthy quantity && float_truthy price
      then Some (symbol, side, quantity, price)
      else None
  | _, _, _, _ => None
  end.

(** [parse_time_input] on the clock of the world: the clock is read once
    the two fields have been read. *)
Definition resolve_time (w : world) (time_str : string) : IO datetime :=
  fun st =>
    let reads :=
      match unpack_hour_minute time_str with
      | Ok _ => S (clock_reads st)
      | Raise _ => clock_reads st
      end in
    Some (lift (parse_time_input (wall_clock w (clock_reads st)) time_str),
          mkState (stdin st) (time_reads st) reads).

Definition main (w : world) (fuel : nat) (args : Args) : IO unit :=
  let trader := init (environ w) (arg_testnet args) in
  (if arg_show_balance args then
     now_ms <- read_time_ms w ;;
     io_lift (main_show_balance trader now_ms (network w))
   else io_ret tt) ;;;
  match order_args args with
  | Some (symbol, side, quantity, price) =>
      let scheduled :=
        match arg_schedule_time args with
        | Some time_str => if text_truthy time_str then Some time_str else None
        | None => None
        end in
      match scheduled with
      | Some time_str =>
          target_time <- resolve_time w time_str ;;
          io_lift (print (Fore_YELLOW +++ "设置定时订单于 " +++ strftime target_time
                            +++ "（上海时间）")) ;;;
          scheduled_time <-
            io_lift (schedule_order symbol (Py.upper side) quantity price target_time) ;;
          run_countdown w fuel scheduled_time
      | None =>
          result <- place_limit_order w trader symbol (Py.upper side) quantity price ;;
          report_order result
      end
  | None => io_ret tt
  end.

(** [any(vars(args).values())]. *)
Definition any_argument (args : Args) : bool :=
  arg_testnet args
  || match arg_symbol args with Some s => text_truthy s | None => false end
  || match arg_side args with Some s => text_truthy s | None => false end
  || match arg_quantity args with Some x => float_truthy x | None => false end
  || match arg_price args with Some x => float_truthy x | None => false end
  || match arg_schedule_time args with Some s => text_truthy s | None => false end
  || arg_show_balance args.

(** The block under [if __name__ == "__main__"], after the arguments have
    been parsed. *)
Definition run (w : world) (fuel : nat) (args : Args) : IO unit :=
  if negb (any_argument args) then interactive_trading w fuel else main w fuel args.

End Program.

(* ================================================================= *)
(** * Vocabulary of the further properties *)

Module Cases.

Import Datetime Trader Spec Console.

(** The display up to the lines of the assets [info]: what has been printed
    when a later entry fails. *)
Definition display_start (info : list (string * Py.float)) : list event :=
  [Write ((Repr.nl +++ Fore_GREEN +++ "【账户资产概览】") +++ Repr.nl);
   Write (Py.replicate 30 "-" +++ Repr.nl)]
  ++ map balance_line (shown info).

(** An entry of [balances] on which the display raises [e]: it has no key
    ['free'], or [float] refuses the value. *)
Definition unreadable (balance : json) (e : exception) : Prop :=
  subscript balance "free" = Raise e
  \/ exists free_field : json,
       subscript balance "free" = Ok free_field /\ to_float free_field = Raise e.

(** A clock that gains at least one second from a reading to the next, as
    [time.sleep(1)] between two readings makes it. *)
Definition one_second_cadence (clock : nat -> datetime) : Prop :=
  forall i : nat, to_micros (clock i) + 1000000 <= to_micros (clock (S i)).

(** A day, in microseconds. *)
Definition day_micros : Z := 86400000000.

(** ** The console, the job and [main] *)

(** The jobs handed to the scheduler, in order. *)
Fixpoint jobs_of (evs : list event) : list event :=
  match evs with
  | [] => []
  | AddJob d sy si q p :: rest => AddJob d sy si q p :: jobs_of rest
  | _ :: rest => jobs_of rest
  end.

(** Events that place nothing: every request is a [GET] and no job is
    handed to the scheduler. *)
Definition places_nothing (evs : list event) : Prop :=
  (forall r : request, In r (requests_of evs) -> req_method r = GET)
  /\ jobs_of evs = [].

(** A typed line that is not the answer [Y], in either case. *)
Definition not_yes (line : string) : Prop := Py.upper line <> "Y".

(** The last line printed. *)
Definition last_written (evs : list event) : string := last (written evs) "".

(** What the job prints when the placement returned [None]. *)
Definition job_failure_line : string :=
  (Fore_RED +++ "定时下单失败" +++ Style_RESET_ALL) +++ Repr.nl.

(** What the job prints for the order id [id]. *)
Definition job_success_line (id : json) : string :=
  (Fore_GREEN +++ "订单创建成功！订单ID: " +++ Repr.str id +++ Style_RESET_ALL) +++ Repr.nl.

(** What [main] and [interactive_trading] print when the placement returned
    [None]. *)
Definition order_failure_line : string :=
  (Fore_RED +++ "订单创建失败" +++ Style_RESET_ALL) +++ Repr.nl.

(** One refused line of [get_valid_time_input]: the prompt, then the
    error. *)
Definition refusal : list event :=
  [Write Program.time_prompt; Write (Program.time_error +++ Repr.nl)].

(** ** Runs that place nothing *)

(** Events that reach neither the network nor the scheduler. *)
Definition silent (evs : list event) : Prop :=
  requests_of evs = [] /\ jobs_of evs = [].

(** The lines still to be read, from the [k]-th on: none is the answer
    [Y]. *)
Definition unconfirmed (k : nat) (st : Console.state) : Prop :=
  Forall not_yes (skipn k (stdin st)).

(** A part of a run that places nothing: from a state in [P] it ends, every
    request it sent is a [GET], it scheduled no job, and when it returns [a]
    it leaves a state in [Q a]. *)
Definition harmless {A : Type} (P : Console.state -> Prop) (m : IO A)
    (Q : A -> Console.state -> Prop) : Prop :=
  forall st : Console.state,
    P st ->
    exists (r : M A) (st' : Console.state),
      m st = Some (r, st')
      /\ places_nothing (events r)
      /\ forall a : A, outcome r = Ok a -> Q a st'.

(** A typed line that the reader of the time refuses. *)
Definition refused_line (line : string) : Prop :=
  is_ascii line = true /\ refused (str_strip line).

(** The account query returns, and the display of what it returned, if it is
    displayed, ends normally. *)
Definition balance_shown (trader : BinanceTrader) (now_ms : Z) (net : transport) : Prop :=
  exists account : json,
    outcome (Trader.get_account_info trader now_ms net) = Ok account
    /\ (truthy account = true -> outcome (print_balance account) = Ok tt).

(** The arguments of an order that [main] does not take up: a symbol or a
    side that is not given or empty, a quantity or a price that is not given
    or zero. *)
Definition missing_text (o : option string) : Prop := o = None \/ o = Some "".

Definition missing_number (o : option Py.float) : Prop :=
  o = None \/ exists s : bool, o = Some (S754_zero s).

Definition incomplete (args : Program.Args) : Prop :=
  missing_text (Program.arg_symbol args) \/ missing_text (Program.arg_side args)
  \/ missing_number (Program.arg_quantity args)
  \/ missing_number (Program.arg_price args).


(** The first line of the report on an accepted order. *)
Definition success_line : string :=
  (Repr.nl +++ Fore_GREEN +++ "订单创建成功！") +++ Repr.nl.


(** An exchange for the examples: the account query is answered with
    [demo_account], an order with the id 7. *)
Definition demo_exchange : transport :=
  fun r =>
    match req_method r with
    | GET => Ok (ok_response demo_account)
    | POST => Ok (ok_response (JDict [("orderId", JInt 7)]))
    end.

(** A process for the examples: both test keys set, the network [net], the
    time 0 and the clock [clock]. *)
Definition demo_world (net : transport) (clock : nat -> datetime) : Console.world :=
  Console.mkWorld
    (fun k => if String.eqb k "TESTNET_API_KEY" then Some "key"
              else if String.eqb k "TESTNET_SECRET_KEY" then Some "s" else None)
    net (fun _ => 0) clock.

(** The state of a process that has read nothing yet. *)
Definition fresh (lines : list string) : Console.state := Console.mkState lines 0 0.

End Cases.

(* ================================================================= *)
(** * Properties *)

(** ** Events and text *)

Lemma requests_of_app (l1 l2 : list event) :
  requests_of (l1 ++ l2) = requests_of l1 ++ requests_of l2.
Proof.
  induction l1 as [| [s | r | n | d sy si q p] l1 IH]; simpl; rewrite ?IH; reflexivity.
Qed.

Lemma append_assoc (s1 s2 s3 : string) : (s1 +++ s2) +++ s3 = s1 +++ (s2 +++ s3).
Proof. induction s1 as [| c r IH]; simpl; [reflexivity | now rewrite IH]. Qed.

(** ** The signer *)

Module SignerFacts.

Import Trader Spec.

Lemma query_string_canonical (params : dict value) :
  query_string params = canonical params.
Proof.
  unfold query_string.
  induction params as [| [k v] rest IH]; [reflexivity |].
  destruct rest as [| [k' v'] rest']; [reflexivity |].
  change (canonical ((k, v) :: (k', v') :: rest'))
    with (k +++ "=" +++ str_of_value v +++ "&" +++ canonical ((k', v') :: rest')).
  rewrite <- IH. simpl. now rewrite !append_assoc.
Qed.

Lemma be_bytes_length (n : nat) (x : Z) : length (Sha256.be_bytes n x) = n.
Proof. induction n; simpl; congruence. Qed.

Lemma be_bytes_bytes (n : nat) (x : Z) : Forall is_byte (Sha256.be_bytes n x).
Proof.
  induction n; simpl; constructor; auto.
  unfold is_byte. apply Z.mod_pos_bound. lia.
Qed.

Lemma blocks_length (n : nat) (h bs : list Z) :
  length h = 8%nat -> length (Sha256.blocks n h bs) = 8%nat.
Proof.
  revert h bs. induction n as [| n IH]; intros h bs Hh; simpl; [exact Hh |].
  apply IH. reflexivity.
Qed.

Lemma digest_length (msg : list Z) : length (Sha256.digest msg) = 32%nat.
Proof.
  unfold Sha256.digest.
  set (h := Sha256.blocks _ _ _).
  assert (Hh : length h = 8%nat) by (apply blocks_length; reflexivity).
  destruct h as [| a [| b [| c [| d [| e [| f [| g [| i [| ? ?]]]]]]]]]; try discriminate Hh.
  reflexivity.
Qed.

Lemma digest_bytes (msg : list Z) : Forall is_byte (Sha256.digest msg).
Proof.
  unfold Sha256.digest.
  generalize (Sha256.blocks (Nat.div (length (Sha256.pad msg)) 64) Sha256.H0 (Sha256.pad msg)).
  intros l. induction l as [| w l IH]; cbn [flat_map]; [constructor |].
  apply Forall_app. split; [apply be_bytes_bytes | exact IH].
Qed.

Lemma hex_length (bs : list Z) : String.length (Hmac.hex bs) = (2 * length bs)%nat.
Proof. induction bs as [| b r IH]; simpl; [reflexivity | rewrite IH; lia]. Qed.

Lemma hex_digit_lower (d : Z) : 0 <= d < 16 -> lower_hex (Hmac.hex_digit d) = true.
Proof.
  intros H.
  assert (Hd : d = 0 \/ d = 1 \/ d = 2 \/ d = 3 \/ d = 4 \/ d = 5 \/ d = 6 \/ d = 7 \/
               d = 8 \/ d = 9 \/ d = 10 \/ d = 11 \/ d = 12 \/ d = 13 \/ d = 14 \/ d = 15)
    by lia.
  repeat (destruct Hd as [-> | Hd]; [reflexivity |]). subst d. reflexivity.
Qed.

Lemma hex_lower (bs : list Z) :
  Forall is_byte bs -> Forall (fun c => lower_hex c = true) (list_ascii_of_string (Hmac.hex bs)).
Proof.
  induction 1 as [| b r Hb _ IH]; simpl; [constructor |].
  unfold is_byte in Hb.
  constructor; [| constructor; [| exact IH]]; apply hex_digit_lower.
  - split; [apply Z.div_pos; lia | apply Z.div_lt_upper_bound; lia].
  - apply Z.mod_pos_bound. lia.
Qed.

End SignerFacts.

Module SignerTheorems.

Import Trader Spec SignerFacts.

(** SHA-256 and HMAC-SHA256 on their published test vectors (FIPS 180-4,
    "abc"; RFC 4231, test case 2). *)
Example sha256_abc :
  Hmac.hex (Sha256.digest (Py.encode_utf8 "abc"))
  = "ba7816bf8f01cfea414140de5dae2223b00361a396177a9cb410ff61f20015ad".
Proof. vm_compute. reflexivity. Qed.

Example hmac_rfc4231_case2 :
  Hmac.hexdigest (Py.encode_utf8 "Jefe") (Py.encode_utf8 "what do ya want for nothing?")
  = "5bdcc146bf60754e6a042426089575c75a003f089d2739839dec58b964ec3843".
Proof. vm_compute. reflexivity. Qed.

(** The order of the mapping is the order of the signed string: no sorting. *)
Example canonical_keeps_order :
  canonical [("b", VInt 2); ("a", VStr "x")] = "b=2&a=x"
  /\ canonical [("a", VStr "x"); ("b", VInt 2)] = "a=x&b=2".
Proof. split; reflexivity. Qed.

(** C1. For every ordered parameter mapping and every secret key, the signer
    returns the lowercase hexadecimal HMAC-SHA256 digest, keyed by the
    secret, of the items [key=value] joined by [&] in the order of the
    mapping. The result depends on the mapping and the secret alone (not on
    the other attributes of the client), is 64 characters long and made of
    the characters 0-9 and a-f; on the spec's example with secret ["s"] it
    is one fixed digest. *)
Theorem generate_signature_spec :
  (forall (t : bool) (u : string) (a : option string) (secret : string)
          (params : dict value),
      exists sig : string,
        _generate_signature (mkTrader t u a (Some secret)) params = Ok sig
        /\ sig = Hmac.hexdigest (Py.encode_utf8 secret) (Py.encode_utf8 (canonical params))
        /\ String.length sig = 64%nat
        /\ Forall (fun c => lower_hex c = true) (list_ascii_of_string sig))
  /\ (forall (t : bool) (u : string) (a : option string),
        _generate_signature (mkTrader t u a (Some "s")) example_params
        = Ok "354808f898618a9cc8e129e0e76a82b5aa60dae1c006a302e65728a26b9289fb").
Proof.
  split.
  - intros t u a secret params.
    exists (Hmac.hexdigest (Py.encode_utf8 secret) (Py.encode_utf8 (canonical params))).
    repeat split.
    + unfold _generate_signature; cbn [secret_key]. now rewrite query_string_canonical.
    + unfold Hmac.hexdigest, Hmac.hmac_sha256.
      rewrite hex_length, digest_length. reflexivity.
    + unfold Hmac.hexdigest, Hmac.hmac_sha256. apply hex_lower, digest_bytes.
  - intros t u a. vm_compute. reflexivity.
Qed.

End SignerTheorems.

(** ** The two authenticated calls, case by case *)

Module ClientFacts.

Import Trader Spec.

(** [get_account_info] by the cases of its run. *)
Lemma get_account_info_eq (self : BinanceTrader) (now : Z) (net : transport) :
  get_account_info self now net =
  match _generate_signature self [("timestamp", VInt now)] with
  | Raise e => ([], Raise e)
  | Ok sig =>
      let req := account_request self sig now in
      match net req with
      | Ok resp =>
          match text resp with
          | Json j => ([Http req], Ok j)
          | NotJson err =>
              ([Http req; account_failure (mkExc JSONDecodeError err None)], Ok JNull)
          end
      | Raise e =>
          if is_Exception e then ([Http req; account_failure e], Ok JNull)
          else ([Http req], Raise e)
      end
  end.
Proof.
  unfold get_account_info.
  destruct (_generate_signature self _) as [sig | e]; [| reflexivity].
  cbn [lift bind app dict_set String.eqb Ascii.eqb Bool.eqb]. cbv zeta.
  fold (account_request self sig now).
  set (req := account_request self sig now).
  unfold send, Requests.json_of.
  destruct (net req) as [resp | e].
  - unfold try_except, bind, emit, lift. cbn [app].
    destruct (text resp) as [j | err]; reflexivity.
  - unfold try_except, bind, emit, lift. cbn [app].
    destruct (is_Exception e); reflexivity.
Qed.

Lemma raise_for_status_cases (r : Response) :
  (Requests.raise_for_status r = Ok tt /\ Requests.ok r = true)
  \/ (exists msg, Requests.raise_for_status r = Raise (mkExc HTTPError msg (Some r))
                  /\ Requests.ok r = false
                  /\ 400 <= status_code r < 600).
Proof.
  unfold Requests.ok, Requests.raise_for_status.
  destruct ((400 <=? status_code r) && (status_code r <? 500)) eqn:E1.
  - right. eexists. repeat split; lia.
  - destruct ((500 <=? status_code r) && (status_code r <? 600)) eqn:E2.
    + right. eexists. repeat split; lia.
    + left. split; reflexivity.
Qed.

Lemma dict_set_fresh {A : Type} (d : dict A) (k : string) (v : A) :
  ~ In k (keys d) -> dict_set d k v = d ++ [(k, v)].
Proof.
  induction d as [| [k' v'] d IH]; intros H; simpl; [reflexivity |].
  destruct (String.eqb k' k) eqn:E.
  - apply String.eqb_eq in E. exfalso. apply H. left. exact E.
  - rewrite IH; [reflexivity |]. intros Hin. apply H. right. exact Hin.
Qed.

Lemma order_params_keys (symbol side : string) (q p : Py.float) (now : Z) :
  keys (order_params symbol side q p now)
  = ["symbol"; "side"; "type"; "timeInForce"; "quantity"; "price"; "timestamp"].
Proof. reflexivity. Qed.

Lemma signature_not_order_key (symbol side : string) (q p : Py.float) (now : Z) :
  ~ In "signature" (keys (order_params symbol side q p now)).
Proof.
  rewrite order_params_keys. simpl.
  intros H. repeat (destruct H as [H | H]; [discriminate H |]). exact H.
Qed.

(** [place_limit_order] by the cases of its run. *)
Lemma place_limit_order_eq (self : BinanceTrader) (symbol side : string)
    (q p : Py.float) (now : Z) (net : transport) :
  place_limit_order self symbol side q p now net =
  match _generate_signature self (order_params symbol side q p now) with
  | Raise e => (order_header, Raise e)
  | Ok sig =>
      let req := order_request self symbol side q p sig now in
      match net req with
      | Ok resp =>
          match Requests.raise_for_status resp with
          | Ok _ =>
              match text resp with
              | Json j => (order_header ++ [Http req], Ok j)
              | NotJson err => order_report req (mkExc JSONDecodeError err None)
              end
          | Raise e => order_report req e
          end
      | Raise e =>
          if is_RequestException e then order_report req e
          else (order_header ++ [Http req], Raise e)
      end
  end.
Proof.
  unfold place_limit_order.
  change (_print_header "正在提交限价单") with (order_header, Ok tt).
  destruct (_generate_signature self _) as [sig | e] eqn:Hsig.
  2:{ unfold bind, lift. cbn [app]. rewrite app_nil_r. reflexivity. }
  unfold bind at 1 2. unfold lift at 1. cbv beta iota zeta.
  rewrite (dict_set_fresh _ _ _ (signature_not_order_key symbol side q p now)).
  fold (order_request self symbol side q p sig now).
  set (req := order_request self symbol side q p sig now).
  unfold send, Requests.json_of, order_report.
  destruct (net req) as [resp | e].
  - pose proof (raise_for_status_cases resp) as Hc.
    unfold try_except, bind, emit, lift, print, ret. cbn [app].
    destruct (Requests.raise_for_status resp) as [[] | e0].
    + destruct (text resp) as [j | err]; cbn [is_RequestException exc_class_of].
      * reflexivity.
      * destruct (order_error_msg _); reflexivity.
    + destruct Hc as [[Hc _] | [msg [Hc _]]]; [discriminate Hc |].
      injection Hc as ->. cbn [is_RequestException exc_class_of].
      destruct (order_error_msg _); reflexivity.
  - unfold try_except, bind, emit, lift, print, ret. cbn [app].
    destruct (is_RequestException e); [| reflexivity].
    destruct (order_error_msg _); reflexivity.
Qed.

End ClientFacts.

(** ** Signed requests *)

Module SignedRequests.

Import Trader Spec ClientFacts.


Lemma order_header_requests : requests_of order_header = [].
Proof. reflexivity. Qed.

Lemma order_report_requests (req : request) (e : exception) :
  requests_of (events (order_report req e)) = [req].
Proof.
  unfold order_report.
  destruct (order_error_msg e); unfold events; cbn [fst];
    rewrite requests_of_app, order_header_requests; reflexivity.
Qed.

(** The requests of one call of [get_account_info]: none without a secret
    key, else the signed request. *)
Lemma account_requests (self : BinanceTrader) (now : Z) (net : transport) :
  requests_of (events (get_account_info self now net)) =
  match _generate_signature self [("timestamp", VInt now)] with
  | Ok sig => [account_request self sig now]
  | Raise _ => []
  end.
Proof.
  rewrite get_account_info_eq.
  destruct (_generate_signature self _) as [sig | e]; [| reflexivity].
  cbv zeta. destruct (net _) as [resp | e].
  - destruct (text resp); reflexivity.
  - destruct (is_Exception e); reflexivity.
Qed.

(** The requests of one call of [place_limit_order]. *)
Lemma order_requests (self : BinanceTrader) (symbol side : string) (q p : Py.float)
    (now : Z) (net : transport) :
  requests_of (events (place_limit_order self symbol side q p now net)) =
  match _generate_signature self (order_params symbol side q p now) with
  | Ok sig => [order_request self symbol side q p sig now]
  | Raise _ => []
  end.
Proof.
  rewrite place_limit_order_eq.
  destruct (_generate_signature self _) as [sig | e]; [| reflexivity].
  cbv zeta. destruct (net _) as [resp | e].
  - destruct (Requests.raise_for_status resp) as [[] | e].
    + destruct (text resp); [| apply order_report_requests].
      unfold events; cbn [fst]. now rewrite requests_of_app, order_header_requests.
    + apply order_report_requests.
  - destruct (is_RequestException e); [apply order_report_requests |].
    unfold events; cbn [fst]. now rewrite requests_of_app, order_header_requests.
Qed.




End SignedRequests.

(** ** Failure reports of the two calls *)

Module ClientErrors.

Import Trader Spec ClientFacts SignedRequests.

(** Whatever the status, a response with a JSON body is what
    [get_account_info] returns: the status is never looked at. *)
Lemma account_ignores_status (t : bool) (u : string) (a : option string) (secret : string)
    (now : Z) (r : Response) (j : json) :
  text r = Json j ->
  outcome (get_account_info (mkTrader t u a (Some secret)) now (answers r)) = Ok j
  /\ written (events (get_account_info (mkTrader t u a (Some secret)) now (answers r))) = [].
Proof.
  intros Hj. rewrite get_account_info_eq.
  unfold _generate_signature; cbn [secret_key]. cbv zeta.
  unfold answers. rewrite Hj. split; reflexivity.
Qed.

(** Without a secret key the signer raises before the [try]: the exception
    leaves [get_account_info]. *)
Lemma account_without_secret (t : bool) (u : string) (a : option string)
    (now : Z) (net : transport) :
  get_account_info (mkTrader t u a None) now net
  = ([], Raise (simple_exc AttributeError "'NoneType' object has no attribute 'encode'")).
Proof. rewrite get_account_info_eq. reflexivity. Qed.

(** C5, at the failing input: the exchange answers the account query with
    status 401 and a JSON error body. The response is not successful, yet
    [get_account_info] returns its body as the account, prints nothing, and
    the balance display of [main] then fails on the missing key
    ['balances']; the sibling call [place_limit_order] turns the same
    response into a reported failure. *)
Theorem account_query_returns_error_body :
  Requests.ok unauthorized = false
  /\ get_account_info demo_trader 1700000000000 (answers unauthorized)
     = ([Http (account_request demo_trader
                 "3e260198d9e7563d06079cbbf731407c7d358b4ac3abee6891381c2283e7647c"
                 1700000000000)],
        Ok (JDict [("code", JInt (-2014)); ("msg", JStr "API-key format invalid.")]))
  /\ outcome (main_show_balance demo_trader 1700000000000 (answers unauthorized))
     = Raise (simple_exc KeyError "'balances'")
  /\ outcome (place_limit_order demo_trader "BTCUSDT" "BUY" one hundred 1700000000000
                (answers unauthorized))
     = Ok JNull.
Proof. repeat (match goal with |- _ /\ _ => split end); vm_compute; reflexivity. Qed.

(** The [HTTPError] that [raise_for_status] raises carries a response that
    counts as false, so the [except] clause of [place_limit_order] never
    reads the body: the message is [str(e)]. *)
Lemma http_error_message_is_generic (r : Response) (e : exception) :
  Requests.raise_for_status r = Raise e ->
  order_error_msg e = Ok (JStr (exc_str e)).
Proof.
  intros H.
  destruct (raise_for_status_cases r) as [[H' _] | [msg [H' [Hok _]]]];
    rewrite H' in H; [discriminate H |].
  injection H as <-.
  unfold order_error_msg, Requests.response_truthy; cbn [exc_response exc_str].
  now rewrite Hok.
Qed.

(** C6, at the failing input: the exchange rejects the order with status 400
    and the body [{"msg": "Insufficient balance"}]. One request is sent and
    [None] is returned, but the reported message is the generic text of the
    HTTP error, not the exchange's ["Insufficient balance"]. *)
Theorem rejected_order_reports_generic_message :
  place_limit_order demo_trader "BTCUSDT" "BUY" one hundred 1700000000000 (answers rejected)
  = (order_header ++
     [Http (order_request demo_trader "BTCUSDT" "BUY" one hundred
              "9a8971a1270b6ad39b0f20c34406101b86665aacee2f8ca3df209c91c43fd258"
              1700000000000);
      order_failure
        (JStr "400 Client Error: Bad Request for url: https://testnet.binance.vision/api/v3/order")],
     Ok JNull)
  /\ subscript (JDict [("msg", JStr "Insufficient balance")]) "msg"
     = Ok (JStr "Insufficient balance").
Proof. repeat (match goal with |- _ /\ _ => split end); vm_compute; reflexivity. Qed.

(** C7, refuted: an order with quantity [-1.0] and price [0.0] is signed and
    sent. *)
Lemma nonpositive_order_is_sent :
  Py.gt_zero minus_one = false
  /\ Py.gt_zero Py.fzero = false
  /\ requests_of (events (place_limit_order demo_trader "btcusdt" "buy" minus_one Py.fzero
                            1700000000000 (answers (ok_response (JDict [("orderId", JInt 1)])))))
     = [order_request demo_trader "btcusdt" "buy" minus_one Py.fzero
          "b4663b8cef692d25d009114cff932ed5d2296768aaf1b4662fea9580c931e072" 1700000000000]
  /\ query_string (order_params "btcusdt" "buy" minus_one Py.fzero 1700000000000)
     = "symbol=BTCUSDT&side=BUY&type=LIMIT&timeInForce=GTC&quantity=-1.0&price=0.0&timestamp=1700000000000".
Proof. repeat (match goal with |- _ /\ _ => split end); vm_compute; reflexivity. Qed.

(** C7, amended. The placement of an order checks neither the quantity nor
    the price: for every order request, whatever the quantity and the price,
    a client that has a secret key signs the parameter mapping and sends it
    in exactly one POST request. *)
Theorem every_order_is_signed_and_sent :
  forall (t : bool) (u : string) (a : option string) (secret : string)
         (symbol side : string) (q p : Py.float) (now : Z) (net : transport),
    let self := mkTrader t u a (Some secret) in
    exists sig : string,
      _generate_signature self (order_params symbol side q p now) = Ok sig
      /\ requests_of (events (place_limit_order self symbol side q p now net))
         = [mkRequest POST (u +++ "/api/v3/order") [("X-MBX-APIKEY", a)]
              (order_params symbol side q p now ++ [("signature", VStr sig)])]
      /\ In ("quantity", VFloat q) (order_params symbol side q p now)
      /\ In ("price", VFloat p) (order_params symbol side q p now).
Proof.
  intros t u a secret symbol side q p now net self.
  assert (Hsig : _generate_signature self (order_params symbol side q p now)
                 = Ok (Hmac.hexdigest (Py.encode_utf8 secret)
                         (Py.encode_utf8 (query_string (order_params symbol side q p now)))))
    by reflexivity.
  eexists. split; [exact Hsig |].
  split; [rewrite order_requests, Hsig; reflexivity |].
  split; unfold order_params; simpl; tauto.
Qed.

End ClientErrors.

(** ** The calendar *)

Module CalendarFacts.

Import Datetime Trader Spec.

Lemma below_in (n : nat) (z : Z) : 0 <= z < Z.of_nat n -> In z (below n).
Proof.
  intros H. unfold below. apply in_map_iff. exists (Z.to_nat z). split; [lia |].
  apply in_seq. lia.
Qed.

Lemma month_day_all :
  forallb (fun n => month_day_ok false n && month_day_ok true n) (below 365) = true.
Proof. vm_compute. reflexivity. Qed.

Lemma month_day_spec (leapyear : bool) (n : Z) :
  0 <= n <= 364 -> month_day_ok leapyear n = true.
Proof.
  intros H. pose proof month_day_all as Hall.
  rewrite forallb_forall in Hall.
  specialize (Hall n (below_in 365 n ltac:(lia))).
  apply andb_true_iff in Hall. destruct leapyear; tauto.
Qed.

Lemma days_before_year_split (a b c e : Z) :
  0 <= a -> 0 <= b <= 3 -> 0 <= c <= 24 -> 0 <= e <= 3 ->
  days_before_year (400 * a + 100 * b + 4 * c + e + 1)
  = 146097 * a + 36524 * b + 1461 * c + 365 * e.
Proof.
  intros. unfold days_before_year. cbv zeta.
  replace (400 * a + 100 * b + 4 * c + e + 1 - 1) with (400 * a + 100 * b + 4 * c + e) by lia.
  Z.div_mod_to_equations; lia.
Qed.

Lemma is_leap_split (a b c e : Z) :
  0 <= a -> 0 <= b <= 3 -> 0 <= c <= 24 -> 0 <= e <= 3 ->
  is_leap (400 * a + 100 * b + 4 * c + e + 1)
  = (e =? 3) && (negb (c =? 24) || (b =? 3)).
Proof.
  intros. unfold is_leap.
  destruct (e =? 3) eqn:He, (c =? 24) eqn:Hc, (b =? 3) eqn:Hb; cbn [andb orb negb];
    rewrite ?andb_true_iff, ?andb_false_iff, ?orb_true_iff, ?orb_false_iff,
            ?negb_true_iff, ?negb_false_iff, ?Z.eqb_eq, ?Z.eqb_neq;
    apply Z.eqb_eq in He || apply Z.eqb_neq in He;
    apply Z.eqb_eq in Hc || apply Z.eqb_neq in Hc;
    apply Z.eqb_eq in Hb || apply Z.eqb_neq in Hb;
    Z.div_mod_to_equations; lia.
Qed.

Lemma december_length (y : Z) : days_in_month y 12 = 31.
Proof. reflexivity. Qed.

Lemma december_start (y : Z) :
  days_before_month y 12 = 334 + (if is_leap y then 1 else 0).
Proof. reflexivity. Qed.

(** The quotients that [ord2ymd] takes from an ordinal. *)
Lemma ordinal_split (n : Z) :
  1 <= n <= 3652059 ->
  let n0 := n - 1 in
  let a := n0 / 146097 in let r400 := n0 mod 146097 in
  let b := r400 / 36524 in let r100 := r400 mod 36524 in
  let c := r100 / 1461 in let r4 := r100 mod 1461 in
  let e := r4 / 365 in let r1 := r4 mod 365 in
  0 <= a <= 24 /\ 0 <= b <= 4 /\ 0 <= c <= 24 /\ 0 <= e <= 4 /\ 0 <= r1 <= 364
  /\ n0 = 146097 * a + 36524 * b + 1461 * c + 365 * e + r1
  /\ (b = 4 -> c = 0 /\ e = 0 /\ r1 = 0 /\ a <= 23)
  /\ (e = 4 -> b <= 3 -> r1 = 0 /\ c <= 23)
  /\ (b <= 3 -> e <= 3 -> 400 * a + 100 * b + 4 * c + e + 1 <= 9999)
  /\ (e = 4 -> b <= 3 -> 400 * a + 100 * b + 4 * c + 4 <= 9999).
Proof.
  intros H n0 a r400 b r100 c r4 e r1. subst n0 a r400 b r100 c r4 e r1.
  Z.div_mod_to_equations; lia.
Qed.

Lemma ord2ymd_eq (n : Z) :
  ord2ymd n =
  let n0 := n - 1 in
  let a := n0 / 146097 in let r400 := n0 mod 146097 in
  let b := r400 / 36524 in let r100 := r400 mod 36524 in
  let c := r100 / 1461 in let r4 := r100 mod 1461 in
  let e := r4 / 365 in let r1 := r4 mod 365 in
  let y := a * 400 + 1 + b * 100 + c * 4 + e in
  if (e =? 4) || (b =? 4) then (y - 1, 12, 31)
  else let '(m, d) := month_day ((e =? 3) && (negb (c =? 24) || (b =? 3))) r1 in (y, m, d).
Proof.
  unfold ord2ymd, month_day, DI400Y, DI100Y, DI4Y. cbv zeta.
  destruct (_ || _); [reflexivity |].
  destruct (_ <? _); reflexivity.
Qed.

(** [date.fromordinal] inverts [date.toordinal] and yields a date of the
    calendar. *)
Lemma ord2ymd_correct (n : Z) :
  1 <= n <= MAXORDINAL ->
  exists y m d : Z,
    ord2ymd n = (y, m, d) /\ valid_date y m d = true /\ ymd2ord y m d = n.
Proof.
  unfold MAXORDINAL. intros Hn.
  pose proof (ordinal_split n Hn) as S. cbv zeta in S.
  rewrite ord2ymd_eq. cbv zeta.
  set (n0 := n - 1) in *.
  set (a := n0 / 146097) in *. set (r400 := n0 mod 146097) in *.
  set (b := r400 / 36524) in *. set (r100 := r400 mod 36524) in *.
  set (c := r100 / 1461) in *. set (r4 := r100 mod 1461) in *.
  set (e := r4 / 365) in *. set (r1 := r4 mod 365) in *.
  destruct S as (Ha & Hb & Hc & He & Hr & Hn0 & Hb4 & He4 & Hy & Hy4).
  assert (Hn1 : n0 = n - 1) by reflexivity.
  clearbody n0 a r400 b r100 c r4 e r1.
  destruct ((e =? 4) || (b =? 4)) eqn:Hex.
  - (* the last day of a leap cycle *)
    exists (a * 400 + 1 + b * 100 + c * 4 + e - 1), 12, 31.
    split; [reflexivity |].
    apply orb_true_iff in Hex. rewrite !Z.eqb_eq in Hex.
    assert (Hcase : (b = 4 /\ c = 0 /\ e = 0 /\ r1 = 0 /\ a <= 23)
                    \/ (e = 4 /\ b <= 3 /\ r1 = 0 /\ c <= 23 /\
                        400 * a + 100 * b + 4 * c + 4 <= 9999)) by lia.
    destruct Hcase as [(-> & -> & -> & -> & Ha') | (-> & Hb' & -> & Hc' & Hy')].
    + replace (a * 400 + 1 + 4 * 100 + 0 * 4 + 0 - 1)
        with (400 * a + 100 * 3 + 4 * 24 + 3 + 1) by lia.
      assert (Hl : is_leap (400 * a + 100 * 3 + 4 * 24 + 3 + 1) = true)
        by (rewrite is_leap_split by lia; reflexivity).
      unfold valid_date, ymd2ord, MINYEAR, MAXYEAR.
      rewrite december_length, december_start, Hl, days_before_year_split by lia.
      rewrite !andb_true_iff, !Z.leb_le. lia.
    + replace (a * 400 + 1 + b * 100 + c * 4 + 4 - 1)
        with (400 * a + 100 * b + 4 * c + 3 + 1) by lia.
      assert (Hl : is_leap (400 * a + 100 * b + 4 * c + 3 + 1) = true).
      { rewrite is_leap_split by lia.
        replace (c =? 24) with false by (symmetry; apply Z.eqb_neq; lia). reflexivity. }
      unfold valid_date, ymd2ord, MINYEAR, MAXYEAR.
      rewrite december_length, december_start, Hl, days_before_year_split by lia.
      rewrite !andb_true_iff, !Z.leb_le. lia.
  - (* a day of the year [y] *)
    apply orb_false_iff in Hex. rewrite !Z.eqb_neq in Hex.
    assert (Hb' : 0 <= b <= 3) by lia. assert (He' : 0 <= e <= 3) by lia.
    pose proof (month_day_spec ((e =? 3) && (negb (c =? 24) || (b =? 3))) r1 Hr) as Hmd.
    unfold month_day_ok in Hmd.
    destruct (month_day _ r1) as [m d].
    exists (a * 400 + 1 + b * 100 + c * 4 + e), m, d.
    split; [reflexivity |].
    replace (a * 400 + 1 + b * 100 + c * 4 + e)
      with (400 * a + 100 * b + 4 * c + e + 1) by lia.
    unfold valid_date, ymd2ord, days_in_month, days_before_month, MINYEAR, MAXYEAR.
    rewrite days_before_year_split, is_leap_split by lia.
    rewrite !andb_true_iff, !Z.leb_le, Z.eqb_eq in Hmd.
    rewrite !andb_true_iff, !Z.leb_le. lia.
Qed.

Lemma days_in_month_le (y m : Z) : days_in_month y m <= 31.
Proof.
  unfold days_in_month. destruct ((m =? 2) && is_leap y); [lia |].
  destruct (Z.to_nat m) as [| [| [| [| [| [| [| [| [| [| [| [| [| k]]]]]]]]]]]]];
    cbn; try lia. destruct k; cbn; lia.
Qed.

Lemma days_before_month_nonneg (y m : Z) : 0 <= days_before_month y m.
Proof.
  unfold days_before_month.
  assert (0 <= nth (Z.to_nat m) DAYS_BEFORE_MONTH 0).
  { destruct (Z.to_nat m) as [| [| [| [| [| [| [| [| [| [| [| [| [| k]]]]]]]]]]]]];
      cbn; try lia. destruct k; cbn; lia. }
  destruct ((2 <? m) && is_leap y); lia.
Qed.

Lemma valid_date_bounds (y m d : Z) :
  valid_date y m d = true ->
  1 <= y <= 9999 /\ 1 <= m <= 12 /\ 1 <= d <= 31 /\ 1 <= ymd2ord y m d.
Proof.
  unfold valid_date, MINYEAR, MAXYEAR. rewrite !andb_true_iff, !Z.leb_le.
  intros (((((Hy1 & Hy2) & Hm1) & Hm2) & Hd1) & Hd2).
  pose proof (days_in_month_le y m). pose proof (days_before_month_nonneg y m).
  assert (0 <= days_before_year y)
    by (unfold days_before_year; cbv zeta; Z.div_mod_to_equations; lia).
  unfold ymd2ord. lia.
Qed.

End CalendarFacts.

(** ** The resolver of times of day *)

Module TimeResolver.

Import Datetime Trader Spec CalendarFacts.

Lemma times_read_back_true : times_read_back = true.
Proof. vm_compute. reflexivity. Qed.

Lemma unpack_time_text (h m : Z) :
  0 <= h <= 23 -> 0 <= m <= 59 -> unpack_hour_minute (time_text h m) = Ok (h, m).
Proof.
  intros Hh Hm. pose proof times_read_back_true as H. unfold times_read_back in H.
  rewrite forallb_forall in H. specialize (H h (below_in 24 h ltac:(lia))).
  rewrite forallb_forall in H. specialize (H m (below_in 60 m ltac:(lia))).
  destruct (unpack_hour_minute (time_text h m)) as [[h' m'] | e]; [| discriminate H].
  apply andb_true_iff in H. rewrite !Z.eqb_eq in H. destruct H as [-> ->]. reflexivity.
Qed.

Lemma valid_time_iff (h m : Z) :
  valid_time h m 0 0 = true <-> 0 <= h <= 23 /\ 0 <= m <= 59.
Proof.
  unfold valid_time. rewrite !andb_true_iff, !Z.leb_le. lia.
Qed.

Lemma fits_int_small (n : Z) : -10000 <= n <= 10000 -> fits_int n = true.
Proof. intros H. unfold fits_int. apply andb_true_iff. rewrite Z.leb_le, Z.ltb_lt. lia. Qed.

(** [datetime(year, month, day, hour, minute)] on the date of a valid
    [now]. *)
Lemma make_cases (now : datetime) (h m : Z) :
  valid now = true ->
  make (year now) (month now) (day now) h m =
  if negb (fits_int h && fits_int m) then
    Raise (simple_exc OverflowError "signed integer is greater than maximum")
  else if negb (valid_time h m 0 0) then
    Raise (simple_exc ValueError "time field out of range")
  else Ok (at_time now h m).
Proof.
  intros Hv. unfold valid in Hv. apply andb_true_iff in Hv. destruct Hv as [Hd _].
  destruct (valid_date_bounds _ _ _ Hd) as (Hy & Hm & Hdd & _).
  unfold make. rewrite Hd.
  rewrite (fits_int_small (year now)), (fits_int_small (month now)),
          (fits_int_small (day now)) by lia.
  cbn [andb negb]. reflexivity.
Qed.

Lemma toordinal_at_time (now : datetime) (h m : Z) :
  toordinal (at_time now h m) = toordinal now.
Proof. reflexivity. Qed.

(** C3. For every well-formed time [HH:MM] (hour in 0..23, minute in 0..59)
    and every valid reading [now] of the clock of the reference zone (before
    the last day of the calendar), the resolver returns the instant at
    [HH:MM:00] on the day of [now] when that is not strictly before [now],
    and on the next calendar day when it is: never more than one day later.
    In particular ["18:00"] at 17:59 of day D is D at 18:00, and at 18:01 it
    is D+1 at 18:00. *)
Theorem parse_time_input_resolves :
  forall (now : datetime) (h m : Z),
    valid now = true -> toordinal now < MAXORDINAL ->
    0 <= h <= 23 -> 0 <= m <= 59 ->
    resolves now h m.
Proof.
  intros now h m Hv Hmax Hh Hm. unfold resolves, parse_time_input.
  rewrite (unpack_time_text h m Hh Hm), (make_cases now h m Hv).
  rewrite (fits_int_small h), (fits_int_small m) by lia.
  assert (Hvt : valid_time h m 0 0 = true) by (apply valid_time_iff; lia).
  rewrite Hvt. cbn [andb negb].
  pose proof Hv as Hv'. unfold valid in Hv'. apply andb_true_iff in Hv'.
  destruct Hv' as [Hd Ht].
  destruct (valid_date_bounds _ _ _ Hd) as (_ & _ & _ & Hord).
  fold (toordinal now) in Hord.
  assert (Hsec : 0 <= second now <= 59 /\ 0 <= microsecond now <= 999999).
  { unfold valid_time in Ht. rewrite !andb_true_iff, !Z.leb_le in Ht. lia. }
  destruct (lt (at_time now h m) now) eqn:Hlt.
  - (* strictly before now: the next day *)
    unfold add_days. rewrite toordinal_at_time.
    replace ((0 <? toordinal now + 1) && (toordinal now + 1 <=? MAXORDINAL)) with true
      by (symmetry; apply andb_true_iff; rewrite Z.ltb_lt, Z.leb_le; lia).
    destruct (ord2ymd_correct (toordinal now + 1) ltac:(lia)) as (y & mo & d & -> & Hvd & Hrt).
    eexists. split; [reflexivity |].
    cbn [hour minute second microsecond at_time].
    assert (Ht' : toordinal (mkDatetime y mo d h m 0 0) = toordinal now + 1) by exact Hrt.
    repeat split.
    + unfold valid. cbn [year month day hour minute second microsecond].
      now rewrite Hvd, Hvt.
    + exact Ht'.
    + lia.
    + lia.
    + intros -> -> H17 H59. exfalso.
      unfold lt, to_micros in Hlt. rewrite toordinal_at_time in Hlt.
      cbn [hour minute second microsecond at_time] in Hlt.
      apply Z.ltb_lt in Hlt. lia.
    + intros _ _ _ _. exact Ht'.
  - (* not before now: the same day *)
    eexists. split; [reflexivity |].
    cbn [hour minute second microsecond at_time].
    repeat split.
    + unfold valid. cbn [year month day hour minute second microsecond at_time].
      now rewrite Hd, Hvt.
    + rewrite toordinal_at_time. lia.
    + rewrite toordinal_at_time. lia.
    + intros -> -> _ _. reflexivity.
    + intros -> -> H18 H1. exfalso.
      unfold lt, to_micros in Hlt. rewrite toordinal_at_time in Hlt.
      cbn [hour minute second microsecond at_time] in Hlt.
      apply Z.ltb_ge in Hlt. lia.
Qed.

(** The theorem at noon of 17 May 2024 and the time 18:00. *)
Lemma parse_time_input_resolves_witness : resolves demo_now 18 0.
Proof.
  apply (parse_time_input_resolves demo_now 18 0); [reflexivity | reflexivity | lia | lia].
Defined.

(** C4, refuted: inputs that are not of the shape [HH:MM] and yet resolve
    to an instant, at noon of 17 May 2024. [int] accepts a sign, surrounding
    white space, a single digit and underscores between digits. *)
Lemma lenient_inputs_resolve :
  (hh_mm_shape "+18:00" = false
   /\ parse_time_input demo_now "+18:00" = Ok (mkDatetime 2024 5 17 18 0 0 0))
  /\ (hh_mm_shape "8:5" = false
      /\ parse_time_input demo_now "8:5" = Ok (mkDatetime 2024 5 18 8 5 0 0))
  /\ (hh_mm_shape " 18 : 00 " = false
      /\ parse_time_input demo_now " 18 : 00 " = Ok (mkDatetime 2024 5 17 18 0 0 0))
  /\ (hh_mm_shape "1_8:0_0" = false
      /\ parse_time_input demo_now "1_8:0_0" = Ok (mkDatetime 2024 5 17 18 0 0 0)).
Proof. repeat (match goal with |- _ /\ _ => split end); vm_compute; reflexivity. Qed.

(** C4, amended. For every ASCII input that does not split at the colons
    into exactly two fields, or has a field that [int] refuses, or whose
    hour is outside 0..23 or minute outside 0..59, the resolver fails with
    the format error and nothing else; so it does on ["25:61"], ["abc"] and
    ["18"]. *)
Theorem parse_time_input_refuses :
  forall (now : datetime) (s : string),
    valid now = true -> is_ascii s = true -> refused s ->
    parse_time_input now s = Raise format_error
    /\ parse_time_input now "25:61" = Raise format_error
    /\ parse_time_input now "abc" = Raise format_error
    /\ parse_time_input now "18" = Raise format_error.
Proof.
  intros now s Hv _ Hs.
  assert (Hgen : forall s', refused s' -> parse_time_input now s' = Raise format_error).
  { clear s Hs. intros s Hs. unfold refused in Hs.
    unfold parse_time_input, unpack_hour_minute.
    destruct (map Py.int_of_string (Py.split ":" s))
      as [| [h |] [| [m |] [| x l]]]; try reflexivity.
    destruct Hs as (Hfh & Hfm & Hvt).
    rewrite (make_cases now h m Hv), Hfh, Hfm, Hvt. reflexivity. }
  split; [| split; [| split]]; apply Hgen.
  - exact Hs.
  - vm_compute. repeat split; reflexivity.
  - vm_compute. exact I.
  - vm_compute. exact I.
Qed.

(** The theorem at noon of 17 May 2024 and the input ["24:00"]. *)
Lemma parse_time_input_refuses_witness :
  parse_time_input demo_now "24:00" = Raise format_error
  /\ parse_time_input demo_now "25:61" = Raise format_error
  /\ parse_time_input demo_now "abc" = Raise format_error
  /\ parse_time_input demo_now "18" = Raise format_error.
Proof.
  apply (parse_time_input_refuses demo_now "24:00");
    [reflexivity | reflexivity | vm_compute; repeat split; reflexivity].
Defined.

(** An hour that no C [int] holds: the constructor of [datetime] raises
    [OverflowError], which the handler of [ValueError] lets through. *)
Example huge_hour_overflows :
  parse_time_input demo_now "99999999999:00"
  = Raise (simple_exc OverflowError "signed integer is greater than maximum").
Proof. vm_compute. reflexivity. Qed.

End TimeResolver.

(** ** The countdown loop *)

Module Countdown.

Import Datetime Trader Spec.

Section Loop.

Variable clock : nat -> datetime.
Variable scheduled_time : datetime.

Let remaining (i : nat) : Z := sub scheduled_time (clock i).

Lemma countdown_leaves (fuel i : nat) :
  remaining i <= 0 -> countdown (S fuel) clock i scheduled_time = Some (print "").
Proof.
  intros H. cbn [countdown]. fold (remaining i).
  now replace (remaining i <=? 0) with true by (symmetry; apply Z.leb_le; exact H).
Qed.

Lemma countdown_passes (fuel i : nat) :
  0 < remaining i ->
  countdown (S fuel) clock i scheduled_time =
  match countdown fuel clock (S i) scheduled_time with
  | Some rest =>
      Some (print_noend (countdown_text (remaining i)) ;;; emit (Sleep 1) ;;; rest)
  | None => None
  end.
Proof.
  intros H. cbn [countdown]. fold (remaining i).
  now replace (remaining i <=? 0) with false by (symmetry; apply Z.leb_gt; exact H).
Qed.

(** With the first reading that leaves no time at [i + n], the loop started
    at reading [i] needs more than [n] units of fuel and then does what
    [countdown_events] says. *)
Lemma countdown_run (n : nat) :
  forall i : nat,
    (forall j : nat, (j < n)%nat -> 0 < remaining (i + j)) ->
    remaining (i + n) <= 0 ->
    (forall fuel : nat, (n < fuel)%nat ->
       countdown fuel clock i scheduled_time
       = Some (countdown_events (samples_from clock scheduled_time i n), Ok tt))
    /\ (forall fuel : nat, (fuel <= n)%nat -> countdown fuel clock i scheduled_time = None).
Proof.
  induction n as [| n IH]; intros i Hpos Hend.
  - rewrite Nat.add_0_r in Hend. split.
    + intros [| fuel] Hf; [lia |]. rewrite countdown_leaves by exact Hend. reflexivity.
    + intros fuel Hf. replace fuel with O by lia. reflexivity.
  - assert (Hi : 0 < remaining i) by (rewrite <- (Nat.add_0_r i); apply Hpos; lia).
    destruct (IH (S i)) as [IHrun IHnone].
    { intros j Hj. replace (S i + j)%nat with (i + S j)%nat by lia. apply Hpos. lia. }
    { now replace (S i + n)%nat with (i + S n)%nat by lia. }
    split.
    + intros [| fuel] Hf; [lia |].
      rewrite countdown_passes by exact Hi. rewrite IHrun by lia. reflexivity.
    + intros [| fuel] Hf; [reflexivity |].
      rewrite countdown_passes by exact Hi. rewrite IHnone by lia. reflexivity.
Qed.

(** The first reading at or after [i] that leaves no time, when some
    reading [i + k] leaves none. *)
Lemma first_reading (k : nat) :
  forall i : nat,
    remaining (i + k) <= 0 ->
    exists n : nat,
      (n <= k)%nat
      /\ (forall j : nat, (j < n)%nat -> 0 < remaining (i + j))
      /\ remaining (i + n) <= 0.
Proof.
  induction k as [| k IH]; intros i Hk.
  - exists O. repeat split; [lia | intros j Hj; lia | exact Hk].
  - destruct (Z_le_gt_dec (remaining i) 0) as [Hle | Hgt].
    + exists O. rewrite Nat.add_0_r. repeat split; [lia | intros j Hj; lia | exact Hle].
    + destruct (IH (S i)) as (n & Hn & Hpos & Hend).
      { now replace (S i + k)%nat with (i + S k)%nat by lia. }
      exists (S n). repeat split.
      * lia.
      * intros [| j] Hj; [rewrite Nat.add_0_r; lia |].
        replace (i + S j)%nat with (S i + j)%nat by lia. apply Hpos. lia.
      * now replace (i + S n)%nat with (S i + n)%nat by lia.
Qed.

Hypothesis clock_advances : advancing clock.

Lemma clock_gains (i : nat) :
  to_micros (clock 0) + Z.of_nat i <= to_micros (clock i).
Proof.
  induction i as [| i IH]; [simpl; lia |].
  pose proof (clock_advances i). lia.
Qed.

Lemma remaining_decreases (i j : nat) : (i < j)%nat -> remaining j < remaining i.
Proof.
  unfold remaining, sub. induction 1 as [| j Hle IH].
  - pose proof (clock_advances i). lia.
  - pose proof (clock_advances j). lia.
Qed.

Lemma samples_sorted (n : nat) :
  forall i : nat,
    StronglySorted (fun earlier later => later < earlier)
      (samples_from clock scheduled_time i n).
Proof.
  unfold samples_from.
  induction n as [| n IH]; intros i; cbn [seq map]; constructor.
  - apply IH.
  - apply Forall_forall. intros r Hr. apply in_map_iff in Hr.
    destruct Hr as (j & <- & Hj). apply in_seq in Hj.
    apply remaining_decreases. lia.
Qed.

(** The countdown under an advancing clock. *)
Lemma countdown_counts_down : counts_down clock scheduled_time.
Proof.
  pose (k := Z.to_nat (remaining O)).
  assert (Hk : remaining (0 + k) <= 0).
  { cbn [Nat.add]. pose proof (clock_gains k). unfold remaining, sub in *. subst k. lia. }
  destruct (first_reading k O Hk) as (n & _ & Hpos & Hend).
  destruct (countdown_run n O Hpos Hend) as [Hrun Hnone].
  exists n. cbv zeta. repeat split.
  - exact Hrun.
  - exact Hnone.
  - unfold samples_from. now rewrite length_map, length_seq.
  - unfold samples_from. apply Forall_forall. intros r Hr. apply in_map_iff in Hr.
    destruct Hr as (j & <- & Hj). apply in_seq in Hj. apply (Hpos j). lia.
  - apply samples_sorted.
  - exact Hend.
Qed.

End Loop.

(** C9. For every target instant, under a clock whose readings advance, the
    countdown leaves after finitely many passes: it takes one sample of the
    remaining time per pass, each followed by one second of sleep, the
    samples are positive and strictly decreasing, and the loop leaves at the
    first reading whose remaining time is at most zero, not before. *)
Theorem countdown_terminates :
  forall (clock : nat -> datetime) (scheduled_time : datetime),
    advancing clock -> counts_down clock scheduled_time.
Proof.
  intros clock scheduled_time Hadv.
  apply countdown_counts_down. exact Hadv.
Qed.

Lemma demo_clock_advances : advancing demo_clock.
Proof.
  intros i. unfold demo_clock, to_micros, toordinal.
  cbn [year month day hour minute second microsecond].
  rewrite Nat2Z.inj_succ. Z.div_mod_to_equations. lia.
Qed.

(** The theorem for a target two and a half seconds after noon, under a
    clock read once a second from noon. *)
Lemma countdown_terminates_witness :
  counts_down demo_clock (mkDatetime 2024 5 17 12 0 2 500000).
Proof.
  apply (countdown_terminates demo_clock (mkDatetime 2024 5 17 12 0 2 500000)).
  exact demo_clock_advances.
Defined.

(** The countdown to two and a half seconds after noon: three samples. *)
Example demo_countdown :
  countdown 10 demo_clock 0 (mkDatetime 2024 5 17 12 0 2 500000)
  = Some (countdown_events [2500000; 1500000; 500000], Ok tt)
  /\ map countdown_text [2500000; 1500000; 500000]
     = [String (Py.chr 13) (ESC +++ "35m剩余等待时间: 0:00:02");
        String (Py.chr 13) (ESC +++ "35m剩余等待时间: 0:00:01");
        String (Py.chr 13) (ESC +++ "35m剩余等待时间: 0:00:00")].
Proof. split; vm_compute; reflexivity. Qed.

End Countdown.

(** ** The balance display *)

Module BalanceDisplay.

Import Trader Spec ClientFacts.

Lemma show_balance_reads (balance : json) (asset : string) (free : Py.float) :
  reads_as balance asset free ->
  show_balance balance =
  if Py.gt_zero free then ([balance_line (asset, free)], Ok tt) else ([], Ok tt).
Proof.
  intros (free_field & Hfree & Hfloat & Hasset).
  unfold show_balance. rewrite Hfree. cbn [lift bind]. rewrite Hfloat. cbn [lift bind].
  destruct (Py.gt_zero free); [| reflexivity].
  rewrite Hasset. reflexivity.
Qed.

Lemma for_each_reads (balances : list json) (info : list (string * Py.float)) :
  Forall2 (fun b i => reads_as b (fst i) (snd i)) balances info ->
  for_each balances show_balance = (map balance_line (shown info), Ok tt).
Proof.
  induction 1 as [| b [asset free] bs info Hb _ IH]; [reflexivity |].
  cbn [for_each]. rewrite (show_balance_reads b asset free Hb), IH.
  unfold shown. cbn [filter snd]. fold (shown info).
  destruct (Py.gt_zero free); reflexivity.
Qed.






(** The display of [demo_account], character by character. *)
Example demo_account_display :
  written (events (print_balance demo_account))
  = [Repr.nl +++ ESC +++ "32m【账户资产概览】" +++ Repr.nl;
     "------------------------------" +++ Repr.nl;
     "   BTC: " +++ ESC +++ "33m0.50000000     " +++ ESC +++ "0m" +++ Repr.nl;
     "  USDT: " +++ ESC +++ "33m100.00000000   " +++ ESC +++ "0m" +++ Repr.nl;
     "------------------------------" +++ Repr.nl].
Proof. vm_compute. reflexivity. Qed.

End BalanceDisplay.

(* ================================================================= *)
(** * Further properties of the client *)

Module ClientProperties.

Import Trader Spec ClientFacts SignedRequests.

(** The signed string of two mappings put one after the other is the two
    signed strings with [&] between them: items are never reordered or
    merged. *)
Theorem query_string_app :
  forall p1 p2 : dict value,
    p1 <> [] -> p2 <> [] ->
    query_string (p1 ++ p2) = query_string p1 +++ "&" +++ query_string p2.
Proof.
  unfold query_string.
  induction p1 as [| [k v] rest IH]; intros p2 H1 H2; [congruence |].
  destruct rest as [| [k' v'] rest'].
  - destruct p2 as [| [k2 v2] p2']; [congruence |]. reflexivity.
  - change (((k, v) :: (k', v') :: rest') ++ p2)
      with ((k, v) :: (((k', v') :: rest') ++ p2)).
    cbn [map]. cbn [map] in IH.
    change (Py.join "&" ((k +++ "=" +++ str_of_value v)
              :: map (fun '(k0, v0) => k0 +++ "=" +++ str_of_value v0)
                   (((k', v') :: rest') ++ p2)))
      with ((k +++ "=" +++ str_of_value v) +++ "&" +++
            Py.join "&" (map (fun '(k0, v0) => k0 +++ "=" +++ str_of_value v0)
                           (((k', v') :: rest') ++ p2))).
    rewrite (IH p2) by (congruence || discriminate).
    cbn [Py.join map]. now rewrite !append_assoc.
Qed.

Lemma query_string_app_witness :
  query_string ([("a", VInt 1)] ++ [("b", VStr "x")])
  = query_string [("a", VInt 1)] +++ "&" +++ query_string [("b", VStr "x")].
Proof.
  apply (query_string_app [("a", VInt 1)] [("b", VStr "x")]); discriminate.
Defined.

(** A client without a secret key sends nothing: the signer raises
    [AttributeError] before the [try] of either call, the account query
    having done nothing and the order placement having printed its header;
    the exception reaches the caller. *)
Theorem no_secret_nothing_sent :
  forall (t : bool) (u : string) (a : option string) (now : Z) (net : transport)
         (symbol side : string) (q p : Py.float),
    let e := simple_exc AttributeError "'NoneType' object has no attribute 'encode'" in
    get_account_info (mkTrader t u a None) now net = ([], Raise e)
    /\ place_limit_order (mkTrader t u a None) symbol side q p now net
       = (order_header, Raise e)
    /\ requests_of order_header = [].
Proof.
  intros. split; [| split].
  - rewrite get_account_info_eq. reflexivity.
  - rewrite place_limit_order_eq. reflexivity.
  - reflexivity.
Qed.

(** The account query of a client with a secret key sends exactly one
    request, whatever the network does. It raises only what the network
    raised outside of [Exception] (a keyboard interrupt); every other
    failure of the network is printed and answered with [None]. *)
Theorem account_query_sends_once :
  forall (t : bool) (u : string) (a : option string) (secret : string)
         (now : Z) (net : transport),
    let self := mkTrader t u a (Some secret) in
    exists sig : string,
      _generate_signature self [("timestamp", VInt now)] = Ok sig
      /\ requests_of (events (get_account_info self now net))
         = [account_request self sig now]
      /\ (forall e : exception,
            outcome (get_account_info self now net) = Raise e ->
            is_Exception e = false /\ net (account_request self sig now) = Raise e)
      /\ (forall e : exception,
            net (account_request self sig now) = Raise e -> is_Exception e = true ->
            get_account_info self now net
            = ([Http (account_request self sig now); account_failure e], Ok JNull)).
Proof.
  intros t u a secret now net self.
  assert (Hsig : _generate_signature self [("timestamp", VInt now)]
                 = Ok (Hmac.hexdigest (Py.encode_utf8 secret)
                         (Py.encode_utf8 (query_string [("timestamp", VInt now)]))))
    by reflexivity.
  eexists. split; [exact Hsig |].
  split; [rewrite account_requests, Hsig; reflexivity |].
  rewrite get_account_info_eq, Hsig. cbv zeta.
  set (req := account_request self _ now).
  split.
  - intros e. destruct (net req) as [resp | e'].
    + destruct (text resp); discriminate.
    + destruct (is_Exception e') eqn:He; [discriminate |].
      unfold outcome; cbn [snd]. intros H. injection H as <-. split; [exact He | reflexivity].
  - intros e -> He. now rewrite He.
Qed.

(** What the placement of an order returns, when it is not [None], is the
    JSON body of a response that [raise_for_status] let through: the body
    of a response with a status from 400 to 599 is never returned. *)
Theorem order_result_from_ok_response :
  forall (self : BinanceTrader) (symbol side : string) (q p : Py.float)
         (now : Z) (net : transport) (j : json),
    outcome (place_limit_order self symbol side q p now net) = Ok j ->
    j <> JNull ->
    exists (sig : string) (resp : Response),
      _generate_signature self (order_params symbol side q p now) = Ok sig
      /\ net (order_request self symbol side q p sig now) = Ok resp
      /\ Requests.ok resp = true
      /\ ~ (400 <= status_code resp < 600)
      /\ text resp = Json j.
Proof.
  intros self symbol side q p now net j Hout Hj.
  rewrite place_limit_order_eq in Hout.
  destruct (_generate_signature self _) as [sig | e] eqn:Hsig; [| discriminate Hout].
  cbv zeta in Hout.
  assert (Hrep : forall req e, outcome (order_report req e) <> Ok j).
  { intros req e. unfold order_report.
    destruct (order_error_msg e); unfold outcome; cbn [snd]; congruence. }
  exists sig. destruct (net _) as [resp | e] eqn:Hnet.
  - exists resp. split; [reflexivity |]. split; [reflexivity |].
    destruct (raise_for_status_cases resp) as [[H Hok] | [msg [H _]]]; rewrite H in Hout.
    + destruct (text resp) as [j' | err] eqn:Htext; [| now apply Hrep in Hout].
      unfold outcome in Hout; cbn [snd] in Hout. injection Hout as ->.
      split; [exact Hok |]. split; [| reflexivity].
      intros Hrange. unfold Requests.raise_for_status in H.
      destruct ((400 <=? status_code resp) && (status_code resp <? 500)) eqn:E1;
        [discriminate H |].
      destruct ((500 <=? status_code resp) && (status_code resp <? 600)) eqn:E2;
        [discriminate H |].
      apply andb_false_iff in E1, E2. rewrite Z.leb_gt, Z.ltb_ge in E1, E2. lia.
    + now apply Hrep in Hout.
  - destruct (is_RequestException e); [now apply Hrep in Hout | discriminate Hout].
Qed.

Lemma order_result_from_ok_response_witness :
  exists (sig : string) (resp : Response),
    _generate_signature demo_trader (order_params "BTCUSDT" "BUY" one hundred 0) = Ok sig
    /\ answers (ok_response (JDict [("orderId", JInt 7)]))
         (order_request demo_trader "BTCUSDT" "BUY" one hundred sig 0) = Ok resp
    /\ Requests.ok resp = true
    /\ ~ (400 <= status_code resp < 600)
    /\ text resp = Json (JDict [("orderId", JInt 7)]).
Proof.
  apply (order_result_from_ok_response demo_trader "BTCUSDT" "BUY" one hundred 0
           (answers (ok_response (JDict [("orderId", JInt 7)])))
           (JDict [("orderId", JInt 7)])).
  - vm_compute. reflexivity.
  - discriminate.
Defined.

End ClientProperties.

(* ================================================================= *)
(** * Further properties of the balance display *)

Module DisplayProperties.

Import Trader Spec Cases BalanceDisplay.

Lemma for_each_app {A : Type} (l1 l2 : list A) (body : A -> M unit) :
  for_each (l1 ++ l2) body = (for_each l1 body ;;; for_each l2 body).
Proof.
  induction l1 as [| a l1 IH]; cbn [for_each app].
  - unfold ret, bind. destruct (for_each l2 body) as [evs r]. reflexivity.
  - rewrite IH. destruct (body a) as [evs [[] | e]]; [| reflexivity].
    unfold bind. destruct (for_each l1 body) as [evs1 [[] | e1]].
    + destruct (for_each l2 body) as [evs2 r2]. now rewrite app_assoc.
    + reflexivity.
Qed.

Lemma show_balance_unreadable (balance : json) (e : exception) :
  unreadable balance e -> show_balance balance = ([], Raise e).
Proof.
  unfold show_balance.
  intros [H | (f & H & Hf)]; rewrite H; [reflexivity |].
  cbn [lift bind]. rewrite Hf. reflexivity.
Qed.

(** A payload without the key ['balances'] (the exchange's error bodies are
    such): the display prints its title and the rule, then raises
    [KeyError]. *)
Theorem display_without_balances :
  forall kv : dict json,
    dict_get kv "balances" = None ->
    print_balance (JDict kv)
    = (display_start [], Raise (simple_exc KeyError "'balances'")).
Proof.
  intros kv H. unfold print_balance, subscript. rewrite H. reflexivity.
Qed.

Lemma display_without_balances_witness :
  print_balance (JDict [("code", JInt (-2014)); ("msg", JStr "API-key format invalid.")])
  = (display_start [], Raise (simple_exc KeyError "'balances'")).
Proof.
  apply (display_without_balances
           [("code", JInt (-2014)); ("msg", JStr "API-key format invalid.")]).
  reflexivity.
Defined.

(** An entry that cannot be read stops the display: the assets before it
    have been printed, the exception of the entry is raised, and neither the
    entries after it nor the closing rule are printed. *)
Theorem display_stops_at_unreadable_entry :
  forall (account : json) (good : list json) (bad : json) (rest : list json)
         (info : list (string * Py.float)) (e : exception),
    subscript account "balances" = Ok (JList (good ++ bad :: rest)) ->
    Forall2 (fun b i => reads_as b (fst i) (snd i)) good info ->
    unreadable bad e ->
    print_balance account = (display_start info, Raise e).
Proof.
  intros account good bad rest info e Hsub Hgood Hbad.
  unfold print_balance. rewrite Hsub.
  cbv beta iota delta [bind lift emit print iterate].
  rewrite for_each_app, (for_each_reads good info Hgood).
  cbn [for_each]. rewrite (show_balance_unreadable bad e Hbad).
  unfold bind. cbn [app]. unfold display_start. now rewrite app_nil_r.
Qed.

Lemma display_stops_at_unreadable_entry_witness :
  print_balance
    (JDict [("balances",
             JList [JDict [("asset", JStr "BTC"); ("free", JStr "0.50000000")];
                    JDict [("asset", JStr "ETH"); ("free", JStr "n/a")];
                    JDict [("asset", JStr "USDT"); ("free", JStr "100.00000000")]])])
  = (display_start [("BTC", half)],
     Raise (simple_exc ValueError "could not convert string to float")).
Proof.
  apply (display_stops_at_unreadable_entry _
           [JDict [("asset", JStr "BTC"); ("free", JStr "0.50000000")]]
           (JDict [("asset", JStr "ETH"); ("free", JStr "n/a")])
           [JDict [("asset", JStr "USDT"); ("free", JStr "100.00000000")]]
           [("BTC", half)]).
  - reflexivity.
  - constructor; [| constructor].
    eexists; split; [reflexivity | split; [vm_compute; reflexivity | reflexivity]].
  - right. eexists. split; [reflexivity | vm_compute; reflexivity].
Defined.

(** The test [free > 0] holds for the positive floats and for [+inf]
    only. *)
Lemma free_above_zero (x : Py.float) :
  Py.gt_zero x = true
  <-> (x = S754_infinity false \/ exists (m : positive) (e : Z), x = S754_finite false m e).
Proof.
  split.
  - destruct x as [s | s | | s m e]; try discriminate.
    + destruct s; [discriminate | now left].
    + destruct s; [discriminate |]. right. now exists m, e.
  - intros [-> | (m & e & ->)]; reflexivity.
Qed.

(** An entry whose free balance is not a positive number or [+inf] (zero of
    either sign, a negative number, [-inf], [nan]) prints nothing, and its
    ['asset'] is not read: such an entry may lack the key. *)
Theorem balance_not_above_zero_is_skipped :
  forall (balance free_field : json) (x : Py.float),
    subscript balance "free" = Ok free_field ->
    to_float free_field = Ok x ->
    ~ (x = S754_infinity false
       \/ exists (m : positive) (e : Z), x = S754_finite false m e) ->
    show_balance balance = ([], Ok tt).
Proof.
  intros balance free_field x Hfree Hx Hnot.
  unfold show_balance. rewrite Hfree. cbn [lift bind]. rewrite Hx. cbn [lift bind].
  destruct (Py.gt_zero x) eqn:Hgt; [| reflexivity].
  exfalso. apply Hnot, free_above_zero, Hgt.
Qed.

Lemma balance_not_above_zero_is_skipped_witness :
  show_balance (JDict [("free", JStr "nan")]) = ([], Ok tt).
Proof.
  apply (balance_not_above_zero_is_skipped (JDict [("free", JStr "nan")]) (JStr "nan")
           S754_nan).
  - reflexivity.
  - vm_compute. reflexivity.
  - intros [H | (m & e & H)]; discriminate H.
Defined.

End DisplayProperties.

(* ================================================================= *)
(** * Further properties of the countdown and of the resolver *)

Module CountdownProperties.

Import Datetime Trader Spec Cases Countdown.

(** Under a clock that gains a second per reading, the countdown takes at
    most one sample per second of the time that remained at its first
    reading, rounded up: with [n] samples, [n - 1] seconds are less than
    that time. It takes none when the target is not ahead. *)
Theorem countdown_samples_bounded :
  forall (clock : nat -> datetime) (scheduled_time : datetime),
    one_second_cadence clock ->
    exists n : nat,
      (forall fuel : nat, (n < fuel)%nat ->
         countdown fuel clock 0 scheduled_time
         = Some (countdown_events (samples_from clock scheduled_time 0 n), Ok tt))
      /\ ((0 < n)%nat -> (Z.of_nat n - 1) * 1000000 < sub scheduled_time (clock O))
      /\ (sub scheduled_time (clock O) <= 0 -> n = O).
Proof.
  intros clock target Hcad.
  assert (Hadv : advancing clock) by (intros i; specialize (Hcad i); lia).
  destruct (countdown_counts_down clock target Hadv)
    as (n & Hrun & _ & _ & Hpos & _ & _).
  exists n. split; [exact Hrun |].
  assert (Hgain : forall i : nat,
             to_micros (clock O) + Z.of_nat i * 1000000 <= to_micros (clock i)).
  { induction i as [| i IH]; [simpl; lia |]. specialize (Hcad i). lia. }
  assert (Hsample : forall j : nat, (j < n)%nat -> 0 < sub target (clock j)).
  { intros j Hj. rewrite Forall_forall in Hpos. apply Hpos.
    unfold samples_from. apply in_map_iff. exists j. split; [reflexivity |].
    apply in_seq. lia. }
  split.
  - intros Hn. specialize (Hsample (n - 1)%nat ltac:(lia)).
    specialize (Hgain (n - 1)%nat). unfold sub in *. lia.
  - intros H0. destruct n as [| n]; [reflexivity |].
    specialize (Hsample O ltac:(lia)). lia.
Qed.

Lemma demo_clock_cadence : one_second_cadence demo_clock.
Proof.
  intros i. unfold demo_clock, to_micros, toordinal.
  cbn [year month day hour minute second microsecond].
  rewrite Nat2Z.inj_succ. Z.div_mod_to_equations. lia.
Qed.

Lemma countdown_samples_bounded_witness :
  exists n : nat,
    (forall fuel : nat, (n < fuel)%nat ->
       countdown fuel demo_clock 0 (mkDatetime 2024 5 17 12 0 2 500000)
       = Some (countdown_events
                 (samples_from demo_clock (mkDatetime 2024 5 17 12 0 2 500000) 0 n),
               Ok tt))
    /\ ((0 < n)%nat -> (Z.of_nat n - 1) * 1000000
                       < sub (mkDatetime 2024 5 17 12 0 2 500000) (demo_clock O))
    /\ (sub (mkDatetime 2024 5 17 12 0 2 500000) (demo_clock O) <= 0 -> n = O).
Proof.
  apply (countdown_samples_bounded demo_clock (mkDatetime 2024 5 17 12 0 2 500000)).
  exact demo_clock_cadence.
Defined.

(** The loop leaves on the clock alone: under a clock that stands still
    before the target, no amount of fuel lets it leave. *)
Theorem countdown_needs_the_clock :
  forall (clock : nat -> datetime) (scheduled_time : datetime),
    (forall i : nat, clock i = clock O) ->
    0 < sub scheduled_time (clock O) ->
    forall fuel i : nat, countdown fuel clock i scheduled_time = None.
Proof.
  intros clock target Hstill Hpos fuel.
  induction fuel as [| fuel IH]; intros i; [reflexivity |].
  cbn [countdown]. rewrite (Hstill i).
  replace (sub target (clock O) <=? 0) with false by (symmetry; apply Z.leb_gt; exact Hpos).
  now rewrite IH.
Qed.

Lemma countdown_needs_the_clock_witness :
  countdown 1000 (fun _ => demo_now) 0 (mkDatetime 2024 5 17 12 0 2 500000) = None.
Proof.
  apply (countdown_needs_the_clock (fun _ => demo_now) (mkDatetime 2024 5 17 12 0 2 500000)).
  - reflexivity.
  - reflexivity.
Defined.

End CountdownProperties.

Module ResolverProperties.

Import Datetime Trader Spec Cases CalendarFacts TimeResolver.

(** What an accepted input tells: its two fields, in range, are the hour and
    the minute of the result; the result is a valid instant that is not
    before [now] and less than a day after it. *)
Lemma accepted_input (now : datetime) (s : string) (t : datetime) :
  valid now = true ->
  parse_time_input now s = Ok t ->
  exists h m : Z,
    unpack_hour_minute s = Ok (h, m)
    /\ 0 <= h <= 23 /\ 0 <= m <= 59
    /\ (hour t, minute t, second t, microsecond t) = (h, m, 0, 0)
    /\ valid t = true
    /\ 0 <= sub t now < day_micros.
Proof.
  intros Hv Hp. unfold parse_time_input in Hp.
  destruct (unpack_hour_minute s) as [[h m] | e] eqn:Hun.
  2:{ destruct (is_ValueError e); discriminate Hp. }
  rewrite (make_cases now h m Hv) in Hp.
  destruct (negb (fits_int h && fits_int m)); [discriminate Hp |].
  destruct (valid_time h m 0 0) eqn:Hvt; [| discriminate Hp].
  cbn [negb] in Hp.
  pose proof (proj1 (valid_time_iff h m) Hvt) as [Hh Hm].
  pose proof Hv as Hv'. unfold valid in Hv'. apply andb_true_iff in Hv'.
  destruct Hv' as [Hd Ht].
  destruct (valid_date_bounds _ _ _ Hd) as (_ & _ & _ & Hord).
  fold (toordinal now) in Hord.
  assert (Hnow : 0 <= hour now <= 23 /\ 0 <= minute now <= 59
                 /\ 0 <= second now <= 59 /\ 0 <= microsecond now <= 999999).
  { unfold valid_time in Ht. rewrite !andb_true_iff, !Z.leb_le in Ht. lia. }
  exists h, m. split; [reflexivity |]. split; [exact Hh |]. split; [exact Hm |].
  destruct (lt (at_time now h m) now) eqn:Hlt.
  - unfold add_days in Hp. rewrite toordinal_at_time in Hp.
    destruct ((0 <? toordinal now + 1) && (toordinal now + 1 <=? MAXORDINAL)) eqn:Hrange;
      [| destruct (is_ValueError _); discriminate Hp].
    apply andb_true_iff in Hrange. rewrite Z.ltb_lt, Z.leb_le in Hrange.
    destruct (ord2ymd_correct (toordinal now + 1) ltac:(lia)) as (y & mo & d & Heq & Hvd & Hrt).
    rewrite Heq in Hp. cbn [hour minute second microsecond at_time] in Hp.
    injection Hp as <-. cbn [hour minute second microsecond].
    split; [reflexivity |]. split.
    + unfold valid. cbn [year month day hour minute second microsecond].
      now rewrite Hvd, Hvt.
    + unfold lt, to_micros in Hlt. rewrite toordinal_at_time in Hlt.
      cbn [hour minute second microsecond at_time] in Hlt. apply Z.ltb_lt in Hlt.
      unfold sub, to_micros, toordinal, day_micros.
      cbn [year month day hour minute second microsecond].
      rewrite Hrt. unfold toordinal in *. lia.
  - injection Hp as <-. cbn [hour minute second microsecond at_time].
    split; [reflexivity |]. split.
    + unfold valid. cbn [year month day hour minute second microsecond at_time].
      now rewrite Hd, Hvt.
    + unfold lt in Hlt. apply Z.ltb_ge in Hlt.
      unfold sub, day_micros. unfold to_micros in *. rewrite toordinal_at_time in *.
      cbn [hour minute second microsecond at_time] in *. lia.
Qed.

(** Whatever the input, an instant that the resolver returns is a valid
    instant, not before the current time and less than 24 hours after it. *)
Theorem resolved_instant_within_a_day :
  forall (now : datetime) (s : string) (t : datetime),
    valid now = true ->
    parse_time_input now s = Ok t ->
    valid t = true /\ 0 <= sub t now < day_micros.
Proof.
  intros now s t Hv Hp.
  destruct (accepted_input now s t Hv Hp) as (h & m & _ & _ & _ & _ & Hvt & Hwin).
  split; assumption.
Qed.

Lemma resolved_instant_within_a_day_witness :
  valid (mkDatetime 2024 5 18 8 5 0 0) = true
  /\ 0 <= sub (mkDatetime 2024 5 18 8 5 0 0) demo_now < day_micros.
Proof.
  apply (resolved_instant_within_a_day demo_now "8:5" (mkDatetime 2024 5 18 8 5 0 0));
    vm_compute; reflexivity.
Defined.

(** An instant that the resolver returns is at the hour and the minute that
    [int] reads in the two fields of the input, both in range, at second
    zero. *)
Theorem resolved_instant_is_the_typed_time :
  forall (now : datetime) (s : string) (t : datetime),
    valid now = true ->
    parse_time_input now s = Ok t ->
    exists h m : Z,
      map Py.int_of_string (Py.split ":" s) = [Some h; Some m]
      /\ 0 <= h <= 23 /\ 0 <= m <= 59
      /\ (hour t, minute t, second t, microsecond t) = (h, m, 0, 0).
Proof.
  intros now s t Hv Hp.
  destruct (accepted_input now s t Hv Hp) as (h & m & Hun & Hh & Hm & Hf & _).
  exists h, m. split; [| tauto].
  unfold unpack_hour_minute in Hun.
  destruct (map Py.int_of_string (Py.split ":" s))
    as [| [h' |] [| [m' |] [| x l]]]; try discriminate Hun.
  now injection Hun as -> ->.
Qed.

Lemma resolved_instant_is_the_typed_time_witness :
  exists h m : Z,
    map Py.int_of_string (Py.split ":" " 18 : 00 ") = [Some h; Some m]
    /\ 0 <= h <= 23 /\ 0 <= m <= 59
    /\ (hour (mkDatetime 2024 5 17 18 0 0 0), minute (mkDatetime 2024 5 17 18 0 0 0),
        second (mkDatetime 2024 5 17 18 0 0 0), microsecond (mkDatetime 2024 5 17 18 0 0 0))
       = (h, m, 0, 0).
Proof.
  apply (resolved_instant_is_the_typed_time demo_now " 18 : 00 "
           (mkDatetime 2024 5 17 18 0 0 0));
    vm_compute; reflexivity.
Defined.



End ResolverProperties.

(* ================================================================= *)
(** * Properties of the header, the job and the console *)

Module HeaderProperties.

Import Trader.

Lemma len_append (s1 s2 : string) : Py.len (s1 +++ s2) = (Py.len s1 + Py.len s2)%nat.
Proof.
  induction s1 as [| c r IH]; [reflexivity |].
  cbn [String.append Py.len]. rewrite IH. now destruct (Py.is_continuation c).
Qed.

Lemma len_spaces (n : nat) : Py.len (Py.replicate n " ") = n.
Proof. induction n as [| n IH]; [reflexivity |]. cbn [Py.replicate Py.len]. now rewrite IH. Qed.

(** The header is three lines; a title of at most 40 characters stands
    between two margins of blanks in a line of exactly 40 characters, the
    left margin being the smaller one when they differ; a longer title is
    printed as it is. *)
Theorem header_title_is_centred :
  forall text : string,
    exists line : string,
      written (events (_print_header text))
      = [(Repr.nl +++ Fore_CYAN +++ Py.replicate 40 "=") +++ Repr.nl;
         line +++ Repr.nl;
         (Py.replicate 40 "=" +++ Style_RESET_ALL) +++ Repr.nl]
      /\ ((40 < Py.len text)%nat -> line = text)
      /\ ((Py.len text <= 40)%nat ->
          Py.len line = 40%nat
          /\ exists left right : nat,
               line = Py.replicate left " " +++ text +++ Py.replicate right " "
               /\ (left <= right <= left + 1)%nat).
Proof.
  intros text. exists (Py.center 40 text). split; [reflexivity |]. split.
  - intros H. unfold Py.center.
    replace (40 - Py.len text)%nat with O by lia.
    cbn. induction text as [| c r IH]; [reflexivity |]. cbn.
    f_equal. clear. induction r as [| c r IH]; [reflexivity |]. cbn. now rewrite IH.
  - intros H. unfold Py.center. cbv zeta.
    change (Nat.odd 40) with false. rewrite andb_false_r, Nat.add_0_r.
    set (marg := (40 - Py.len text)%nat).
    assert (Hdiv : (2 * Nat.div marg 2 <= marg <= 2 * Nat.div marg 2 + 1)%nat).
    { pose proof (Nat.div_mod_eq marg 2). pose proof (Nat.mod_upper_bound marg 2). lia. }
    split.
    + rewrite !len_append, !len_spaces. subst marg. lia.
    + exists (Nat.div marg 2), (marg - Nat.div marg 2)%nat. split; [reflexivity | lia].
Qed.

End HeaderProperties.

(* ================================================================= *)
(** * Properties of the reader of the time *)

Module TimeInputProperties.

Import Datetime Trader Spec Console Program Cases CalendarFacts TimeResolver.

(** The body of the [try] on a refused input: a [ValueError], the clock
    read at most once. *)
Lemma time_attempt_refused (w : world) (cr : nat) (s : string) :
  valid (wall_clock w cr) = true ->
  refused s ->
  exists (e : exception) (cr' : nat),
    time_attempt w cr s = (Raise e, cr')
    /\ is_ValueError e = true /\ (cr <= cr' <= S cr)%nat.
Proof.
  intros Hv Hr. unfold time_attempt, unpack_hour_minute. unfold refused in Hr.
  destruct (map Py.int_of_string (Py.split ":" s))
    as [| [h |] [| [m |] [| x l]]];
    try (eexists; exists cr; split; [reflexivity | split; [reflexivity | lia]]).
  destruct Hr as (Hh & Hm & Hvt).
  rewrite (make_cases _ h m Hv), Hh, Hm, Hvt. cbn [andb negb].
  eexists; exists (S cr). split; [reflexivity | split; [reflexivity | lia]].
Qed.

(** The body of the [try] on an input with an hour and a minute in range:
    what the resolver returns at the same reading of the clock. *)
Lemma time_attempt_accepted (w : world) (cr : nat) (s : string) (h m : Z) :
  valid (wall_clock w cr) = true -> toordinal (wall_clock w cr) < MAXORDINAL ->
  map Py.int_of_string (Py.split ":" s) = [Some h; Some m] ->
  0 <= h <= 23 -> 0 <= m <= 59 ->
  exists t : datetime,
    time_attempt w cr s = (Ok t, S cr)
    /\ parse_time_input (wall_clock w cr) s = Ok t.
Proof.
  intros Hv Hmax Hs Hh Hm.
  unfold parse_time_input, time_attempt, unpack_hour_minute. rewrite Hs.
  rewrite (make_cases _ h m Hv).
  rewrite (fits_int_small h), (fits_int_small m) by lia.
  replace (valid_time h m 0 0) with true by (symmetry; apply valid_time_iff; lia).
  cbn [andb negb].
  destruct (lt _ _); [| eexists; split; reflexivity].
  unfold add_days. rewrite toordinal_at_time.
  pose proof Hv as Hv'. unfold valid in Hv'. apply andb_true_iff in Hv'.
  destruct Hv' as [Hd _].
  destruct (valid_date_bounds _ _ _ Hd) as (_ & _ & _ & Hord).
  fold (toordinal (wall_clock w cr)) in Hord.
  replace ((0 <? toordinal (wall_clock w cr) + 1)
           && (toordinal (wall_clock w cr) + 1 <=? MAXORDINAL)) with true
    by (symmetry; apply andb_true_iff; rewrite Z.ltb_lt, Z.leb_le; lia).
  destruct (ord2ymd (toordinal (wall_clock w cr) + 1)) as [[y mo] d].
  eexists; split; reflexivity.
Qed.

(** The loop over refused lines: one prompt and one error for each, then
    the loop on what follows. *)
Lemma time_input_refusals (w : world) (lines rest : list string) (tr : nat) :
  (forall i : nat, valid (wall_clock w i) = true) ->
  Forall refused_line lines ->
  forall cr : nat,
    exists k : nat,
      (cr <= k <= cr + length lines)%nat
      /\ time_input_loop w (lines ++ rest) tr cr
         = let '((evs, r), st) := time_input_loop w rest tr k in
           ((flat_map (fun _ => refusal) lines ++ evs, r), st).
Proof.
  intros Hv Hall. induction Hall as [| line lines [_ Hline] _ IH]; intros cr.
  - exists cr. split; [simpl; lia |].
    cbn [app flat_map]. now destruct (time_input_loop w rest tr cr) as [[evs r] st].
  - destruct (time_attempt_refused w cr _ (Hv cr) Hline) as (e & cr' & Hatt & He & Hcr).
    destruct (IH cr') as (k & Hk & Hloop).
    exists k. split; [cbn [length]; lia |].
    cbn [app time_input_loop]. rewrite Hatt, He, Hloop.
    destruct (time_input_loop w rest tr k) as [[evs r] st]. reflexivity.
Qed.

(** The reader of the time returns what the resolver returns for the first
    line, stripped of blanks, that has an hour and a minute in range: each
    refused line before it costs one prompt and one error message, and the
    lines after it are left unread. *)
Theorem time_input_returns_first_accepted :
  forall (w : world) (refused_lines : list string) (good : string) (rest : list string)
         (tr cr : nat) (h m : Z),
    (forall i : nat, valid (wall_clock w i) = true
                     /\ toordinal (wall_clock w i) < MAXORDINAL) ->
    Forall refused_line refused_lines ->
    map Py.int_of_string (Py.split ":" (str_strip good)) = [Some h; Some m] ->
    0 <= h <= 23 -> 0 <= m <= 59 ->
    exists (k : nat) (t : datetime),
      (cr <= k <= cr + length refused_lines)%nat
      /\ parse_time_input (wall_clock w k) (str_strip good) = Ok t
      /\ get_valid_time_input w (mkState (refused_lines ++ good :: rest) tr cr)
         = Some ((flat_map (fun _ => refusal) refused_lines ++ [Write time_prompt], Ok t),
                 mkState rest tr (S k)).
Proof.
  intros w bad good rest tr cr h m Hclock Hbad Hgood Hh Hm.
  destruct (time_input_refusals w bad (good :: rest) tr (fun i => proj1 (Hclock i)) Hbad cr)
    as (k & Hk & Hloop).
  destruct (Hclock k) as [Hv Hmax].
  destruct (time_attempt_accepted w k _ h m Hv Hmax Hgood Hh Hm) as (t & Hatt & Hp).
  exists k, t. split; [exact Hk |]. split; [exact Hp |].
  unfold get_valid_time_input. cbn [stdin time_reads clock_reads].
  rewrite Hloop. cbn [time_input_loop]. rewrite Hatt. reflexivity.
Qed.

Lemma time_input_returns_first_accepted_witness :
  exists (k : nat) (t : datetime),
    (0 <= k <= 0 + length ["soon"; "25:00"])%nat
    /\ parse_time_input (wall_clock (demo_world demo_exchange (fun _ => demo_now)) k)
         (str_strip " 18:30 ") = Ok t
    /\ get_valid_time_input (demo_world demo_exchange (fun _ => demo_now))
         (mkState (["soon"; "25:00"] ++ " 18:30 " :: ["Y"]) 0 0)
       = Some ((flat_map (fun _ => refusal) ["soon"; "25:00"] ++ [Write time_prompt], Ok t),
               mkState ["Y"] 0 (S k)).
Proof.
  apply (time_input_returns_first_accepted (demo_world demo_exchange (fun _ => demo_now))
           ["soon"; "25:00"] " 18:30 " ["Y"] 0 0 18 30).
  - intros i. split; vm_compute; reflexivity.
  - repeat constructor; vm_compute; auto.
  - vm_compute. reflexivity.
  - lia.
  - lia.
Defined.

(** The reader of the time never gives up by itself: when every line left
    is refused, it has asked once per line and once more, has printed the
    error once per line, and ends on the end of the input. *)
Theorem time_input_asks_until_the_end :
  forall (w : world) (lines : list string) (tr cr : nat),
    (forall i : nat, valid (wall_clock w i) = true) ->
    Forall refused_line lines ->
    exists k : nat,
      (cr <= k <= cr + length lines)%nat
      /\ get_valid_time_input w (mkState lines tr cr)
         = Some ((flat_map (fun _ => refusal) lines ++ [Write time_prompt],
                  Raise end_of_input),
                 mkState [] tr k).
Proof.
  intros w lines tr cr Hv Hall.
  destruct (time_input_refusals w lines [] tr Hv Hall cr) as (k & Hk & Hloop).
  exists k. split; [exact Hk |].
  unfold get_valid_time_input. cbn [stdin time_reads clock_reads].
  rewrite app_nil_r in Hloop. rewrite Hloop. reflexivity.
Qed.

Lemma time_input_asks_until_the_end_witness :
  exists k : nat,
    (0 <= k <= 0 + length ["6pm"; "18:60"])%nat
    /\ get_valid_time_input (demo_world demo_exchange (fun _ => demo_now))
         (mkState ["6pm"; "18:60"] 0 0)
       = Some ((flat_map (fun _ => refusal) ["6pm"; "18:60"] ++ [Write time_prompt],
                Raise end_of_input),
               mkState [] 0 k).
Proof.
  apply (time_input_asks_until_the_end (demo_world demo_exchange (fun _ => demo_now))
           ["6pm"; "18:60"] 0 0).
  - intros i. vm_compute. reflexivity.
  - repeat constructor; vm_compute; auto.
Defined.



End TimeInputProperties.

(* ================================================================= *)
(** * Properties of the job *)

Module ProgramFacts.

Import Datetime Trader Spec Console Program Cases ClientFacts SignedRequests.

Lemma jobs_of_app (a b : list event) : jobs_of (a ++ b) = jobs_of a ++ jobs_of b.
Proof.
  induction a as [| ev a IH]; [reflexivity |].
  destruct ev; cbn [app jobs_of]; rewrite IH; reflexivity.
Qed.

Lemma written_app (a b : list event) : written (a ++ b) = written a ++ written b.
Proof.
  induction a as [| ev a IH]; [reflexivity |].
  destruct ev; cbn [app written]; rewrite IH; reflexivity.
Qed.

Lemma last_written_snoc (evs : list event) (s : string) :
  last_written (evs ++ [Write s]) = s.
Proof.
  unfold last_written. rewrite written_app. cbn [written]. apply last_last.
Qed.

Lemma upper_upper (s : string) : Py.upper (Py.upper s) = Py.upper s.
Proof.
  induction s as [| c r IH]; [reflexivity |].
  cbn [Py.upper]. rewrite IH. f_equal.
  destruct c as [[] [] [] [] [] [] [] []]; reflexivity.
Qed.

(** One step of a run: the first part returned [a], what follows ran from
    the state it left. *)
Lemma io_bind_ok {A B : Type} (m : IO A) (f : A -> IO B) (st st1 st2 : state)
    (evs evs' : list event) (a : A) (r : result B) :
  m st = Some ((evs, Ok a), st1) ->
  f a st1 = Some ((evs', r), st2) ->
  io_bind m f st = Some ((evs ++ evs', r), st2).
Proof. intros H1 H2. unfold io_bind. now rewrite H1, H2. Qed.

Lemma io_bind_raise {A B : Type} (m : IO A) (f : A -> IO B) (st st1 : state)
    (evs : list event) (e : exception) :
  m st = Some ((evs, Raise e), st1) ->
  io_bind m f st = Some ((evs, Raise e), st1).
Proof. intros H1. unfold io_bind. now rewrite H1. Qed.

Lemma io_bind_ret {A B : Type} (a : A) (f : A -> IO B) (st : state) :
  io_bind (io_ret a) f st = f a st.
Proof.
  unfold io_bind, io_ret, ret. now destruct (f a st) as [[[evs r] st'] |].
Qed.

Lemma place_limit_order_run (w : world) (self : BinanceTrader) (symbol side : string)
    (q p : Py.float) (st : state) :
  Program.place_limit_order w self symbol side q p st
  = Some (Trader.place_limit_order self symbol side q p (time_ms w (time_reads st)) (network w),
          mkState (stdin st) (S (time_reads st)) (clock_reads st)).
Proof.
  unfold Program.place_limit_order, io_bind, read_time_ms, io_lift, ret.
  destruct (Trader.place_limit_order _ _ _ _ _ _ _) as [evs r]. reflexivity.
Qed.

Lemma get_account_info_run (w : world) (self : BinanceTrader) (st : state) :
  Program.get_account_info w self st
  = Some (Trader.get_account_info self (time_ms w (time_reads st)) (network w),
          mkState (stdin st) (S (time_reads st)) (clock_reads st)).
Proof.
  unfold Program.get_account_info, io_bind, read_time_ms, io_lift, ret.
  destruct (Trader.get_account_info _ _ _) as [evs r]. reflexivity.
Qed.

Lemma header_run (text : string) :
  exists a b c : string, _print_header text = ([Write a; Write b; Write c], Ok tt).
Proof. do 3 eexists. reflexivity. Qed.

(** The placement of an order schedules nothing. *)
Lemma placement_jobs (self : BinanceTrader) (symbol side : string) (q p : Py.float)
    (now : Z) (net : transport) :
  jobs_of (events (Trader.place_limit_order self symbol side q p now net)) = [].
Proof.
  rewrite place_limit_order_eq.
  assert (Hrep : forall req e, jobs_of (events (order_report req e)) = []).
  { intros req e. unfold order_report.
    destruct (order_error_msg e); unfold events; cbn [fst]; now rewrite jobs_of_app. }
  destruct (_generate_signature self _) as [sig | e]; [| reflexivity].
  cbv zeta. destruct (net _) as [resp | e].
  - destruct (Requests.raise_for_status resp); [| apply Hrep].
    destruct (text resp); [| apply Hrep].
    unfold events; cbn [fst]. now rewrite jobs_of_app.
  - destruct (is_RequestException e); [apply Hrep |].
    unfold events; cbn [fst]. now rewrite jobs_of_app.
Qed.

(** The signature of a client with a secret key. *)
Lemma signature_of_secret (self : BinanceTrader) (secret : string) (params : dict value) :
  secret_key self = Some secret ->
  _generate_signature self params
  = Ok (Hmac.hexdigest (Py.encode_utf8 secret) (Py.encode_utf8 (query_string params))).
Proof. intros H. unfold _generate_signature. now rewrite H. Qed.

(** What the placement returns for an answer with an error status: [None],
    after the message of the [HTTPError]. *)
Lemma placement_http_error (self : BinanceTrader) (symbol side : string)
    (q p : Py.float) (now : Z) (net : transport) (sig : string) (resp : Response) :
  _generate_signature self (order_params symbol side q p now) = Ok sig ->
  net (order_request self symbol side q p sig now) = Ok resp ->
  400 <= status_code resp < 600 ->
  outcome (Trader.place_limit_order self symbol side q p now net) = Ok JNull.
Proof.
  intros Hsig Hnet Hst. rewrite place_limit_order_eq, Hsig. cbv zeta. rewrite Hnet.
  destruct (raise_for_status_cases resp) as [[H Hok] | (msg & H & Hok & _)].
  - exfalso. unfold Requests.raise_for_status in H.
    destruct ((400 <=? status_code resp) && (status_code resp <? 500)) eqn:E1;
      [discriminate H |].
    destruct ((500 <=? status_code resp) && (status_code resp <? 600)) eqn:E2;
      [discriminate H |].
    apply andb_false_iff in E1, E2. rewrite Z.leb_gt, Z.ltb_ge in E1, E2. lia.
  - rewrite H. unfold order_report, order_error_msg.
    cbn [exc_response Requests.response_truthy]. rewrite Hok. reflexivity.
Qed.

(** What the placement returns for an answer that [raise_for_status] lets
    through: its JSON body. *)
Lemma placement_accepted (self : BinanceTrader) (symbol side : string)
    (q p : Py.float) (now : Z) (net : transport) (sig : string) (resp : Response)
    (j : json) :
  _generate_signature self (order_params symbol side q p now) = Ok sig ->
  net (order_request self symbol side q p sig now) = Ok resp ->
  Requests.ok resp = true -> text resp = Json j ->
  outcome (Trader.place_limit_order self symbol side q p now net) = Ok j.
Proof.
  intros Hsig Hnet Hok Htext. rewrite place_limit_order_eq, Hsig. cbv zeta. rewrite Hnet.
  unfold Requests.ok in Hok.
  destruct (Requests.raise_for_status resp); [| discriminate Hok].
  rewrite Htext. reflexivity.
Qed.

(** The report on the result of an order placed at once, by its cases. *)
Lemma report_order_run (result : json) (st : state) :
  report_order result st
  = Some (if truthy result then
            match subscript result "orderId" with
            | Ok id =>
                ([Write success_line;
                  Write (JsonDump.dumps_indent2 result +++ Repr.nl);
                  Write (("订单ID: " +++ Repr.str id +++ Style_RESET_ALL) +++ Repr.nl)],
                 Ok tt)
            | Raise e =>
                ([Write success_line; Write (JsonDump.dumps_indent2 result +++ Repr.nl)],
                 Raise e)
            end
          else ([Write order_failure_line], Ok tt),
          st).
Proof.
  unfold report_order. destruct (truthy result); [| reflexivity].
  unfold io_bind, io_lift, lift, print, emit.
  destruct (subscript result "orderId"); reflexivity.
Qed.

(** An order placed at once and reported. *)
Lemma place_and_report (w : world) (self : BinanceTrader) (symbol side : string)
    (q p : Py.float) (st : state) :
  io_bind (Program.place_limit_order w self symbol side q p) report_order st
  = let placed :=
      Trader.place_limit_order self symbol side q p (time_ms w (time_reads st)) (network w) in
    Some (match outcome placed with
          | Raise e => (events placed, Raise e)
          | Ok result =>
              if truthy result then
                match subscript result "orderId" with
                | Ok id =>
                    (events placed
                     ++ [Write success_line;
                         Write (JsonDump.dumps_indent2 result +++ Repr.nl);
                         Write (("订单ID: " +++ Repr.str id +++ Style_RESET_ALL) +++ Repr.nl)],
                     Ok tt)
                | Raise e =>
                    (events placed
                     ++ [Write success_line;
                         Write (JsonDump.dumps_indent2 result +++ Repr.nl)],
                     Raise e)
                end
              else (events placed ++ [Write order_failure_line], Ok tt)
          end,
          mkState (stdin st) (S (time_reads st)) (clock_reads st)).
Proof.
  unfold io_bind. rewrite place_limit_order_run. cbv zeta.
  destruct (Trader.place_limit_order _ _ _ _ _ _ _) as [evs [result | e]];
    cbn [outcome events fst snd]; [| reflexivity].
  rewrite report_order_run.
  destruct (truthy result); [| reflexivity].
  destruct (subscript result "orderId"); reflexivity.
Qed.

End ProgramFacts.

Module JobProperties.

Import Datetime Trader Spec Console Program Cases ClientFacts SignedRequests ProgramFacts.

(** The job by the result of the placement. *)
Lemma job_run (w : world) (self : BinanceTrader) (symbol side : string)
    (q p : Py.float) (st : state) :
  exists head : list event,
    requests_of head = [] /\ jobs_of head = []
    /\ job w self symbol side q p st
       = let placed :=
           Trader.place_limit_order self symbol side q p (time_ms w (time_reads st))
             (network w) in
         Some (match outcome placed with
               | Raise e => (head ++ events placed, Raise e)
               | Ok result =>
                   if truthy result then
                     match subscript result "orderId" with
                     | Ok id => (head ++ events placed ++ [Write (job_success_line id)], Ok tt)
                     | Raise e => (head ++ events placed, Raise e)
                     end
                   else (head ++ events placed ++ [Write job_failure_line], Ok tt)
               end,
               mkState (stdin st) (S (time_reads st)) (S (clock_reads st))).
Proof.
  destruct (header_run ("定时订单触发 " +++ strftime (wall_clock w (clock_reads st))))
    as (a & b & c & Hh).
  exists [Write a; Write b; Write c]. split; [reflexivity |]. split; [reflexivity |].
  unfold job. unfold io_bind at 1. unfold datetime_now at 1. cbv beta iota zeta.
  unfold ret at 1. cbv beta iota.
  unfold io_bind at 1. unfold io_lift at 1. rewrite Hh. cbv beta iota.
  unfold io_bind at 1. rewrite place_limit_order_run.
  cbn [stdin time_reads clock_reads].
  destruct (Trader.place_limit_order _ _ _ _ _ _ _) as [evs [result | e]];
    cbn [outcome events fst snd]; [| reflexivity].
  destruct (truthy result).
  - unfold io_bind, io_lift, lift, print, emit.
    destruct (subscript result "orderId") as [id | e].
    + reflexivity.
    + cbn [app]. now rewrite app_nil_r.
  - unfold io_lift, print, emit. reflexivity.
Qed.

(** When the scheduler runs the job of a client with a secret key, the job
    sends exactly one request, the signed order with the time of the
    firing, and schedules nothing. For an answer with an error status it
    ends normally on the line of the failed order; for an accepted answer
    whose body has an [orderId] it ends normally on the line of that id. *)
Theorem job_places_the_order_once :
  forall (w : world) (t : bool) (u : string) (a : option string) (secret : string)
         (symbol side : string) (q p : Py.float) (st : state),
    let self := mkTrader t u a (Some secret) in
    let now := time_ms w (time_reads st) in
    exists (sig : string) (r : M unit),
      _generate_signature self (order_params symbol side q p now) = Ok sig
      /\ job w self symbol side q p st
         = Some (r, mkState (stdin st) (S (time_reads st)) (S (clock_reads st)))
      /\ requests_of (events r) = [order_request self symbol side q p sig now]
      /\ jobs_of (events r) = []
      /\ (forall resp : Response,
            network w (order_request self symbol side q p sig now) = Ok resp ->
            400 <= status_code resp < 600 ->
            outcome r = Ok tt /\ last_written (events r) = job_failure_line)
      /\ (forall (resp : Response) (body : dict json) (id : json),
            network w (order_request self symbol side q p sig now) = Ok resp ->
            Requests.ok resp = true -> text resp = Json (JDict body) ->
            dict_get body "orderId" = Some id ->
            outcome r = Ok tt /\ last_written (events r) = job_success_line id).
Proof.
  intros w t u a secret symbol side q p st self now.
  pose proof (signature_of_secret self secret (order_params symbol side q p now) eq_refl)
    as Hsig.
  set (sig := Hmac.hexdigest _ _) in Hsig.
  pose proof (order_requests self symbol side q p now (network w)) as Hreq.
  rewrite Hsig in Hreq.
  pose proof (placement_jobs self symbol side q p now (network w)) as Hjobs.
  destruct (job_run w self symbol side q p st) as (head & Hh1 & Hh2 & Hjob).
  cbv zeta in Hjob. fold now in Hjob.
  pose proof (fun resp => placement_http_error self symbol side q p now (network w) sig
                           resp Hsig) as Hbad.
  pose proof (fun resp j => placement_accepted self symbol side q p now (network w) sig
                              resp j Hsig) as Hgood.
  set (placed := Trader.place_limit_order self symbol side q p now (network w)) in *.
  exists sig. eexists. split; [exact Hsig |]. split; [exact Hjob |].
  assert (Hev : forall tail : list event,
            requests_of tail = [] -> jobs_of tail = [] ->
            requests_of (head ++ events placed ++ tail)
            = [order_request self symbol side q p sig now]
            /\ jobs_of (head ++ events placed ++ tail) = []).
  { intros tail Ht1 Ht2.
    rewrite !requests_of_app, !jobs_of_app, Hh1, Hh2, Hreq, Hjobs, Ht1, Ht2.
    split; reflexivity. }
  assert (Hev0 : requests_of (head ++ events placed)
                 = [order_request self symbol side q p sig now]
                 /\ jobs_of (head ++ events placed) = []).
  { specialize (Hev [] eq_refl eq_refl). now rewrite !app_nil_r in Hev. }
  destruct (outcome placed) as [result | e] eqn:Hout.
  - destruct (truthy result) eqn:Htruthy.
    + destruct (subscript result "orderId") as [id | e] eqn:Hsub.
      * cbn [events fst outcome snd].
        split; [apply Hev; reflexivity |]. split; [apply Hev; reflexivity |]. split.
        -- intros resp Hnet Hst. specialize (Hbad resp Hnet Hst).
           assert (result = JNull) as -> by congruence. discriminate Htruthy.
        -- intros resp body id' Hnet Hok Htext Hid.
           specialize (Hgood resp (JDict body) Hnet Hok Htext).
           assert (result = JDict body) as -> by congruence.
           cbn [subscript] in Hsub. rewrite Hid in Hsub. injection Hsub as <-.
           split; [reflexivity |]. rewrite app_assoc. apply last_written_snoc.
      * cbn [events fst outcome snd].
        split; [apply Hev0 |]. split; [apply Hev0 |]. split.
        -- intros resp Hnet Hst. specialize (Hbad resp Hnet Hst).
           assert (result = JNull) as -> by congruence. discriminate Htruthy.
        -- intros resp body id' Hnet Hok Htext Hid.
           specialize (Hgood resp (JDict body) Hnet Hok Htext).
           assert (result = JDict body) as -> by congruence.
           cbn [subscript] in Hsub. rewrite Hid in Hsub. discriminate Hsub.
    + cbn [events fst outcome snd].
      split; [apply Hev; reflexivity |]. split; [apply Hev; reflexivity |]. split.
      * intros resp Hnet Hst. split; [reflexivity |].
        rewrite app_assoc. apply last_written_snoc.
      * intros resp body id' Hnet Hok Htext Hid.
        specialize (Hgood resp (JDict body) Hnet Hok Htext).
        assert (result = JDict body) as -> by congruence.
        cbn [truthy] in Htruthy. destruct body; [discriminate Hid | discriminate Htruthy].
  - cbn [events fst outcome snd].
    split; [apply Hev0 |]. split; [apply Hev0 |]. split.
    + intros resp Hnet Hst. specialize (Hbad resp Hnet Hst). congruence.
    + intros resp body id' Hnet Hok Htext Hid.
      specialize (Hgood resp (JDict body) Hnet Hok Htext). congruence.
Qed.

End JobProperties.

(* ================================================================= *)
(** * Runs that place nothing *)

Module Harmless.

Import Datetime Trader Spec Console Program Cases ClientFacts ProgramFacts.

Lemma silent_places_nothing (evs : list event) : silent evs -> places_nothing evs.
Proof. intros [H1 H2]. split; [| exact H2]. rewrite H1. intros r []. Qed.

Lemma places_nothing_app (a b : list event) :
  places_nothing a -> places_nothing b -> places_nothing (a ++ b).
Proof.
  intros [Ha1 Ha2] [Hb1 Hb2]. split.
  - intros r. rewrite requests_of_app, in_app_iff. intros [H | H]; auto.
  - now rewrite jobs_of_app, Ha2, Hb2.
Qed.

Lemma silent_app (a b : list event) : silent a -> silent b -> silent (a ++ b).
Proof.
  intros [Ha1 Ha2] [Hb1 Hb2]. split.
  - now rewrite requests_of_app, Ha1, Hb1.
  - now rewrite jobs_of_app, Ha2, Hb2.
Qed.

Lemma harmless_bind {A B : Type} (P : state -> Prop) (m : IO A) (Q : A -> state -> Prop)
    (f : A -> IO B) (R : B -> state -> Prop) :
  harmless P m Q -> (forall a : A, harmless (Q a) (f a) R) -> harmless P (io_bind m f) R.
Proof.
  intros Hm Hf st HP. destruct (Hm st HP) as ([evs [a | e]] & st1 & Hrun & Hev & HQ).
  - destruct (Hf a st1 (HQ a eq_refl)) as ([evs' r] & st2 & Hrun2 & Hev2 & HR).
    exists (evs ++ evs', r), st2. split; [exact (io_bind_ok _ _ _ _ _ _ _ _ _ Hrun Hrun2) |].
    split; [apply places_nothing_app; assumption | exact HR].
  - exists (evs, Raise e), st1. split; [exact (io_bind_raise _ _ _ _ _ _ Hrun) |].
    split; [exact Hev | discriminate].
Qed.

Lemma harmless_lift {A : Type} (P : state -> Prop) (m : M A) :
  places_nothing (events m) -> harmless P (io_lift m) (fun _ => P).
Proof. intros H st HP. exists m, st. split; [reflexivity |]. split; [exact H | auto]. Qed.

Lemma harmless_print (P : state -> Prop) (s : string) :
  harmless P (io_lift (print s)) (fun _ => P).
Proof. apply harmless_lift, silent_places_nothing. split; reflexivity. Qed.

Lemma harmless_ret {A : Type} (P : state -> Prop) (a : A) :
  harmless P (io_ret a) (fun _ => P).
Proof.
  intros st HP. exists (ret a), st. split; [reflexivity |].
  split; [apply silent_places_nothing; split; reflexivity | auto].
Qed.

Lemma harmless_header (P : state -> Prop) (text : string) :
  harmless P (io_lift (_print_header text)) (fun _ => P).
Proof. apply harmless_lift, silent_places_nothing. split; reflexivity. Qed.

(** A line is read: the lines to come are one fewer. *)
Lemma harmless_input (k : nat) (prompt : string) :
  harmless (unconfirmed (S k)) (input prompt) (fun _ => unconfirmed k).
Proof.
  intros st HP. unfold input, unconfirmed in *.
  destruct (stdin st) as [| line rest].
  - eexists; eexists. split; [reflexivity |].
    split; [apply silent_places_nothing; split; reflexivity | discriminate].
  - eexists; eexists. split; [reflexivity |].
    split; [apply silent_places_nothing; split; reflexivity |].
    intros a _. exact HP.
Qed.

(** A line is read when no line left is [Y]: the line read is not [Y]. *)
Lemma harmless_answer (prompt : string) :
  harmless (unconfirmed 0) (input prompt)
    (fun line st => not_yes line /\ unconfirmed 0 st).
Proof.
  intros st HP. unfold input, unconfirmed in *. cbn [skipn] in *.
  destruct (stdin st) as [| line rest].
  - eexists; eexists. split; [reflexivity |].
    split; [apply silent_places_nothing; split; reflexivity | discriminate].
  - eexists; eexists. split; [reflexivity |].
    split; [apply silent_places_nothing; split; reflexivity |].
    intros a Ha. injection Ha as <-. inversion HP; subst. split; assumption.
Qed.

Lemma harmless_input_float (k : nat) (prompt : string) :
  harmless (unconfirmed (S k)) (input_float prompt) (fun _ => unconfirmed k).
Proof.
  unfold input_float. eapply harmless_bind; [apply harmless_input |].
  intros line. destruct (Py.float_of_string line).
  - apply harmless_ret.
  - apply harmless_lift, silent_places_nothing. split; reflexivity.
Qed.

(** The account query sends one [GET] at most and schedules nothing. *)
Lemma account_places_nothing (self : BinanceTrader) (now : Z) (net : transport) :
  places_nothing (events (Trader.get_account_info self now net)).
Proof.
  rewrite get_account_info_eq.
  assert (Hget : forall sig tail, silent tail ->
            places_nothing (Http (account_request self sig now) :: tail)).
  { intros sig tail [H1 H2]. split; cbn [requests_of jobs_of]; [| exact H2].
    rewrite H1. intros r [<- | []]. reflexivity. }
  destruct (_generate_signature self _) as [sig | e].
  - cbv zeta. destruct (net (account_request self sig now)) as [resp | e].
    + destruct (text resp); apply Hget; split; reflexivity.
    + destruct (is_Exception e); apply Hget; split; reflexivity.
  - apply silent_places_nothing. split; reflexivity.
Qed.

Lemma harmless_account (k : nat) (w : world) (self : BinanceTrader) :
  harmless (unconfirmed k) (Program.get_account_info w self) (fun _ => unconfirmed k).
Proof.
  intros st HP. eexists; eexists. split; [apply get_account_info_run |].
  split; [apply account_places_nothing |]. intros a _. exact HP.
Qed.

Lemma show_balance_silent (balance : json) : silent (events (show_balance balance)).
Proof.
  unfold show_balance.
  destruct (subscript balance "free") as [f | e]; [| split; reflexivity].
  cbn [lift bind]. destruct (to_float f) as [x | e]; [| split; reflexivity].
  cbn [app]. destruct (Py.gt_zero x); [| split; reflexivity].
  destruct (subscript balance "asset") as [a | e]; [| split; reflexivity].
  cbn [lift bind]. destruct (format_right6 a) as [s | e]; split; reflexivity.
Qed.

Lemma for_each_silent (l : list json) : silent (events (for_each l show_balance)).
Proof.
  induction l as [| b l IH]; [split; reflexivity |].
  cbn [for_each]. pose proof (show_balance_silent b) as Hb.
  destruct (show_balance b) as [evs [[] | e]]; [| exact Hb].
  unfold bind. destruct (for_each l show_balance) as [evs' r].
  cbn [events fst] in *. now apply silent_app.
Qed.

Lemma print_balance_silent (account : json) : silent (events (print_balance account)).
Proof.
  unfold print_balance.
  destruct (subscript account "balances") as [b | e];
    cbv beta iota delta [bind lift emit print]; [| split; reflexivity].
  destruct (iterate b) as [l | e]; [| split; reflexivity].
  pose proof (for_each_silent l) as Hl.
  destruct (for_each l show_balance) as [evs [[] | e]]; cbn [events fst app] in *.
  - change (silent ([Write ((Repr.nl +++ Fore_GREEN +++ "【账户资产概览】") +++ Repr.nl);
                     Write (Py.replicate 30 "-" +++ Repr.nl)]
                    ++ evs ++ [Write (Py.replicate 30 "-" +++ Repr.nl)])).
    apply silent_app; [split; reflexivity |].
    apply silent_app; [exact Hl | split; reflexivity].
  - change (silent ([Write ((Repr.nl +++ Fore_GREEN +++ "【账户资产概览】") +++ Repr.nl);
                     Write (Py.replicate 30 "-" +++ Repr.nl)] ++ evs)).
    apply silent_app; [split; reflexivity | exact Hl].
Qed.

(** The balance display of [main] is the account query followed by
    [print_balance]. *)
Lemma main_show_balance_eq (self : BinanceTrader) (now : Z) (net : transport) :
  main_show_balance self now net
  = bind (Trader.get_account_info self now net)
      (fun account => if truthy account then print_balance account else ret tt).
Proof. reflexivity. Qed.

Lemma main_show_balance_places_nothing (self : BinanceTrader) (now : Z) (net : transport) :
  places_nothing (events (main_show_balance self now net)).
Proof.
  rewrite main_show_balance_eq.
  pose proof (account_places_nothing self now net) as Ha.
  destruct (Trader.get_account_info self now net) as [evs [account | e]]; [| exact Ha].
  unfold bind.
  assert (Hd : silent (events (if truthy account then print_balance account else ret tt))).
  { destruct (truthy account); [apply print_balance_silent | split; reflexivity]. }
  destruct (if truthy account then print_balance account else ret tt) as [evs' r].
  cbn [events fst] in *. apply places_nothing_app; [exact Ha |].
  now apply silent_places_nothing.
Qed.

(** The reader of the time reaches neither the network nor the scheduler,
    and leaves lines that it was given. *)
Lemma time_input_loop_silent (w : world) (lines : list string) (tr cr : nat) :
  Forall not_yes lines ->
  silent (events (fst (time_input_loop w lines tr cr)))
  /\ Forall not_yes (stdin (snd (time_input_loop w lines tr cr))).
Proof.
  revert cr. induction lines as [| line rest IH]; intros cr Hall.
  - split; [split; reflexivity | constructor].
  - inversion Hall as [| x l Hline Hrest]; subst.
    cbn [time_input_loop].
    destruct (time_attempt w cr (str_strip line)) as [[t | e] reads].
    + split; [split; reflexivity | exact Hrest].
    + destruct (is_ValueError e).
      * specialize (IH reads Hrest).
        destruct (time_input_loop w rest tr reads) as [[evs r] st].
        cbn [fst snd events] in *. destruct IH as [[H1 H2] H3].
        split; [split; assumption | exact H3].
      * split; [split; reflexivity | exact Hrest].
Qed.

Lemma harmless_time_input (w : world) :
  harmless (unconfirmed 0) (get_valid_time_input w) (fun _ => unconfirmed 0).
Proof.
  intros st HP. unfold get_valid_time_input.
  destruct (time_input_loop_silent w (stdin st) (time_reads st) (clock_reads st) HP)
    as [Hs Hl].
  destruct (time_input_loop w (stdin st) (time_reads st) (clock_reads st)) as [r st'].
  exists r, st'. split; [reflexivity |].
  split; [apply silent_places_nothing; exact Hs |]. intros a _. exact Hl.
Qed.

End Harmless.

(* ================================================================= *)
(** * Properties of the interactive session *)

Module InteractiveProperties.

Import Datetime Trader Spec Console Program Cases ClientFacts SignedRequests.
Import ProgramFacts Harmless.

(** Without the answer [Y] (in either case) among the lines typed after the
    sixth, the interactive session ends without having placed anything:
    whatever the first six answers are and wherever the input ends, the only
    request it may have sent is the account query, and no job has been
    scheduled. *)
Theorem interactive_needs_confirmation :
  forall (w : world) (fuel : nat) (st : state),
    Forall not_yes (skipn 6 (stdin st)) ->
    exists (r : M unit) (st' : state),
      interactive_trading w fuel st = Some (r, st')
      /\ places_nothing (events r).
Proof.
  intros w fuel st Hst.
  assert (H : harmless (unconfirmed 6) (interactive_trading w fuel) (fun _ _ => True)).
  { unfold interactive_trading.
    eapply harmless_bind; [apply harmless_print | intros ?].
    eapply harmless_bind; [apply harmless_input | intros network_line].
    cbv zeta.
    eapply harmless_bind; [apply harmless_account | intros account].
    eapply harmless_bind.
    { destruct (truthy account).
      - apply harmless_lift, silent_places_nothing, print_balance_silent.
      - apply harmless_ret. }
    intros ?.
    eapply harmless_bind; [apply harmless_header | intros ?].
    eapply harmless_bind; [apply harmless_input | intros symbol_line].
    eapply harmless_bind; [apply harmless_input | intros side_line].
    eapply harmless_bind; [apply harmless_input_float | intros quantity].
    eapply harmless_bind; [apply harmless_input_float | intros price].
    eapply harmless_bind; [apply harmless_input | intros schedule_line].
    destruct (String.eqb (Py.upper schedule_line) "Y").
    - eapply harmless_bind; [apply harmless_time_input | intros target_time].
      eapply harmless_bind; [apply harmless_answer | intros confirm_line].
      intros st1 [Hno _].
      replace (String.eqb (Py.upper confirm_line) "Y") with false
        by (symmetry; apply String.eqb_neq; exact Hno).
      eexists; eexists. split; [reflexivity |].
      split; [apply silent_places_nothing; split; reflexivity | auto].
    - eapply harmless_bind; [apply harmless_answer | intros confirm_line].
      intros st1 [Hno _].
      replace (String.eqb (Py.upper confirm_line) "Y") with false
        by (symmetry; apply String.eqb_neq; exact Hno).
      eexists; eexists. split; [reflexivity |].
      split; [apply silent_places_nothing; split; reflexivity | auto]. }
  destruct (H st Hst) as (r & st' & Hrun & Hev & _).
  exists r, st'. split; assumption.
Qed.

Lemma interactive_needs_confirmation_witness :
  exists (r : M unit) (st' : state),
    interactive_trading (demo_world demo_exchange demo_clock) 10
      (fresh ["2"; "btcusdt"; "buy"; "1"; "100"; "y"; "18:00"; "n"])
    = Some (r, st')
    /\ places_nothing (events r).
Proof.
  apply (interactive_needs_confirmation (demo_world demo_exchange demo_clock) 10
           (fresh ["2"; "btcusdt"; "buy"; "1"; "100"; "y"; "18:00"; "n"])).
  repeat constructor; unfold not_yes; vm_compute; discriminate.
Defined.

End InteractiveProperties.

(* ================================================================= *)
(** * Orders placed and scheduled by the session and by [main] *)

Module RunFacts.

Import Datetime Trader Spec Console Program Cases ClientFacts SignedRequests.
Import ProgramFacts Harmless Countdown TimeInputProperties.

(** One step of a run, the rest of it as a whole. *)
Lemma io_bind_then {A B : Type} (m : IO A) (f : A -> IO B) (st st1 st2 : state)
    (evs : list event) (a : A) (r : M B) :
  m st = Some ((evs, Ok a), st1) ->
  f a st1 = Some (r, st2) ->
  io_bind m f st = Some ((evs ++ events r, outcome r), st2).
Proof. intros H1 H2. unfold io_bind. rewrite H1, H2. now destruct r. Qed.

Lemma input_float_run (prompt line : string) (rest : list string) (tr cr : nat)
    (x : Py.float) :
  Py.float_of_string line = Some x ->
  input_float prompt (mkState (line :: rest) tr cr)
  = Some (([Write prompt], Ok x), mkState rest tr cr).
Proof.
  intros H. unfold input_float, io_bind, input. cbn [stdin time_reads clock_reads].
  rewrite H. reflexivity.
Qed.

Lemma countdown_events_silent (samples : list Z) : silent (countdown_events samples).
Proof.
  unfold countdown_events. apply silent_app; [| split; reflexivity].
  induction samples as [| s l [IH1 IH2]]; split; cbn; auto.
Qed.

Lemma sleeps_countdown_events (samples : list Z) :
  sleeps (countdown_events samples) = length samples.
Proof.
  unfold countdown_events.
  induction samples as [| s l IH]; [reflexivity |].
  cbn [flat_map app sleeps length]. now rewrite IH.
Qed.

(** Under a clock that advances, the countdown of the session and of
    [main] ends, given fuel, having placed nothing. *)
Lemma run_countdown_ends (w : world) (scheduled_time : datetime) (st : state) :
  advancing (wall_clock w) ->
  exists (n : nat) (evs : list event),
    silent evs
    /\ forall fuel : nat, (n < fuel)%nat ->
         run_countdown w fuel scheduled_time st
         = Some ((evs, Ok tt),
                 mkState (stdin st) (time_reads st) (clock_reads st + S n)).
Proof.
  intros Hadv.
  assert (Hadv' : advancing (fun j => wall_clock w (clock_reads st + j))).
  { intros i. rewrite Nat.add_succ_r. apply Hadv. }
  destruct (countdown_counts_down _ scheduled_time Hadv') as (n & Hrun & _ & Hlen & _).
  cbv zeta in Hrun, Hlen.
  eexists n, _. split; [apply countdown_events_silent |].
  intros fuel Hf. unfold run_countdown. rewrite (Hrun fuel Hf).
  cbn [events fst]. now rewrite sleeps_countdown_events, Hlen.
Qed.

(** The reader of the time on a first line with an hour and a minute in
    range. *)
Lemma time_input_at_once (w : world) (line : string) (rest : list string)
    (tr cr : nat) (h m : Z) :
  valid (wall_clock w cr) = true -> toordinal (wall_clock w cr) < MAXORDINAL ->
  map Py.int_of_string (Py.split ":" (str_strip line)) = [Some h; Some m] ->
  0 <= h <= 23 -> 0 <= m <= 59 ->
  exists t : datetime,
    parse_time_input (wall_clock w cr) (str_strip line) = Ok t
    /\ get_valid_time_input w (mkState (line :: rest) tr cr)
       = Some (([Write time_prompt], Ok t), mkState rest tr (S cr)).
Proof.
  intros Hv Hmax Hs Hh Hm.
  destruct (time_attempt_accepted w cr _ h m Hv Hmax Hs Hh Hm) as (t & Hatt & Hp).
  exists t. split; [exact Hp |].
  unfold get_valid_time_input. cbn [stdin time_reads clock_reads time_input_loop].
  now rewrite Hatt.
Qed.

(** The session up to the question about the schedule: the account is
    queried and shown, five lines are read. *)
Lemma balance_step (account : json) :
  (truthy account = true -> outcome (print_balance account) = Ok tt) ->
  exists evs : list event,
    silent evs
    /\ forall st : state,
         (if truthy account then io_lift (print_balance account) else io_ret tt) st
         = Some ((evs, Ok tt), st).
Proof.
  intros Hshow. destruct (truthy account).
  - specialize (Hshow eq_refl). pose proof (print_balance_silent account) as Hs.
    destruct (print_balance account) as [evs res]. cbn [outcome snd] in Hshow. subst res.
    exists evs. split; [exact Hs | reflexivity].
  - exists []. split; [split; reflexivity | reflexivity].
Qed.

Lemma order_params_upper (symbol side : string) (q p : Py.float) (now : Z) :
  order_params (Py.upper symbol) (Py.upper side) q p now = order_params symbol side q p now.
Proof. unfold order_params. now rewrite !upper_upper. Qed.

End RunFacts.

Module SessionOrders.

Import Datetime Trader Spec Console Program Cases ClientFacts SignedRequests.
Import ProgramFacts Harmless RunFacts.

(** A session in which the account is shown, the quantity and the price
    are numbers, the schedule is declined and the order is confirmed with
    [Y] sends two requests: the account query at the first reading of the
    time, then the signed order, with the typed symbol and side in upper
    case and the typed numbers, at the second reading. It schedules nothing
    and leaves the lines after the seventh unread. *)
Theorem interactive_confirmed_order_is_placed :
  forall (w : world) (fuel : nat)
         (network_line symbol_line side_line quantity_line price_line
            schedule_line confirm_line : string)
         (rest : list string) (tr cr : nat) (quantity price : Py.float) (secret : string),
    let trader := init (environ w) (String.eqb (str_strip network_line) "2") in
    let lines := [network_line; symbol_line; side_line; quantity_line; price_line;
                  schedule_line; confirm_line] in
    Forall (fun l => is_ascii l = true) lines ->
    secret_key trader = Some secret ->
    balance_shown trader (time_ms w tr) (network w) ->
    Py.float_of_string quantity_line = Some quantity ->
    Py.float_of_string price_line = Some price ->
    not_yes schedule_line ->
    Py.upper confirm_line = "Y" ->
    exists (r : M unit) (sig0 sig : string),
      interactive_trading w fuel (mkState (lines ++ rest) tr cr)
      = Some (r, mkState rest (S (S tr)) cr)
      /\ _generate_signature trader [("timestamp", VInt (time_ms w tr))] = Ok sig0
      /\ _generate_signature trader
           (order_params symbol_line side_line quantity price (time_ms w (S tr))) = Ok sig
      /\ requests_of (events r)
         = [account_request trader sig0 (time_ms w tr);
            order_request trader symbol_line side_line quantity price sig (time_ms w (S tr))]
      /\ jobs_of (events r) = [].
Proof.
  intros w fuel network_line symbol_line side_line quantity_line price_line
    schedule_line confirm_line rest tr cr quantity price secret trader lines
    _ Hsecret (account & Hacc & Hshow) Hq Hp Hsched Hconf.
  pose proof (signature_of_secret trader secret [("timestamp", VInt (time_ms w tr))] Hsecret)
    as Hsig0.
  pose proof (signature_of_secret trader secret
                (order_params symbol_line side_line quantity price (time_ms w (S tr)))
                Hsecret) as Hsig.
  set (sig0 := Hmac.hexdigest _ _) in Hsig0. set (sig := Hmac.hexdigest _ _) in Hsig.
  pose proof (account_requests trader (time_ms w tr) (network w)) as Hreq_a.
  rewrite Hsig0 in Hreq_a.
  pose proof (proj2 (account_places_nothing trader (time_ms w tr) (network w))) as Hjob_a.
  destruct (Trader.get_account_info trader (time_ms w tr) (network w))
    as [evs_a res_a] eqn:Eacc.
  cbn [outcome snd events fst] in Hacc, Hreq_a, Hjob_a. subst res_a.
  destruct (balance_step account Hshow) as (evs_b & [Hb1 Hb2] & Hbal).
  pose proof (order_requests trader symbol_line side_line quantity price (time_ms w (S tr))
                (network w)) as Hreq_o.
  rewrite Hsig in Hreq_o.
  pose proof (placement_jobs trader symbol_line side_line quantity price (time_ms w (S tr))
                (network w)) as Hjob_o.
  eexists. exists sig0, sig. split.
  - unfold interactive_trading, lines. cbn [app].
    eapply io_bind_then; [reflexivity |].
    eapply io_bind_then; [reflexivity |].
    cbv zeta. fold trader.
    eapply io_bind_then;
      [rewrite get_account_info_run; cbn [stdin time_reads clock_reads];
       rewrite Eacc; reflexivity |].
    eapply io_bind_then; [apply Hbal |].
    eapply io_bind_then; [reflexivity |].
    eapply io_bind_then; [reflexivity |].
    eapply io_bind_then; [reflexivity |].
    eapply io_bind_then; [apply input_float_run; exact Hq |].
    eapply io_bind_then; [apply input_float_run; exact Hp |].
    eapply io_bind_then; [reflexivity |].
    replace (String.eqb (Py.upper schedule_line) "Y") with false
      by (symmetry; apply String.eqb_neq; exact Hsched).
    eapply io_bind_then; [reflexivity |].
    rewrite Hconf. cbn [String.eqb Ascii.eqb Bool.eqb].
    rewrite place_and_report. cbv zeta. cbn [stdin time_reads clock_reads].
    reflexivity.
  - split; [exact Hsig0 |]. split; [exact Hsig |].
    cbn [events outcome fst snd].
    rewrite !requests_of_app, !jobs_of_app. cbn [requests_of jobs_of app].
    rewrite Hreq_a, Hjob_a, Hb1, Hb2. cbn [app].
    assert (Hplaced_eq :
              Trader.place_limit_order trader (Py.upper symbol_line) (Py.upper side_line)
                quantity price (time_ms w (S tr)) (network w)
              = Trader.place_limit_order trader symbol_line side_line
                  quantity price (time_ms w (S tr)) (network w)).
    { unfold Trader.place_limit_order. cbv zeta. now rewrite order_params_upper. }
    rewrite Hplaced_eq.
    set (placed := Trader.place_limit_order trader symbol_line side_line quantity price
                     (time_ms w (S tr)) (network w)) in *.
    destruct (outcome placed) as [result | e].
    + destruct (truthy result); [destruct (subscript result "orderId") |];
        cbn [events fst]; rewrite requests_of_app, jobs_of_app;
        fold (events placed); rewrite Hreq_o, Hjob_o; split; reflexivity.
    + cbn [events fst]. fold (events placed). rewrite Hreq_o, Hjob_o. split; reflexivity.
Qed.

Lemma interactive_confirmed_order_is_placed_witness :
  let trader :=
    init (environ (demo_world demo_exchange demo_clock)) (String.eqb (str_strip "2") "2") in
  let lines := ["2"; "btcusdt"; "buy"; "1"; "100"; "n"; "y"] in
  exists (r : M unit) (sig0 sig : string),
    interactive_trading (demo_world demo_exchange demo_clock) 10 (mkState (lines ++ []) 0 0)
    = Some (r, mkState [] (S (S 0)) 0)
    /\ _generate_signature trader
         [("timestamp", VInt (time_ms (demo_world demo_exchange demo_clock) 0))] = Ok sig0
    /\ _generate_signature trader
         (order_params "btcusdt" "buy" one hundred
            (time_ms (demo_world demo_exchange demo_clock) (S 0))) = Ok sig
    /\ requests_of (events r)
       = [account_request trader sig0 (time_ms (demo_world demo_exchange demo_clock) 0);
          order_request trader "btcusdt" "buy" one hundred sig
            (time_ms (demo_world demo_exchange demo_clock) (S 0))]
    /\ jobs_of (events r) = [].
Proof.
  apply (interactive_confirmed_order_is_placed (demo_world demo_exchange demo_clock) 10
           "2" "btcusdt" "buy" "1" "100" "n" "y" [] 0 0 one hundred "s").
  - repeat constructor.
  - reflexivity.
  - exists demo_account. split; [vm_compute; reflexivity | intros _; vm_compute; reflexivity].
  - vm_compute. reflexivity.
  - vm_compute. reflexivity.
  - unfold not_yes. vm_compute. discriminate.
  - reflexivity.
Defined.

(** A session in which the account is shown, the quantity and the price
    are numbers, the schedule is asked for with [Y], the first time typed
    has an hour and a minute in range and the order is confirmed with [Y]
    hands one job to the scheduler: at the instant that the resolver
    returns for the typed time, with the typed symbol and side in upper
    case and the typed numbers. Its only request is the account query: the
    order itself is left to the job. Under a clock that advances the
    countdown then ends, given fuel, and the session returns. *)
Theorem interactive_confirmed_schedule_adds_one_job :
  forall (w : world)
         (network_line symbol_line side_line quantity_line price_line
            schedule_line time_line confirm_line : string)
         (rest : list string) (tr cr : nat) (quantity price : Py.float) (secret : string)
         (h m : Z),
    let trader := init (environ w) (String.eqb (str_strip network_line) "2") in
    let lines := [network_line; symbol_line; side_line; quantity_line; price_line;
                  schedule_line; time_line; confirm_line] in
    Forall (fun l => is_ascii l = true) lines ->
    secret_key trader = Some secret ->
    balance_shown trader (time_ms w tr) (network w) ->
    Py.float_of_string quantity_line = Some quantity ->
    Py.float_of_string price_line = Some price ->
    Py.upper schedule_line = "Y" ->
    valid (wall_clock w cr) = true -> toordinal (wall_clock w cr) < MAXORDINAL ->
    map Py.int_of_string (Py.split ":" (str_strip time_line)) = [Some h; Some m] ->
    0 <= h <= 23 -> 0 <= m <= 59 ->
    Py.upper confirm_line = "Y" ->
    advancing (wall_clock w) ->
    exists (target : datetime) (sig0 : string) (n : nat),
      parse_time_input (wall_clock w cr) (str_strip time_line) = Ok target
      /\ _generate_signature trader [("timestamp", VInt (time_ms w tr))] = Ok sig0
      /\ forall fuel : nat, (n < fuel)%nat ->
           exists r : M unit,
             interactive_trading w fuel (mkState (lines ++ rest) tr cr)
             = Some (r, mkState rest (S tr) (S cr + S n))
             /\ outcome r = Ok tt
             /\ requests_of (events r) = [account_request trader sig0 (time_ms w tr)]
             /\ jobs_of (events r)
                = [AddJob (to_micros target) (Py.upper symbol_line) (Py.upper side_line)
                     quantity price].
Proof.
  intros w network_line symbol_line side_line quantity_line price_line
    schedule_line time_line confirm_line rest tr cr quantity price secret h m trader lines
    _ Hsecret (account & Hacc & Hshow) Hq Hp Hsched Hv Hmax Htime Hh Hm Hconf Hadv.
  pose proof (signature_of_secret trader secret [("timestamp", VInt (time_ms w tr))] Hsecret)
    as Hsig0.
  set (sig0 := Hmac.hexdigest _ _) in Hsig0.
  pose proof (account_requests trader (time_ms w tr) (network w)) as Hreq_a.
  rewrite Hsig0 in Hreq_a.
  pose proof (proj2 (account_places_nothing trader (time_ms w tr) (network w))) as Hjob_a.
  destruct (Trader.get_account_info trader (time_ms w tr) (network w))
    as [evs_a res_a] eqn:Eacc.
  cbn [outcome snd events fst] in Hacc, Hreq_a, Hjob_a. subst res_a.
  destruct (balance_step account Hshow) as (evs_b & [Hb1 Hb2] & Hbal).
  destruct (time_input_at_once w time_line (confirm_line :: rest) (S tr) cr h m
              Hv Hmax Htime Hh Hm) as (target & Hparse & Hread).
  destruct (run_countdown_ends w target (mkState rest (S tr) (S cr)) Hadv)
    as (n & evs_c & [Hc1 Hc2] & Hcount).
  exists target, sig0, n. split; [exact Hparse |]. split; [exact Hsig0 |].
  intros fuel Hfuel. eexists. split.
  - unfold interactive_trading, lines. cbn [app].
    eapply io_bind_then; [reflexivity |].
    eapply io_bind_then; [reflexivity |].
    cbv zeta. fold trader.
    eapply io_bind_then;
      [rewrite get_account_info_run; cbn [stdin time_reads clock_reads];
       rewrite Eacc; reflexivity |].
    eapply io_bind_then; [apply Hbal |].
    eapply io_bind_then; [reflexivity |].
    eapply io_bind_then; [reflexivity |].
    eapply io_bind_then; [reflexivity |].
    eapply io_bind_then; [apply input_float_run; exact Hq |].
    eapply io_bind_then; [apply input_float_run; exact Hp |].
    eapply io_bind_then; [reflexivity |].
    rewrite Hsched. cbn [String.eqb Ascii.eqb Bool.eqb].
    eapply io_bind_then; [exact Hread |].
    eapply io_bind_then; [reflexivity |].
    rewrite Hconf. cbn [String.eqb Ascii.eqb Bool.eqb].
    eapply io_bind_then; [reflexivity |].
    eapply io_bind_then; [reflexivity |].
    exact (Hcount fuel Hfuel).
  - cbn [events outcome fst snd]. split; [reflexivity |].
    rewrite !requests_of_app, !jobs_of_app. cbn [requests_of jobs_of app].
    rewrite Hreq_a, Hjob_a, Hb1, Hb2, Hc1, Hc2. split; reflexivity.
Qed.

Lemma interactive_confirmed_schedule_adds_one_job_witness :
  let trader :=
    init (environ (demo_world demo_exchange demo_clock)) (String.eqb (str_strip "2") "2") in
  let lines := ["2"; "btcusdt"; "buy"; "1"; "100"; "y"; "12:01"; "y"] in
  exists (target : datetime) (sig0 : string) (n : nat),
    parse_time_input (wall_clock (demo_world demo_exchange demo_clock) 0) (str_strip "12:01")
    = Ok target
    /\ _generate_signature trader
         [("timestamp", VInt (time_ms (demo_world demo_exchange demo_clock) 0))] = Ok sig0
    /\ forall fuel : nat, (n < fuel)%nat ->
         exists r : M unit,
           interactive_trading (demo_world demo_exchange demo_clock) fuel
             (mkState (lines ++ []) 0 0)
           = Some (r, mkState [] (S 0) (S 0 + S n))
           /\ outcome r = Ok tt
           /\ requests_of (events r)
              = [account_request trader sig0
                   (time_ms (demo_world demo_exchange demo_clock) 0)]
           /\ jobs_of (events r)
              = [AddJob (to_micros target) (Py.upper "btcusdt") (Py.upper "buy") one hundred].
Proof.
  apply (interactive_confirmed_schedule_adds_one_job (demo_world demo_exchange demo_clock)
           "2" "btcusdt" "buy" "1" "100" "y" "12:01" "y" [] 0 0 one hundred "s" 12 1).
  - repeat constructor.
  - reflexivity.
  - exists demo_account. split; [vm_compute; reflexivity | intros _; vm_compute; reflexivity].
  - vm_compute. reflexivity.
  - vm_compute. reflexivity.
  - reflexivity.
  - vm_compute. reflexivity.
  - vm_compute. reflexivity.
  - vm_compute. reflexivity.
  - lia.
  - lia.
  - reflexivity.
  - exact Countdown.demo_clock_advances.
Defined.

(** A quantity that [float] refuses ends the session: after the account
    has been shown and three lines and the quantity have been read, the
    [ValueError] of [float] leaves the session, which has placed nothing and
    reads no further line, whatever the lines that follow are. *)
Theorem interactive_quantity_must_be_a_number :
  forall (w : world) (fuel : nat)
         (network_line symbol_line side_line quantity_line : string)
         (rest : list string) (tr cr : nat),
    let trader := init (environ w) (String.eqb (str_strip network_line) "2") in
    is_ascii quantity_line = true ->
    balance_shown trader (time_ms w tr) (network w) ->
    Py.float_of_string quantity_line = None ->
    exists r : M unit,
      interactive_trading w fuel
        (mkState (network_line :: symbol_line :: side_line :: quantity_line :: rest) tr cr)
      = Some (r, mkState rest (S tr) cr)
      /\ outcome r
         = Raise (simple_exc ValueError
                    ("could not convert string to float: " +++ Repr.repr_str quantity_line))
      /\ places_nothing (events r).
Proof.
  intros w fuel network_line symbol_line side_line quantity_line rest tr cr trader
    _ (account & Hacc & Hshow) Hq.
  pose proof (account_places_nothing trader (time_ms w tr) (network w)) as Hplaces.
  destruct (Trader.get_account_info trader (time_ms w tr) (network w))
    as [evs_a res_a] eqn:Eacc.
  cbn [outcome snd events fst] in Hacc, Hplaces. subst res_a.
  destruct (balance_step account Hshow) as (evs_b & Hb & Hbal).
  eexists. split.
  - unfold interactive_trading.
    eapply io_bind_then; [reflexivity |].
    eapply io_bind_then; [reflexivity |].
    cbv zeta. fold trader.
    eapply io_bind_then;
      [rewrite get_account_info_run; cbn [stdin time_reads clock_reads];
       rewrite Eacc; reflexivity |].
    eapply io_bind_then; [apply Hbal |].
    eapply io_bind_then; [reflexivity |].
    eapply io_bind_then; [reflexivity |].
    eapply io_bind_then; [reflexivity |].
    apply io_bind_raise.
    unfold input_float, io_bind, input. cbn [stdin time_reads clock_reads].
    rewrite Hq. reflexivity.
  - cbn [events outcome fst snd]. split; [reflexivity |].
    apply places_nothing_app; [apply silent_places_nothing; split; reflexivity |].
    apply places_nothing_app; [apply silent_places_nothing; split; reflexivity |].
    apply places_nothing_app; [exact Hplaces |].
    apply places_nothing_app; [apply silent_places_nothing; exact Hb |].
    apply silent_places_nothing; split; reflexivity.
Qed.

Lemma interactive_quantity_must_be_a_number_witness :
  let trader :=
    init (environ (demo_world demo_exchange demo_clock)) (String.eqb (str_strip "2") "2") in
  exists r : M unit,
    interactive_trading (demo_world demo_exchange demo_clock) 10
      (mkState ("2" :: "btcusdt" :: "buy" :: "1,5" :: ["100"; "n"; "y"]) 0 0)
    = Some (r, mkState ["100"; "n"; "y"] (S 0) 0)
    /\ outcome r
       = Raise (simple_exc ValueError
                  ("could not convert string to float: " +++ Repr.repr_str "1,5"))
    /\ places_nothing (events r).
Proof.
  apply (interactive_quantity_must_be_a_number (demo_world demo_exchange demo_clock) 10
           "2" "btcusdt" "buy" "1,5" ["100"; "n"; "y"] 0 0).
  - reflexivity.
  - exists demo_account. split; [vm_compute; reflexivity | intros _; vm_compute; reflexivity].
  - vm_compute. reflexivity.
Defined.

End SessionOrders.

(* ================================================================= *)
(** * Properties of [main] *)

Module MainProperties.

Import Datetime Trader Spec Console Program Cases ClientFacts SignedRequests.
Import ProgramFacts Harmless RunFacts.

Lemma incomplete_order_args (args : Args) : incomplete args -> order_args args = None.
Proof.
  unfold incomplete, missing_text, missing_number, order_args.
  destruct (arg_symbol args) as [symbol |]; [| reflexivity].
  destruct (arg_side args) as [side |]; [| reflexivity].
  destruct (arg_quantity args) as [q |]; [| reflexivity].
  destruct (arg_price args) as [p |]; [| reflexivity].
  intros [[H | H] | [[H | H] | [[H | [s H]] | [H | [s H]]]]];
    try discriminate H; injection H as ->; cbn [text_truthy float_truthy String.eqb negb];
    rewrite ?andb_false_r; reflexivity.
Qed.

(** Without all four arguments of an order, [main] places nothing: a symbol
    or a side that is missing or empty, a quantity or a price that is
    missing or zero, and the only request [main] may send is the account
    query of [--show_balance]; without that switch it does nothing at all.
    The time of [--schedule_time] is not even read. *)
Theorem main_without_a_full_order :
  forall (w : world) (fuel : nat) (args : Args) (st : state),
    incomplete args ->
    exists (r : M unit) (st' : state),
      main w fuel args st = Some (r, st')
      /\ places_nothing (events r)
      /\ clock_reads st' = clock_reads st
      /\ (arg_show_balance args = false -> r = ret tt /\ st' = st).
Proof.
  intros w fuel args st Hinc. unfold main.
  rewrite (incomplete_order_args args Hinc). destruct (arg_show_balance args).
  - pose proof (main_show_balance_places_nothing (init (environ w) (arg_testnet args))
                  (time_ms w (time_reads st)) (network w)) as Hq.
    unfold io_bind, read_time_ms, io_lift, io_ret, ret. cbv beta iota.
    destruct (main_show_balance _ _ _) as [evs [[] | e]]; cbn [events fst] in Hq.
    + eexists; eexists. split; [reflexivity |]. cbn [events fst app].
      rewrite app_nil_r. split; [exact Hq |]. split; [reflexivity | discriminate].
    + eexists; eexists. split; [reflexivity |]. cbn [events fst app].
      split; [exact Hq |]. split; [reflexivity | discriminate].
  - rewrite io_bind_ret. exists (ret tt), st. split; [reflexivity |].
    split; [apply silent_places_nothing; split; reflexivity |].
    split; [reflexivity | intros _; split; reflexivity].
Qed.

Lemma main_without_a_full_order_witness :
  exists (r : M unit) (st' : state),
    main (demo_world demo_exchange demo_clock) 10
      (mkArgs true (Some "BTCUSDT") (Some "BUY") (Some Py.fzero) (Some hundred)
         (Some "18:00") false)
      (fresh [])
    = Some (r, st')
    /\ places_nothing (events r)
    /\ clock_reads st' = clock_reads (fresh [])
    /\ (arg_show_balance
          (mkArgs true (Some "BTCUSDT") (Some "BUY") (Some Py.fzero) (Some hundred)
             (Some "18:00") false) = false ->
        r = ret tt /\ st' = fresh []).
Proof.
  apply (main_without_a_full_order (demo_world demo_exchange demo_clock) 10
           (mkArgs true (Some "BTCUSDT") (Some "BUY") (Some Py.fzero) (Some hundred)
              (Some "18:00") false)
           (fresh [])).
  right. right. left. right. exists false. reflexivity.
Defined.











Lemma text_truthy_false (o : option string) :
  match o with Some s => text_truthy s | None => false end = false <-> missing_text o.
Proof.
  unfold missing_text, text_truthy. destruct o as [s |]; [| split; auto].
  destruct (String.eqb s "") eqn:E; cbn [negb].
  - apply String.eqb_eq in E. subst s. split; auto.
  - apply String.eqb_neq in E. split; [discriminate |].
    intros [H | H]; [discriminate H | injection H as ->; now contradiction E].
Qed.

Lemma float_truthy_false (o : option Py.float) :
  match o with Some x => float_truthy x | None => false end = false <-> missing_number o.
Proof.
  unfold missing_number. destruct o as [x |]; [| split; auto].
  destruct x as [s | s | | s m e]; cbn [float_truthy]; split;
    try discriminate; try (intros [H | [s' H]]; discriminate H); auto.
  intros _. right. now exists s.
Qed.

(** The start of the program. It runs the interactive session exactly when
    every argument is absent, empty, zero or false. Started with some
    argument, but without a full order and without [--show_balance] (with
    [--testnet] alone, say), it does nothing at all. *)
Theorem program_start :
  forall (w : world) (fuel : nat) (args : Args) (st : state),
    (any_argument args = false
     <-> arg_testnet args = false
         /\ missing_text (arg_symbol args) /\ missing_text (arg_side args)
         /\ missing_number (arg_quantity args) /\ missing_number (arg_price args)
         /\ missing_text (arg_schedule_time args)
         /\ arg_show_balance args = false)
    /\ (any_argument args = false -> run w fuel args st = interactive_trading w fuel st)
    /\ (any_argument args = true -> incomplete args -> arg_show_balance args = false ->
        run w fuel args st = Some (ret tt, st)).
Proof.
  intros w fuel args st. split; [| split].
  - unfold any_argument. rewrite !orb_false_iff, !text_truthy_false, !float_truthy_false.
    tauto.
  - intros H. unfold run. now rewrite H.
  - intros H Hinc Hshow. unfold run. rewrite H. cbn [negb].
    unfold main. rewrite (incomplete_order_args args Hinc), Hshow.
    now rewrite io_bind_ret.
Qed.

End MainProperties.
